(** * SLURM GitLab executor: a shallow embedding of [driver.py] and
    [slurm_interface.py], and the properties of its allocation lifecycle.

    A Python [str] is modelled by the [string] of its UTF-8 bytes, the
    content of a file by the [string] of its bytes; reading a file in text
    mode decodes the bytes ([Py.decode], [Py.universal_newlines]).  [None]
    is modelled as [option]; raised exceptions as the [Raise] constructor
    of [result]. *)

From Stdlib Require Import String Ascii ZArith Lia Bool.
From Stdlib.Strings Require Import Byte.
From stdpp Require Import gmap strings list fin_maps pretty.

Local Open Scope string_scope.
Local Open Scope Z_scope.

(** ** Exceptions and results *)

Inductive exn : Type :=
| IndexError
| KeyError
| ValueError
| AttributeError
| AssertionError
| FileNotFoundError
| PermissionError
| TimeoutExpired
| TypeError
| UnicodeDecodeError
| OSError.

Inductive result (A : Type) : Type :=
| Ok (a : A)
| Raise (e : exn).
Arguments Ok {A} a.
Arguments Raise {A} e.

Definition rbind {A B} (r : result A) (k : A -> result B) : result B :=
  match r with
  | Ok a => k a
  | Raise e => Raise e
  end.

(** ** Python string primitives used by the sources *)

Module Py.

Definition LF : ascii := ascii_of_nat 10.
Definition nl : string := String LF EmptyString.

(** The characters that [str.strip()] removes and [str.isspace()]
    accepts.  Those of one byte: TAB, LF, VT, FF, CR, FS, GS, RS, US and
    SPACE. *)
Definition isspace (c : ascii) : bool :=
  let n := nat_of_ascii c in
  ((9 <=? n)%nat && (n <=? 13)%nat) || ((28 <=? n)%nat && (n <=? 32)%nat).

(** Those of two bytes: U+0085 and U+00A0 ([C2 85], [C2 A0]). *)
Definition isspace2 (c d : ascii) : bool :=
  let m := nat_of_ascii c in
  let n := nat_of_ascii d in
  (m =? 194)%nat && ((n =? 133)%nat || (n =? 160)%nat).

(** Those of three bytes: U+1680 ([E1 9A 80]), U+2000 to U+200A
    ([E2 80 80] to [E2 80 8A]), U+2028, U+2029, U+202F ([E2 80 A8],
    [E2 80 A9], [E2 80 AF]), U+205F ([E2 81 9F]) and U+3000 ([E3 80 80]). *)
Definition isspace3 (c d e : ascii) : bool :=
  let m := nat_of_ascii c in
  let n := nat_of_ascii d in
  let k := nat_of_ascii e in
  ((m =? 225)%nat && (n =? 154)%nat && (k =? 128)%nat)
  || ((m =? 226)%nat && (n =? 128)%nat
      && (((128 <=? k)%nat && (k <=? 138)%nat)
          || (k =? 168)%nat || (k =? 169)%nat || (k =? 175)%nat))
  || ((m =? 226)%nat && (n =? 129)%nat && (k =? 159)%nat)
  || ((m =? 227)%nat && (n =? 128)%nat && (k =? 128)%nat).

(** [s.lstrip()] *)
Fixpoint lstrip (s : string) : string :=
  match s with
  | EmptyString => EmptyString
  | String c r =>
      if isspace c then lstrip r
      else match r with
           | String d r1 =>
               if isspace2 c d then lstrip r1
               else match r1 with
                    | String e r2 => if isspace3 c d e then lstrip r2 else s
                    | EmptyString => s
                    end
           | EmptyString => s
           end
  end.

(** [s.rstrip()]: the text is cut where only blanks follow. *)
Fixpoint rstrip (s : string) : string :=
  match s with
  | EmptyString => EmptyString
  | String c r =>
      match lstrip s with
      | EmptyString => EmptyString
      | _ => String c (rstrip r)
      end
  end.

(** [s.strip()] *)
Definition strip (s : string) : string := rstrip (lstrip s).

(** [s[n:]] on bytes *)
Fixpoint skip (n : nat) (s : string) : string :=
  match n, s with
  | O, _ => s
  | S n', String _ r => skip n' r
  | S _, EmptyString => EmptyString
  end.

(** Well-formed UTF-8, byte by byte: [need] continuation bytes are still
    expected, the next of them between [lo] and [hi].  The ranges are those
    of the Unicode standard: shortest form only, no surrogate, nothing above
    U+10FFFF. *)
Fixpoint utf8_from (need lo hi : nat) (s : string) : bool :=
  match s with
  | EmptyString => (need =? 0)%nat
  | String b r =>
      let n := nat_of_ascii b in
      match need with
      | O =>
          if (n <? 128)%nat then utf8_from 0 128 191 r
          else if ((194 <=? n) && (n <=? 223))%nat then utf8_from 1 128 191 r
          else if (n =? 224)%nat then utf8_from 2 160 191 r
          else if ((225 <=? n) && (n <=? 236))%nat then utf8_from 2 128 191 r
          else if (n =? 237)%nat then utf8_from 2 128 159 r
          else if ((238 <=? n) && (n <=? 239))%nat then utf8_from 2 128 191 r
          else if (n =? 240)%nat then utf8_from 3 144 191 r
          else if ((241 <=? n) && (n <=? 243))%nat then utf8_from 3 128 191 r
          else if (n =? 244)%nat then utf8_from 3 128 143 r
          else false
      | S k => ((lo <=? n) && (n <=? hi))%nat && utf8_from k 128 191 r
      end
  end.

Definition utf8 (s : string) : bool := utf8_from 0 128 191 s.

(** [b.decode("utf-8")]: the text keeps the bytes, which must be well
    formed. *)
Definition decode (b : string) : result string :=
  if utf8 b then Ok b else Raise UnicodeDecodeError.

Definition CR : ascii := ascii_of_nat 13.

(** What reading in text mode makes of line ends ([newline=None]): CR LF
    and a lone CR both become LF. *)
Fixpoint universal_newlines (s : string) : string :=
  match s with
  | EmptyString => EmptyString
  | String c r =>
      if Ascii.eqb c CR then
        match r with
        | String d r' =>
            if Ascii.eqb d LF then String LF (universal_newlines r')
            else String LF (universal_newlines r)
        | EmptyString => String LF EmptyString
        end
      else String c (universal_newlines r)
  end.

(** [s.split(sep)] for a one-character separator: never the empty list. *)
Fixpoint split (sep : ascii) (s : string) : list string :=
  match s with
  | EmptyString => [EmptyString]
  | String c r =>
      if Ascii.eqb c sep then EmptyString :: split sep r
      else match split sep r with
           | [] => [String c EmptyString]
           | h :: t => String c h :: t
           end
  end.

(** [s.split(sep, 1)]: cut at the first separator only. *)
Fixpoint split1 (sep : ascii) (s : string) : list string :=
  match s with
  | EmptyString => [EmptyString]
  | String c r =>
      if Ascii.eqb c sep then [EmptyString; r]
      else match split1 sep r with
           | [] => [String c EmptyString]
           | h :: t => String c h :: t
           end
  end.

(** [sep.join(l)] *)
Definition join (sep : string) (l : list string) : string :=
  String.concat sep l.

(** [needle in hay] on strings: substring test. *)
Fixpoint contains (needle hay : string) : bool :=
  String.prefix needle hay
  || match hay with
     | EmptyString => false
     | String _ r => contains needle r
     end.

(** [l[i]] *)
Definition index {A} (l : list A) (i : nat) : result A :=
  match nth_error l i with
  | Some x => Ok x
  | None => Raise IndexError
  end.

(** [d.get(k, None)] on a dict given as its items in insertion order. *)
Fixpoint dict_get {V} (d : list (string * V)) (k : string) : option V :=
  match d with
  | [] => None
  | (k', v) :: d' => if String.eqb k' k then Some v else dict_get d' k
  end.

(** [max(l, key=...)] on items already paired with their keys: the first
    item whose key is not exceeded by any other. *)
Fixpoint max_from (best : string * string) (l : list (string * string))
  : string * string :=
  match l with
  | [] => best
  | x :: l' => max_from (if String.ltb (fst best) (fst x) then x else best) l'
  end.

End Py.

(** ** [slurm_interface.py]: job states *)

Inductive SLURMJobState : Type :=
| BOOT_FAIL | CANCELLED | COMPLETED | DEADLINE | FAILED | NODE_FAIL
| OUT_OF_MEMORY | PENDING | PREEMPTED | RUNNING | REQUEUED | RESIZING
| REVOKED | SUSPENDED | TIMEOUT.

Definition SLURMJobState_eqb (a b : SLURMJobState) : bool :=
  match a, b with
  | BOOT_FAIL, BOOT_FAIL | CANCELLED, CANCELLED | COMPLETED, COMPLETED
  | DEADLINE, DEADLINE | FAILED, FAILED | NODE_FAIL, NODE_FAIL
  | OUT_OF_MEMORY, OUT_OF_MEMORY | PENDING, PENDING | PREEMPTED, PREEMPTED
  | RUNNING, RUNNING | REQUEUED, REQUEUED | RESIZING, RESIZING
  | REVOKED, REVOKED | SUSPENDED, SUSPENDED | TIMEOUT, TIMEOUT => true
  | _, _ => false
  end.

(** The members of the enumeration, in declaration order. *)
Definition all_states : list SLURMJobState :=
  [BOOT_FAIL; CANCELLED; COMPLETED; DEADLINE; FAILED; NODE_FAIL;
   OUT_OF_MEMORY; PENDING; PREEMPTED; RUNNING; REQUEUED; RESIZING;
   REVOKED; SUSPENDED; TIMEOUT].

(** [SLURMJobState._get_equivalent_states()]: the items of the dict literal,
    in insertion order. *)
Definition _get_equivalent_states : list (string * SLURMJobState) :=
  [("BOOT_FAIL", BOOT_FAIL); ("BF", BOOT_FAIL);
   ("CANCELLED", CANCELLED); ("CA", CANCELLED);
   ("COMPLETED", COMPLETED); ("CD", COMPLETED);
   ("DEADLINE", DEADLINE); ("DL", DEADLINE);
   ("FAILED", FAILED); ("F", FAILED);
   ("NODE_FAIL", NODE_FAIL); ("NF", NODE_FAIL);
   ("OUT_OF_MEMORY", OUT_OF_MEMORY); ("OOM", OUT_OF_MEMORY);
   ("PENDING", PENDING); ("PD", PENDING);
   ("PREEMPTED", PREEMPTED); ("PR", PREEMPTED);
   ("RUNNING", RUNNING); ("R", RUNNING);
   ("REQUEUED", REQUEUED); ("RQ", REQUEUED);
   ("RESIZING", RESIZING); ("RS", RESIZING);
   ("REVOKED", REVOKED); ("RV", REVOKED);
   ("SUSPENDED", SUSPENDED); ("S", SUSPENDED);
   ("TIMEOUT", TIMEOUT); ("TO", TIMEOUT)].

(** [SLURMJobState.from_string] *)
Definition from_string (state : string) : option SLURMJobState :=
  Py.dict_get _get_equivalent_states state.

(** The loop of [SLURMJobState.to_string] over the dict items. *)
Fixpoint to_string_loop (items : list (string * SLURMJobState))
  (self : SLURMJobState) : result string :=
  match items with
  | [] => Raise ValueError
  | (k, v) :: items' =>
      if SLURMJobState_eqb v self then Ok k else to_string_loop items' self
  end.

(** [SLURMJobState.to_string] *)
Definition to_string (self : SLURMJobState) : result string :=
  to_string_loop _get_equivalent_states self.

(** A code is recognized when it is a key of the code table. *)
Definition recognized (code : string) : bool :=
  existsb (fun kv => String.eqb (fst kv) code) _get_equivalent_states.

(** ** [slurm_interface.py]: allocation requests *)

Record SLURMJobRequestData : Type := {
  job_name : string;
  nodes : option string;
  mem : option string;
  mem_bind : option string;
  mem_per_cpu : option string;
  cpus_per_task : option string;
  n_tasks : option string;
  time_limit : option string;
  time_min : option string;
  exclusive : bool;
  network : option string;
  contiguous : bool;
  partition : option string;
  power : option string;
  priority : option string;
  nice : option string;
  comment : option string;
  chdir : option string;
  export : option string;
  stdout_file : option string;
  stderr_file : option string
}.

(** [f"{flag}={v}" if v is not None else None] *)
Definition valued (flag : string) (v : option string) : option string :=
  match v with
  | Some x => Some (flag ++ "=" ++ x)
  | None => None
  end.

(** [f"{flag}" if b else None] *)
Definition bare (flag : string) (b : bool) : option string :=
  if b then Some flag else None.

Definition dquote : string := String (ascii_of_nat 34) EmptyString.

(** [f"--comment=\"{v}\"" if v is not None else None] *)
Definition quoted (flag : string) (v : option string) : option string :=
  match v with
  | Some x => Some (flag ++ "=" ++ dquote ++ x ++ dquote)
  | None => None
  end.

(** [[x for x in parameters if x is not None]] *)
Fixpoint not_none {A} (l : list (option A)) : list A :=
  match l with
  | [] => []
  | Some x :: l' => x :: not_none l'
  | None :: l' => not_none l'
  end.

(** [SLURMJobRequestData.get_cli_parameters] *)
Definition get_cli_parameters (self : SLURMJobRequestData) : list string :=
  let parameters :=
    [ Some ("--job-name=" ++ job_name self);
      valued "--nodes" (nodes self);
      valued "--mem" (mem self);
      valued "--mem-bind" (mem_bind self);
      valued "--mem-per-cpu" (mem_per_cpu self);
      valued "--cpus-per-task" (cpus_per_task self);
      valued "--ntasks" (n_tasks self);
      valued "--time" (time_limit self);
      valued "--time-min" (time_min self);
      bare "--exclusive" (exclusive self);
      valued "--network" (network self);
      bare "--contiguous" (contiguous self);
      valued "--partition" (partition self);
      valued "--power" (power self);
      valued "--priority" (priority self);
      valued "--nice" (nice self);
      quoted "--comment" (comment self);
      valued "--chdir" (chdir self);
      valued "--export" (export self);
      valued "--output" (stdout_file self);
      valued "--error" (stderr_file self) ] in
  not_none parameters.

(** [f"#SBATCH {x}"] *)
Definition sbatch_line (x : string) : string := "#SBATCH " ++ x.

(** The list [lines] built by [to_sbatch_file_string] before it is joined. *)
Definition sbatch_lines (self : SLURMJobRequestData)
  (script_lines : list string) : list string :=
  let lines := ["#!/bin/bash"; ""] in
  let lines := (lines ++ map sbatch_line (get_cli_parameters self))%list in
  let lines := (lines ++ [""])%list in
  (lines ++ script_lines)%list.

(** [SLURMJobRequestData.to_sbatch_file_string] *)
Definition to_sbatch_file_string (self : SLURMJobRequestData)
  (script_lines : list string) : result string :=
  if (0 <? length script_lines)%nat
  then Ok (Py.join Py.nl (sbatch_lines self script_lines))
  else Raise AssertionError.

(** The optional fields of a request, named as the spec's data model names
    them, in rendering order. *)
Inductive field : Type :=
| Fnodes | Fmem | Fmem_bind | Fmem_per_cpu | Fcpus_per_task | Fn_tasks
| Ftime_limit | Ftime_min | Fexclusive | Fnetwork | Fcontiguous | Fpartition
| Fpower | Fpriority | Fnice | Fcomment | Fchdir | Fexport | Fstdout_file
| Fstderr_file.

#[local] Instance field_eq_dec : EqDecision field.
Proof. solve_decision. Defined.

Definition all_fields : list field :=
  [Fnodes; Fmem; Fmem_bind; Fmem_per_cpu; Fcpus_per_task; Fn_tasks;
   Ftime_limit; Ftime_min; Fexclusive; Fnetwork; Fcontiguous; Fpartition;
   Fpower; Fpriority; Fnice; Fcomment; Fchdir; Fexport; Fstdout_file;
   Fstderr_file].

(** The scheduler flag of each optional field. *)
Definition flag_of (f : field) : string :=
  match f with
  | Fnodes => "--nodes" | Fmem => "--mem" | Fmem_bind => "--mem-bind"
  | Fmem_per_cpu => "--mem-per-cpu" | Fcpus_per_task => "--cpus-per-task"
  | Fn_tasks => "--ntasks" | Ftime_limit => "--time" | Ftime_min => "--time-min"
  | Fexclusive => "--exclusive" | Fnetwork => "--network"
  | Fcontiguous => "--contiguous" | Fpartition => "--partition"
  | Fpower => "--power" | Fpriority => "--priority" | Fnice => "--nice"
  | Fcomment => "--comment" | Fchdir => "--chdir" | Fexport => "--export"
  | Fstdout_file => "--output" | Fstderr_file => "--error"
  end.

Definition is_boolean (f : field) : bool :=
  match f with
  | Fexclusive | Fcontiguous => true
  | _ => false
  end.

(** The value carried by a valued field of a request, when present. *)
Definition field_value (r : SLURMJobRequestData) (f : field) : option string :=
  match f with
  | Fnodes => nodes r | Fmem => mem r | Fmem_bind => mem_bind r
  | Fmem_per_cpu => mem_per_cpu r | Fcpus_per_task => cpus_per_task r
  | Fn_tasks => n_tasks r | Ftime_limit => time_limit r
  | Ftime_min => time_min r | Fnetwork => network r
  | Fpartition => partition r | Fpower => power r | Fpriority => priority r
  | Fnice => nice r | Fcomment => comment r | Fchdir => chdir r
  | Fexport => export r | Fstdout_file => stdout_file r
  | Fstderr_file => stderr_file r
  | Fexclusive | Fcontiguous => None
  end.

(** A field is present when its value is not [None] (valued fields) or when
    it is set (boolean fields). *)
Definition present (r : SLURMJobRequestData) (f : field) : bool :=
  match f with
  | Fexclusive => exclusive r
  | Fcontiguous => contiguous r
  | _ => match field_value r f with Some _ => true | None => false end
  end.

Definition option_list {A} (o : option A) : list A :=
  match o with
  | Some x => [x]
  | None => []
  end.

(** A line is a directive for field [f] when it reads [#SBATCH <flag>=...]
    (valued field) or is exactly [#SBATCH <flag>] (boolean field). *)
Definition is_directive_of (f : field) (line : string) : bool :=
  if is_boolean f then String.eqb line ("#SBATCH " ++ flag_of f)
  else String.prefix ("#SBATCH " ++ flag_of f ++ "=") line.

Definition is_job_name_directive (line : string) : bool :=
  String.prefix "#SBATCH --job-name=" line.

(** The directive that the specification prescribes for field [f] of
    request [r]: [<flag>=<value>] for a valued field that is present, the
    bare flag for a boolean field that is set, none otherwise.  What
    [get_cli_parameters] renders is [rendered_directive] below. *)
Definition directive_for (r : SLURMJobRequestData) (f : field) : option string :=
  if is_boolean f then (if present r f then Some ("#SBATCH " ++ flag_of f) else None)
  else match field_value r f with
       | Some v => Some ("#SBATCH " ++ flag_of f ++ "=" ++ v)
       | None => None
       end.

(** The directive that [get_cli_parameters] renders for field [f]
    (lines 172-196): the one of the specification, except that the value
    of the comment stands between double quotes. *)
Definition rendered_directive (r : SLURMJobRequestData) (f : field)
  : option string :=
  match f with
  | Fcomment =>
      match comment r with
      | Some v => Some ("#SBATCH --comment=" ++ dquote ++ v ++ dquote)
      | None => None
      end
  | _ => directive_for r f
  end.

(** The text has no line feed. *)
Fixpoint no_newline (s : string) : bool :=
  match s with
  | EmptyString => true
  | String c r => negb (Ascii.eqb c Py.LF) && no_newline r
  end.

(** ** The process and its surroundings

    Everything the driver touches outside its own variables: the files of
    the shared workspace, the environment variables, the logger, the clock
    and the scheduler's command-line tools.  Every effect is also appended
    to [trace], in the order in which it happened. *)

Inductive level : Type := DEBUG | INFO | CRITICAL.

Inductive event : Type :=
| EvSleep (seconds : Z)
| EvSystem (command : string)
| EvLog (lvl : level) (message : string)
| EvWrite (path : string) (text : string)
| EvChmod (path : string) (mode : Z)
| EvRename (src dst : string)
| EvProbe (answer : bool).

(** What a command run through [subprocess.Popen] does: it exits with a
    return code and its two output streams, or the call raises (command not
    found, [wait] timeout). *)
Inductive sys_answer : Type :=
| SysExit (retcode : Z) (out err : string)
| SysRaise (e : exn).

Record file : Type := { content : string; mode : Z }.

Record World : Type := {
  files : gmap string file;
  (** paths that cannot be opened for writing, with the error raised *)
  denied : gmap string exn;
  (** paths that can be opened, but on which writing fails (quota, disk
      full) after so many bytes have reached the file, with the error
      raised *)
  failing : gmap string (nat * exn);
  environ : gmap string string;
  cwd : string;
  log_level : level;
  (** the answer to the [n]-th command issued through [_system] *)
  scheduler : nat -> string -> sys_answer;
  sys_count : nat;
  trace : list event
}.

Definition with_files (fs : gmap string file) (w : World) : World :=
  {| files := fs; denied := denied w; failing := failing w; environ := environ w; cwd := cwd w;
     log_level := log_level w; scheduler := scheduler w;
     sys_count := sys_count w; trace := trace w |}.

Definition record (e : event) (w : World) : World :=
  {| files := files w; denied := denied w; failing := failing w; environ := environ w; cwd := cwd w;
     log_level := log_level w; scheduler := scheduler w;
     sys_count := sys_count w; trace := (trace w ++ [e])%list |}.

Definition count_call (w : World) : World :=
  {| files := files w; denied := denied w; failing := failing w; environ := environ w; cwd := cwd w;
     log_level := log_level w; scheduler := scheduler w;
     sys_count := S (sys_count w); trace := trace w |}.

(** A computation of the driver: from a world it reaches a result (a value
    or a raised exception) and a new world, or it has not returned within
    the steps the model was given ([None]). *)
Definition M (A : Type) : Type := World -> option (result A * World).

Definition ret {A} (a : A) : M A := fun w => Some (Ok a, w).

Definition raise {A} (e : exn) : M A := fun w => Some (Raise e, w).

Definition bind {A B} (m : M A) (k : A -> M B) : M B :=
  fun w =>
    match m w with
    | None => None
    | Some (Ok a, w') => k a w'
    | Some (Raise e, w') => Some (Raise e, w')
    end.

Definition lift {A} (r : result A) : M A := fun w => Some (r, w).

(** [try: body finally: fin]: [fin] runs whether [body] returned or raised
    (not when it never returns); an exception raised by [fin] replaces the
    outcome of [body].  [fin] is given the outcome of [body], from which it
    reads the local variables that [body] assigned. *)
Definition try_finally {A} (body : M A) (fin : result A -> M unit) : M A :=
  fun w =>
    match body w with
    | None => None
    | Some (r, w') =>
        match fin r w' with
        | None => None
        | Some (Ok _, w'') => Some (r, w'')
        | Some (Raise e, w'') => Some (Raise e, w'')
        end
    end.

Declare Scope driver_scope.
Delimit Scope driver_scope with driver.
Notation "'let*' x := m 'in' k" := (bind m (fun x => k))
  (at level 10, x pattern, m at level 100, k at level 200) : driver_scope.
Notation "m ;; k" := (bind m (fun _ => k))
  (at level 100, k at level 200, right associativity) : driver_scope.
Local Open Scope driver_scope.

Definition get {A} (f : World -> A) : M A := fun w => Some (Ok (f w), w).

Definition emit (e : event) : M unit := fun w => Some (Ok tt, record e w).

(** [logging.debug], [logging.info], [logging.critical] *)
Definition logging (lvl : level) (message : string) : M unit :=
  emit (EvLog lvl message).

(** [time.sleep(seconds)] *)
Definition time_sleep (seconds : Z) : M unit := emit (EvSleep seconds).

(** *** Files *)

(** [os.R_OK], [os.X_OK] *)
Definition R_OK : Z := 4.
Definition X_OK : Z := 1.

(** The calling user owns the files of the model: access is decided by the
    owner's permission bits. *)
Definition permits (f : file) (bit : Z) : bool :=
  negb (Z.land (Z.shiftr (mode f) 6) bit =? 0).

Definition os_path_isfile (path : string) : M bool :=
  get (fun w => match files w !! path with Some _ => true | None => false end).

Definition os_access (path : string) (bit : Z) : M bool :=
  get (fun w => match files w !! path with
                | Some f => permits f bit
                | None => false
                end).

(** The path can be opened for writing and takes what is written. *)
Definition writable (w : World) (path : string) : Prop :=
  denied w !! path = None /\ failing w !! path = None.

(** [with open(path, "w", encoding="utf-8") as f: f.write(text)]: the file
    is created with mode 0o644 when it is new and keeps its mode otherwise.
    Opening it empties it; a write that fails after that leaves what got
    through. *)
Definition write_file (path text : string) : M unit :=
  fun w =>
    match denied w !! path with
    | Some e => Some (Raise e, w)
    | None =>
        let m := match files w !! path with Some f => mode f | None => 420 end in
        let put t :=
          record (EvWrite path t)
            (with_files (<[path := {| content := t; mode := m |}]> (files w)) w) in
        match failing w !! path with
        | Some (n, e) => Some (Raise e, put (String.substring 0 n text))
        | None => Some (Ok tt, put text)
        end
    end.

(** [with open(path, "r", encoding="utf-8") as f: f.read()]: the bytes are
    decoded and the line ends translated. *)
Definition read_file (path : string) : M string :=
  fun w =>
    match files w !! path with
    | None => Some (Raise FileNotFoundError, w)
    | Some f =>
        if permits f R_OK
        then Some (rbind (Py.decode (content f))
                     (fun text => Ok (Py.universal_newlines text)), w)
        else Some (Raise PermissionError, w)
    end.

(** [os.chmod(path, mode)] *)
Definition os_chmod (path : string) (m : Z) : M unit :=
  fun w =>
    match files w !! path with
    | None => Some (Raise FileNotFoundError, w)
    | Some f =>
        Some (Ok tt, record (EvChmod path m)
                       (with_files (<[path := {| content := content f; mode := m |}]> (files w)) w))
    end.

(** [os.rename(src, dst)]: [dst] is replaced when it exists. *)
Definition os_rename (src dst : string) : M unit :=
  fun w =>
    match files w !! src with
    | None => Some (Raise FileNotFoundError, w)
    | Some f =>
        match denied w !! dst with
        | Some e => Some (Raise e, w)
        | None =>
            Some (Ok tt, record (EvRename src dst)
                           (with_files (<[dst := f]> (delete src (files w))) w))
        end
    end.

(** [os.path.join(a, b)] *)
Definition os_path_join (a b : string) : string :=
  if String.prefix "/" b then b
  else match a with
       | EmptyString => b
       | _ => if String.eqb (String.substring (String.length a - 1) 1 a) "/"
              then a ++ b else a ++ "/" ++ b
       end.

(** [os.path.abspath(path)], without the normalisation of [.] and [..]. *)
Definition os_path_abspath (path : string) : M string :=
  get (fun w => os_path_join (cwd w) path).

(** *** Integers read from text *)

Definition digit_of (c : ascii) : option Z :=
  let n := nat_of_ascii c in
  if ((48 <=? n)%nat && (n <=? 57)%nat) then Some (Z.of_nat n - 48) else None.

(** Decimal digits with single underscores allowed between digits, as
    [int()] accepts them. *)
Fixpoint digits_value (acc : Z) (after_digit : bool) (s : string) : option Z :=
  match s with
  | EmptyString => if after_digit then Some acc else None
  | String c r =>
      match digit_of c with
      | Some d => digits_value (10 * acc + d) true r
      | None =>
          if Ascii.eqb c (ascii_of_nat 95) && after_digit
          then digits_value acc false r
          else None
      end
  end.

(** [int(s)] for a string [s] *)
Definition py_int (s : string) : result Z :=
  let body :=
    match Py.strip s with
    | String c r =>
        if Ascii.eqb c (ascii_of_nat 45) then option_map Z.opp (digits_value 0 false r)
        else if Ascii.eqb c (ascii_of_nat 43) then digits_value 0 false r
        else digits_value 0 false (String c r)
    | EmptyString => None
    end in
  match body with
  | Some z => Ok z
  | None => Raise ValueError
  end.

(** [f"{x}"] for an optional string: [None] prints as its name. *)
Definition fmt (x : option string) : string :=
  match x with
  | Some s => s
  | None => "None"
  end.

(** ** [slurm_interface.py]: running the scheduler's tools *)

(** [_system(command)] *)
Definition _system (command : string) : M (Z * string * string) :=
  fun w =>
    let w1 := count_call (record (EvSystem command) w) in
    match scheduler w (sys_count w) command with
    | SysRaise e => Some (Raise e, w1)
    | SysExit retcode out err =>
        (let stdout := Py.strip out in
         let stderr := Py.strip err in
         logging DEBUG ("Command: " ++ command);;
         logging DEBUG (" - Return code: " ++ pretty retcode);;
         logging DEBUG (" - Stdout: " ++ stdout);;
         (if (0 <? String.length stderr)%nat
          then logging DEBUG (" - Stderr: " ++ stderr) else ret tt);;
         ret (retcode, stdout, stderr)) w1
    end.

Module SLURMRegisteredJobData.

Record t : Type := {
  id : string;
  name : string;
  state : option SLURMJobState;
  exit_code : string;
  elapsed : string;
  n_tasks : string;
  submit : string;
  start : string;
  end_ : string;
  account : string;
  user : string;
  time_limit : string
}.

Definition variables : list string :=
  ["JobID"; "JobName"; "State"; "ExitCode"; "Elapsed"; "NTasks"; "Submit";
   "Start"; "End"; "Account"; "User"; "Timelimit"].

(** [raw_data[key]] *)
Definition item (raw_data : list (string * string)) (key : string)
  : result string :=
  match Py.dict_get raw_data key with
  | Some v => Ok v
  | None => Raise KeyError
  end.

(** [SLURMRegisteredJobData.__init__], on the items of [raw_data] *)
Definition __init__ (raw_data : list (string * string)) : result t :=
  rbind (item raw_data "JobID") (fun job_id =>
  rbind (Py.index (Py.split (ascii_of_nat 46) job_id) 0) (fun id_ =>
  rbind (item raw_data "JobName") (fun name_ =>
  rbind (item raw_data "State") (fun state_ =>
  rbind (item raw_data "ExitCode") (fun exit_code_ =>
  rbind (item raw_data "Elapsed") (fun elapsed_ =>
  rbind (item raw_data "NTasks") (fun n_tasks_ =>
  rbind (item raw_data "Submit") (fun submit_ =>
  rbind (item raw_data "Start") (fun start_ =>
  rbind (item raw_data "End") (fun end__ =>
  rbind (item raw_data "Account") (fun account_ =>
  rbind (item raw_data "User") (fun user_ =>
  rbind (item raw_data "Timelimit") (fun time_limit_ =>
  Ok {| id := id_; name := name_; state := from_string state_;
        exit_code := exit_code_; elapsed := elapsed_; n_tasks := n_tasks_;
        submit := submit_; start := start_; end_ := end__;
        account := account_; user := user_;
        time_limit := time_limit_ |}))))))))))))).

End SLURMRegisteredJobData.

Module SLURMInterface.

Definition bar : ascii := ascii_of_nat 124.
Definition semicolon : ascii := ascii_of_nat 59.

(** [x.strip().split("|")[1]] *)
Definition name_field (x : string) : result string :=
  Py.index (Py.split bar (Py.strip x)) 1.

(** [lambda x: x.strip().split("|")[2]] *)
Definition submit_field (x : string) : result string :=
  Py.index (Py.split bar (Py.strip x)) 2.

(** [[x for x in stdout_lines if job_name in x.strip().split("|")[1]]] *)
Fixpoint lines_matching (job_name : string) (stdout_lines : list string)
  : result (list string) :=
  match stdout_lines with
  | [] => Ok []
  | x :: rest =>
      rbind (name_field x) (fun field =>
      rbind (lines_matching job_name rest) (fun kept =>
      Ok (if Py.contains job_name field then x :: kept else kept)))
  end.

(** The keys that [max] computes, item by item. *)
Fixpoint submit_keys (stdout_lines : list string)
  : result (list (string * string)) :=
  match stdout_lines with
  | [] => Ok []
  | x :: rest =>
      rbind (submit_field x) (fun key =>
      rbind (submit_keys rest) (fun keyed => Ok ((key, x) :: keyed)))
  end.

(** [max(stdout_lines, key=lambda x: x.strip().split("|")[2])] *)
Definition newest (stdout_lines : list string) : result string :=
  rbind (submit_keys stdout_lines) (fun keyed =>
  match keyed with
  | [] => Raise ValueError
  | first :: rest => Ok (snd (Py.max_from first rest))
  end).

(** [SLURMInterface.get_id_from_name] *)
Definition get_id_from_name (job_name : string) : M (option string) :=
  let* (retcode, stdout, _) :=
    _system ("sacct --name " ++ dquote ++ job_name ++ dquote
             ++ " --noheader -P --format=JobID,JobName,Submit") in
  if negb (retcode =? 0) then ret None else
  let stdout_lines := Py.split Py.LF stdout in
  if (length stdout_lines =? 0)%nat then ret None else
  let* stdout_lines := lift (lines_matching job_name stdout_lines) in
  if (length stdout_lines =? 0)%nat then ret None else
  let* newest_job := lift (newest stdout_lines) in
  let* job_id := lift (Py.index (Py.split1 bar (Py.strip newest_job)) 0) in
  ret (Some job_id).

(** [SLURMInterface.sacct] *)
Definition sacct (job_id : option string)
  : M (option SLURMRegisteredJobData.t) :=
  let variables := SLURMRegisteredJobData.variables in
  let* (retcode, stdout, _) :=
    _system ("sacct --jobs " ++ fmt job_id ++ " --noheader -P --format="
             ++ Py.join "," variables) in
  if negb (retcode =? 0) || (String.length stdout =? 0)%nat then ret None else
  let stdout_lines := Py.split1 Py.LF stdout in
  if (length stdout_lines =? 0)%nat then ret None else
  let* line := lift (Py.index stdout_lines 0) in
  let job_variables := Py.split bar (Py.strip line) in
  let* data := lift (SLURMRegisteredJobData.__init__
                       (combine variables job_variables)) in
  ret (Some data).

(** [SLURMInterface.exists] *)
Definition exists_ (job_id : option string) : M bool :=
  let* data := sacct job_id in
  ret (match data with Some _ => true | None => false end).

(** [SLURMInterface.scancel] *)
Definition scancel (job_id : option string) : M bool :=
  let* (retcode, _, _) := _system ("scancel " ++ fmt job_id) in
  ret (retcode =? 0).

(** [SLURMInterface.sbatch] *)
Definition sbatch (sbatch_filepath : string) : M (option string) :=
  let* (retcode, stdout, _) :=
    _system ("sbatch --parsable " ++ sbatch_filepath) in
  if negb (retcode =? 0) then ret None else
  let* line := lift (Py.index (Py.split1 Py.LF (Py.strip stdout)) 0) in
  let* job_id := lift (Py.index (Py.split1 semicolon line) 0) in
  ret (Some job_id).

End SLURMInterface.

(** ** [driver.py] *)

Definition SLURM_JOB_START_TIMEOUT_SECONDS : Z := 1200.
Definition SLURM_JOB_STOP_TIMEOUT_SECONDS_BEFORE_CANCEL : Z := 30.

(** [wait_until(condition, timeout_seconds)].  [fuel] bounds the number of
    iterations of the [while] loop that the model follows. *)
Fixpoint wait_until (fuel : nat) (condition : M bool) (timeout_seconds : Z)
  : M bool :=
  if timeout_seconds =? 0 then ret false
  else match fuel with
       | O => fun _ => None
       | S fuel' =>
           let* c := condition in
           if c then ret true
           else time_sleep 1;;
                wait_until fuel' condition (timeout_seconds - 1)
       end.

Module GitLabJobInterface.

(** [GitLabJobInterface.get_env(key, default)] *)
Definition get_env (key : string) (default : option string)
  : M (option string) :=
  get (fun w =>
         let gitlab_ci_env_token := "CUSTOM_ENV_" in
         let local_key := gitlab_ci_env_token ++ "LOCAL_" ++ key in
         let global_key := gitlab_ci_env_token ++ key in
         match environ w !! local_key with
         | Some v => Some v
         | None =>
             match environ w !! global_key with
             | Some v => Some v
             | None => default
             end
         end).

(** [int(GitLabJobInterface.get_env(key, default))] for an integer
    [default] *)
Definition get_int_env (key : string) (default : Z) : M Z :=
  let* v := get_env key None in
  match v with
  | Some s => lift (py_int s)
  | None => ret default
  end.

End GitLabJobInterface.

Module SLURMIdleJob.

Record t : Type := {
  id : option string;
  work_dir : string;
  current_execution : option string
}.

(** [SLURMIdleJob(job_id, work_dir)] *)
Definition __init__ (job_id : option string) (work_dir : string) : t :=
  {| id := job_id; work_dir := work_dir; current_execution := None |}.

(** [SLURMIdleJob.create]; [idle_bash_script_filepath] is the path of
    [idle_script.sh] next to the driver. *)
Definition create (idle_bash_script_filepath : string)
  (configuration : SLURMJobRequestData) (work_dir batch_filename : string)
  : M (option t) :=
  let* is_file := os_path_isfile idle_bash_script_filepath in
  if negb is_file then
    logging CRITICAL ("File " ++ idle_bash_script_filepath ++ " does not exist");;
    ret None
  else
  let* executable := os_access idle_bash_script_filepath X_OK in
  if negb executable then
    logging CRITICAL ("File " ++ idle_bash_script_filepath ++ " is not executable");;
    ret None
  else
  let* readable := os_access idle_bash_script_filepath R_OK in
  if negb readable then
    logging CRITICAL ("File " ++ idle_bash_script_filepath ++ " is not readable");;
    ret None
  else
  let batch_filepath := os_path_join work_dir batch_filename in
  match to_sbatch_file_string configuration [". " ++ idle_bash_script_filepath] with
  | Ok text => write_file batch_filepath text
  | Raise e => write_file batch_filepath "";; raise e
  end;;
  os_chmod batch_filepath 511;;
  let* abs := os_path_abspath batch_filepath in
  logging INFO ("Created the sbatch configuration file in " ++ abs);;
  let* lvl := get log_level in
  match lvl with
  | DEBUG =>
      let* text := read_file batch_filepath in
      logging DEBUG ("Content of " ++ batch_filepath ++ ":" ++ Py.nl ++ text)
  | _ => ret tt
  end;;
  let* job_id := SLURMInterface.sbatch batch_filepath in
  logging DEBUG ("Submitted SLURM job with ID " ++ fmt job_id);;
  wait_until 120 (SLURMInterface.exists_ job_id) 120;;
  let* found := SLURMInterface.exists_ job_id in
  ret (if found then Some (__init__ job_id work_dir) else None).

(** [SLURMIdleJob.attach] *)
Definition attach (job_name work_dir : string) : M (option t) :=
  let* job_id := SLURMInterface.get_id_from_name job_name in
  match job_id with
  | None => ret None
  | Some _ => ret (Some (__init__ job_id work_dir))
  end.

(** [SLURMIdleJob.get_state]: reading [.state] of [None] raises. *)
Definition get_state (self : t) : M (option SLURMJobState) :=
  let* data := SLURMInterface.sacct (id self) in
  match data with
  | Some d => ret (SLURMRegisteredJobData.state d)
  | None => raise AttributeError
  end.

Definition is_running (self : t) : M bool :=
  let* st := get_state self in
  ret (match st with Some RUNNING => true | _ => false end).

Definition is_pending (self : t) : M bool :=
  let* st := get_state self in
  ret (match st with Some PENDING => true | _ => false end).

(** [os.path.join] raises when [self.current_execution] is still [None]. *)
Definition get_execution_script_path (self : t) : result string :=
  match current_execution self with
  | Some script_name =>
      Ok (os_path_join (work_dir self) script_name ++ ".gitlab_ci_step_script")
  | None => Raise TypeError
  end.

Definition get_execution_executed_path (self : t) : result string :=
  rbind (get_execution_script_path self) (fun path => Ok (path ++ ".executed")).

Definition get_execution_logfile_path (self : t) : result string :=
  rbind (get_execution_script_path self) (fun path => Ok (path ++ ".log")).

(** [self.current_execution = script_name] *)
Definition set_current_execution (self : t) (script_name : string) : t :=
  {| id := id self; work_dir := work_dir self;
     current_execution := Some script_name |}.

(** [SLURMIdleJob.execute_script].  The object is returned next to the
    outcome: the assignment to [self.current_execution] stays visible to
    the caller when the call raises. *)
Definition execute_script (self : t) (script_name : string)
  (source_script_path : option string)
  : World -> option (t * result (string * string) * World) :=
  fun w =>
    let self := set_current_execution self script_name in
    let body : M (string * string) :=
      let* script_filepath := lift (get_execution_script_path self) in
      let* script_log_filepath := lift (get_execution_logfile_path self) in
      let* script_executed_filepath := lift (get_execution_executed_path self) in
      try_finally
        (match source_script_path with
         | Some path => read_file path
         | None => ret ""
         end)
        (fun read =>
           let script_content := match read with Ok text => text | Raise _ => "" end in
           let tmp_script_filepath := script_filepath ++ ".tmp" in
           write_file tmp_script_filepath script_content;;
           os_rename tmp_script_filepath script_filepath;;
           let* abs := os_path_abspath script_filepath in
           logging DEBUG ("Created the script file: " ++ abs);;
           let* abs_log := os_path_abspath script_log_filepath in
           logging INFO ("Logs of current phase <" ++ script_name
                         ++ "> will be available in " ++ abs_log));;
      ret (script_executed_filepath, script_log_filepath) in
    match body w with
    | None => None
    | Some (r, w') => Some (self, r, w')
    end.

Definition exit_script_path (self : t) : string :=
  os_path_join (work_dir self) "batch.gitlab_ci_exit".

Definition stop_message : string :=
  "This file  is used to instruct the SLURM job to stop".

(** [SLURMIdleJob.mark_stop] *)
Definition mark_stop (self : t) : M unit :=
  write_file (exit_script_path self) stop_message;;
  let* abs := os_path_abspath (exit_script_path self) in
  logging DEBUG ("Created the exit file: " ++ abs).

(** [SLURMIdleJob.try_stop] *)
Definition try_stop (fuel : nat) (self : t) : M unit :=
  try_finally
    (mark_stop self;;
     let* timeout_before_cancel :=
       GitLabJobInterface.get_int_env
         "SLURM_JOB_STOP_TIMEOUT_SECONDS_BEFORE_CANCEL"
         SLURM_JOB_STOP_TIMEOUT_SECONDS_BEFORE_CANCEL in
     wait_until fuel
       (let* r := is_running self in ret (negb r))
       timeout_before_cancel;;
     ret tt)
    (fun _ =>
       let* r := is_running self in
       if r then SLURMInterface.scancel (id self);; ret tt else ret tt).

End SLURMIdleJob.

(** *** [GitLabPhases.run]: forwarding the log while a script executes

    The log file is written by the remote side and the state of the job is
    kept by the scheduler, so what the loop sees of them is given cycle by
    cycle: [poll] is what one iteration of the [while] loop observes, in
    the order in which it looks. *)

Module GitLabPhases.

Record poll : Type := {
  (** outcome of [wait_until(lambda: is_phase_executed(), 10)]; the call
      raises when a state query made by [is_phase_executed] raises *)
  wait_result : result bool;
  (** outcome of [job.is_running()] (line 293) *)
  job_running : result bool;
  (** outcome of [os.path.getmtime(script_log_file)], in clock ticks *)
  log_mtime : result Z;
  (** the bytes that the log file holds when it is opened (line 298), or
      the error that [open] raises *)
  log_open : result string
}.

(** The loop variables and what was printed to [sys.stderr], one text per
    [print]. *)
Record drain : Type := {
  read_bytes : nat;
  last_read_timestamp : Z;
  printed : list string
}.

Definition start : drain :=
  {| read_bytes := 0; last_read_timestamp := 0; printed := [] |}.

(** [f.seek(pos); text = f.read(); f.tell()] on a file opened in text mode
    that holds [bytes]: the bytes from [pos] on are decoded and their line
    ends translated; the position is then the end of the file, or [pos]
    when that lies beyond it. *)
Definition read_from (bytes : string) (pos : nat) : result (string * nat) :=
  rbind (Py.decode (Py.skip pos bytes)) (fun text =>
  Ok (Py.universal_newlines text, Nat.max pos (String.length bytes))).

(** Lines 296-303: the body of the loop after the [break] test.  The time
    is recorded before the file is opened. *)
Definition drain_new (st : drain) (last_edit_timestamp : Z)
  (opened : result string) : result unit * drain :=
  if negb (last_edit_timestamp =? last_read_timestamp st) then
    let st := {| read_bytes := read_bytes st;
                 last_read_timestamp := last_edit_timestamp;
                 printed := printed st |} in
    match rbind opened (fun bytes => read_from bytes (read_bytes st)) with
    | Ok (text, pos) =>
        (Ok tt, {| read_bytes := pos;
                   last_read_timestamp := last_read_timestamp st;
                   printed := (printed st ++ [text])%list |})
    | Raise e => (Raise e, st)
    end
  else (Ok tt, st).

(** Lines 292-303: the [while] loop, fed with what each cycle observes.
    [None]: the loop is still running after the last given cycle.  An
    exception leaves the loop and [run] with it. *)
Fixpoint wait_loop (polls : list poll) (st : drain)
  : option (result unit * drain) :=
  match polls with
  | [] => None
  | p :: rest =>
      match wait_result p with
      | Raise e => Some (Raise e, st)
      | Ok true => Some (Ok tt, st)
      | Ok false =>
          match job_running p with
          | Raise e => Some (Raise e, st)
          | Ok false => Some (Ok tt, st)
          | Ok true =>
              match log_mtime p with
              | Raise e => Some (Raise e, st)
              | Ok last_edit_timestamp =>
                  match drain_new st last_edit_timestamp (log_open p) with
                  | (Ok _, st') => wait_loop rest st'
                  | (Raise e, st') => Some (Raise e, st')
                  end
              end
          end
      end
  end.

(** Lines 305-309: the pass over the log after the loop. *)
Definition final_drain (st : drain) (opened : result string)
  : result unit * drain :=
  match rbind opened (fun bytes => read_from bytes (read_bytes st)) with
  | Ok (text, _) =>
      (Ok tt, {| read_bytes := read_bytes st;
                 last_read_timestamp := last_read_timestamp st;
                 printed := (printed st ++ [text])%list |})
  | Raise e => (Raise e, st)
  end.

(** Lines 289-309 of [GitLabPhases.run]. *)
Definition forward_log (polls : list poll) (final_log : result string)
  : option (result unit * drain) :=
  match wait_loop polls start with
  | None => None
  | Some (Raise e, st) => Some (Raise e, st)
  | Some (Ok _, st) => Some (final_drain st final_log)
  end.



(** A cycle that goes on polling: the phase is not yet executed, the job
    runs, and the log file, last modified at [t], holds [bytes]. *)
Definition cycle (observed : Z * string) : poll :=
  {| wait_result := Ok false; job_running := Ok true;
     log_mtime := Ok (fst observed); log_open := Ok (snd observed) |}.

(** How a cycle leaves the loop, if it does: by the [while] test or the
    [break] (the phase is executed, or the job no longer runs), or by an
    exception of one of the state queries. *)
Inductive ending : Type :=
| Leaves
| Fails (e : exn).


Definition outcome (x : ending) : result unit :=
  match x with
  | Leaves => Ok tt
  | Fails e => Raise e
  end.









End GitLabPhases.

(** ** Observing a run *)

(** A condition that leaves a mark in the trace every time it is
    evaluated; its answer may depend on everything that happened before. *)
Definition probed (p : World -> bool) : M bool :=
  fun w => Some (Ok (p w), record (EvProbe (p w)) w).

Definition is_probe (e : event) : bool :=
  match e with EvProbe _ => true | _ => false end.

Definition is_sleep (e : event) : bool :=
  match e with EvSleep _ => true | _ => false end.

Definition is_command (command : string) (e : event) : bool :=
  match e with EvSystem c => String.eqb c command | _ => false end.

Definition is_critical (e : event) : bool :=
  match e with EvLog CRITICAL _ => true | _ => false end.

Definition is_write (e : event) : bool :=
  match e with EvWrite _ _ => true | _ => false end.

Definition is_system (e : event) : bool :=
  match e with EvSystem _ => true | _ => false end.

Definition evaluations (w : World) : nat := length (List.filter is_probe (trace w)).
Definition sleeps (w : World) : nat := length (List.filter is_sleep (trace w)).

(** A world with no file and no variable, whose commands all exit with
    code 0 and print nothing. *)
Definition quiet_world : World :=
  {| files := ∅; denied := ∅; failing := ∅; environ := ∅; cwd := "/"; log_level := INFO;
     scheduler := fun _ _ => SysExit 0 "" ""; sys_count := 0; trace := [] |}.

(** Worlds and objects used as concrete instances. *)

Definition job42 : SLURMIdleJob.t := SLURMIdleJob.__init__ (Some "42") "/builds".

(** The stop sentinel of [job42] cannot be written. *)
Definition locked_world : World :=
  {| files := ∅;
     denied := {[ "/builds/batch.gitlab_ci_exit" := PermissionError ]}; failing := ∅;
     environ := ∅; cwd := "/"; log_level := INFO;
     scheduler := fun _ _ => SysExit 0 "" ""; sys_count := 0; trace := [] |}.

(** The accounting database knows two allocations named [7__8_9], the
    second submitted a day after the first, and the batch step of each. *)
Definition two_jobs_world : World :=
  {| files := ∅; denied := ∅; failing := ∅; environ := ∅; cwd := "/"; log_level := INFO;
     scheduler := fun _ command =>
       if String.prefix "sacct --name " command
       then SysExit 0 ("1200|7__8_9|2023-01-01T10:00:00" ++ Py.nl
                       ++ "1200.batch|batch|2023-01-01T10:00:05" ++ Py.nl
                       ++ "1234|7__8_9|2023-01-02T09:30:00" ++ Py.nl
                       ++ "1234.batch|batch|2023-01-02T09:30:04" ++ Py.nl) ""
       else SysExit 0 "" "";
     sys_count := 0; trace := [] |}.

(** A script writes [echo hi] to its log in three appends, seen on three
    poll cycles; the fourth cycle finds the phase executed, and one more
    line is appended before the last pass. *)
Definition echo_cycles : list (Z * string) :=
  [ (100, "ec"); (101, "echo "); (102, "echo hi") ].

Definition echo_done : GitLabPhases.poll :=
  {| GitLabPhases.wait_result := Ok true;
     GitLabPhases.job_running := Ok true;
     GitLabPhases.log_mtime := Ok 103;
     GitLabPhases.log_open := Ok "echo hi; echo bye" |}.


Definition cut_log : string :=
  "caf" ++ String (ascii_of_nat 195) EmptyString.

(** ** What a graceful stop observes *)

(** The command by which the state of an allocation is queried. *)
Definition state_query (self : SLURMIdleJob.t) : string :=
  "sacct --jobs " ++ fmt (SLURMIdleJob.id self) ++ " --noheader -P --format="
  ++ Py.join "," SLURMRegisteredJobData.variables.

(** The command by which an allocation is cancelled. *)
Definition cancel_command (self : SLURMIdleJob.t) : string :=
  "scancel " ++ fmt (SLURMIdleJob.id self).

Definition at_call (k : nat) (w : World) : World :=
  {| files := files w; denied := denied w; failing := failing w; environ := environ w; cwd := cwd w;
     log_level := log_level w; scheduler := scheduler w;
     sys_count := k; trace := trace w |}.

Definition count {A} (p : A -> bool) (l : list A) : nat :=
  length (List.filter p l).

Definition cancels (self : SLURMIdleJob.t) (w : World) : nat :=
  count (is_command (cancel_command self)) (trace w).

(** The allocation is seen to have stopped by one of the state queries
    numbered [0] to [n]: those that fit in a budget of [n] seconds. *)
Definition stops_within (running : nat -> bool) (n : nat) : bool :=
  existsb (fun i => negb (running i)) (seq 0 (S n)).

(** The number of queries among the first [n] that precede the first one
    answering "not running". *)
Fixpoint first_stop (running : nat -> bool) (n : nat) : nat :=
  match n with
  | O => O
  | S n' => if running O then S (first_stop (fun i => running (S i)) n') else O
  end.

(** [w'] is [w] after [calls] more commands and the events [added]; the
    scheduler and the environment are the same. *)
Record evolves (w w' : World) (calls : nat) (added : list event) : Prop := {
  ev_scheduler : scheduler w' = scheduler w;
  ev_environ : environ w' = environ w;
  ev_count : sys_count w' = (sys_count w + calls)%nat;
  ev_trace : trace w' = (trace w ++ added)%list
}.

Definition is_log (e : event) : bool :=
  match e with EvLog _ _ => true | _ => false end.

(** A computation that runs one command and only logs besides: its result
    and its events are determined by what the scheduler answers. *)
Definition one_query {A} (command : string) (m : M A) : Prop :=
  forall w1 w2,
    scheduler w1 (sys_count w1) command = scheduler w2 (sys_count w2) command ->
    exists r logs w1' w2',
      forallb is_log logs = true
      /\ m w1 = Some (r, w1') /\ evolves w1 w1' 1 (EvSystem command :: logs)
      /\ m w2 = Some (r, w2') /\ evolves w2 w2' 1 (EvSystem command :: logs).

(** A computation without effect. *)
Definition effect_free {A} (m : M A) : Prop :=
  exists r, forall w, m w = Some (r, w).

(** A scheduler whose accounting shows job 42 running for the first two
    queries and completed from the third on. *)
Definition stopping_world : World :=
  {| files := ∅; denied := ∅; failing := ∅;
     environ := {[ "CUSTOM_ENV_SLURM_JOB_STOP_TIMEOUT_SECONDS_BEFORE_CANCEL" := "5" ]};
     cwd := "/"; log_level := INFO;
     scheduler := fun k command =>
       if String.prefix "sacct --jobs 42 " command
       then SysExit 0 ("42|7__8_9|" ++ (if (k <? 2)%nat then "RUNNING" else "COMPLETED")
                       ++ "|0:0|00:01:00|1|2023-01-02T09:30:00|2023-01-02T09:30:01|Unknown|acc|ci|02:00:00")
                    ""
       else SysExit 0 "" "";
     sys_count := 0; trace := [] |}.

(** A request as [GitLabPhases.prepare] builds it for job 9 of pipeline 8
    in project 7, asking for two exclusive nodes. *)
Definition demo_request : SLURMJobRequestData :=
  {| job_name := "7__8_9"; nodes := Some "2"; mem := None; mem_bind := None;
     mem_per_cpu := None; cpus_per_task := None; n_tasks := None;
     time_limit := Some "00-02:00:00"; time_min := None; exclusive := true;
     network := None; contiguous := false; partition := None; power := None;
     priority := None; nice := None;
     comment := Some "Automatic job created from GitLab CI";
     chdir := Some "/builds"; export := Some "ALL";
     stdout_file := Some "stdout.log"; stderr_file := Some "stderr.log" |}.

(** A request whose node count is followed by a line feed and a line of
    its own; it has no memory field and no comment. *)
Definition injected_request : SLURMJobRequestData :=
  {| job_name := "7__8_9";
     nodes := Some ("2" ++ Py.nl ++ "#SBATCH --mem=9");
     mem := None; mem_bind := None;
     mem_per_cpu := None; cpus_per_task := None; n_tasks := None;
     time_limit := None; time_min := None; exclusive := false;
     network := None; contiguous := false; partition := None; power := None;
     priority := None; nice := None; comment := None;
     chdir := None; export := None;
     stdout_file := None; stderr_file := None |}.

(** The idle script is installed and executable; the scheduler accepts the
    submission as job 1234, which its accounting shows from the second
    query on. *)
Definition ready_world : World :=
  {| files := {[ "/opt/driver/idle_script.sh"
                 := {| content := "while true; do sleep 1; done"; mode := 493 |} ]};
     denied := ∅; failing := ∅; environ := ∅; cwd := "/"; log_level := INFO;
     scheduler := fun k command =>
       if String.prefix "sbatch " command then SysExit 0 ("1234;cluster" ++ Py.nl) ""
       else if String.prefix "sacct --jobs 1234 " command && (2 <=? k)%nat
       then SysExit 0 "1234|7__8_9|PENDING|0:0|00:00:00||2023-01-02T09:30:00|Unknown|Unknown|acc|ci|02:00:00" ""
       else SysExit 0 "" "";
     sys_count := 0; trace := [] |}.

(** The accounting shows job 42 running at every query. *)
Definition running_world : World :=
  {| files := ∅; denied := ∅; failing := ∅;
     environ := {[ "CUSTOM_ENV_SLURM_JOB_STOP_TIMEOUT_SECONDS_BEFORE_CANCEL" := "2" ]};
     cwd := "/"; log_level := INFO;
     scheduler := fun _ command =>
       if String.prefix "sacct --jobs 42 " command
       then SysExit 0 "42|7__8_9|RUNNING|0:0|00:01:00|1|2023-01-02T09:30:00|2023-01-02T09:30:01|Unknown|acc|ci|02:00:00" ""
       else SysExit 0 "" "";
     sys_count := 0; trace := [] |}.


(** The accounting shows job 42 suspended at the first query and running
    again afterwards. *)
Definition resuming_world : World :=
  {| files := ∅; denied := ∅; failing := ∅; environ := ∅; cwd := "/"; log_level := INFO;
     scheduler := fun k command =>
       if String.prefix "sacct --jobs 42 " command
       then SysExit 0 ("42|7__8_9|" ++ (if (k <? 1)%nat then "SUSPENDED" else "RUNNING")
                       ++ "|0:0|00:01:00|1|2023-01-02T09:30:00|2023-01-02T09:30:01|Unknown|acc|ci|02:00:00")
                    ""
       else SysExit 0 "" "";
     sys_count := 0; trace := [] |}.

(** ** Further functions of [slurm_interface.py] and [driver.py] *)

(** The text has no character [c]. *)
Fixpoint lacks (c : ascii) (s : string) : bool :=
  match s with
  | EmptyString => true
  | String c' r => negb (Ascii.eqb c' c) && lacks c r
  end.

(** [s.lower()] on the letters A to Z.  [str.lower] also turns the capital
    letters outside ASCII into small ones; here they are left as they are.
    The one use is the test of [truthy] below, whose answer is the same
    either way: the words tested there are made of the characters
    [1], [e], [r], [s], [t], [u] and [y], no character outside ASCII has a
    small form with one of these (the only two whose small form has an
    ASCII character at all are U+0130, with an [i], and U+212A, a [k]), and
    none has a small form with a blank. *)
Definition lower_char (c : ascii) : ascii :=
  let n := nat_of_ascii c in
  if ((65 <=? n)%nat && (n <=? 90)%nat) then ascii_of_nat (n + 32) else c.

Fixpoint py_lower (s : string) : string :=
  match s with
  | EmptyString => EmptyString
  | String c r => String (lower_char c) (py_lower r)
  end.

(** The world once [command] has been run and [logs] have been logged. *)
Definition after_command (command : string) (logs : list event) (w : World)
  : World :=
  {| files := files w; denied := denied w; failing := failing w; environ := environ w; cwd := cwd w;
     log_level := log_level w; scheduler := scheduler w;
     sys_count := S (sys_count w);
     trace := (trace w ++ EvSystem command :: logs)%list |}.

(** [SLURMInterface.skill], with the number of the signal. *)
Definition skill (job_id : option string) (signal_no : Z) : M bool :=
  let* (retcode, _, _) :=
    _system ("skill " ++ fmt job_id ++ " -s " ++ pretty signal_no) in
  ret (retcode =? 0).

(** [value.lower().strip() in ["true", "1", "yes", "y"]] *)
Definition truthy (value : string) : bool :=
  existsb (String.eqb (Py.strip (py_lower value))) ["true"; "1"; "yes"; "y"].

(** [GitLabJobInterface.get_bool_env] *)
Definition get_bool_env (key : string) : M bool :=
  let* value := GitLabJobInterface.get_env key None in
  match value with
  | None => ret false
  | Some v => ret (truthy v)
  end.

(** [a += b] on values that are strings or [None]. *)
Definition iadd (a b : option string) : result string :=
  match a, b with
  | Some x, Some y => Ok (x ++ y)
  | _, _ => Raise TypeError
  end.

(** [GitLabJobInterface.get_job_uid] *)
Definition get_job_uid : M string :=
  let* job_name := GitLabJobInterface.get_env "CI_PROJECT_ID" None in
  let* job_name := lift (iadd job_name (Some "__")) in
  let* pipeline := GitLabJobInterface.get_env "CI_PIPELINE_ID" None in
  let* job_name := lift (iadd (Some job_name) pipeline) in
  let* job_name := lift (iadd (Some job_name) (Some "_")) in
  let* job := GitLabJobInterface.get_env "CI_JOB_ID" None in
  let* job_name := lift (iadd (Some job_name) job) in
  ret job_name.

(** [GitLabJobInterface.get_build_dir_path] *)
Definition get_build_dir_path : M (option string) :=
  GitLabJobInterface.get_env "CI_BUILDS_DIR" None.

(** The parameters of [SLURMJobRequestData.__init__], [self] apart. *)
Definition init_parameters : list string :=
  ["job_name"; "nodes"; "mem"; "mem_bind"; "mem_per_cpu"; "cpus_per_task";
   "n_tasks"; "time_limit"; "time_min"; "exclusive"; "network"; "contiguous";
   "partition"; "power"; "priority"; "nice"; "comment"; "chdir"; "export";
   "stdout_file"; "stderr_file"].

(** A call with keyword arguments raises when a keyword is no parameter of
    the callee. *)
Definition check_keywords (parameters keywords : list string) : result unit :=
  if forallb (fun k => existsb (String.eqb k) parameters) keywords
  then Ok tt else Raise TypeError.

(** Lines 231-256 of [GitLabPhases.prepare]: the arguments are evaluated in
    the order in which they are written, then [SLURMJobRequestData] is
    called with these keywords. *)
Definition prepare_request : M SLURMJobRequestData :=
  logging DEBUG "PHASE <prepare>";;
  let* job_name_ := get_job_uid in
  let* nodes_ := GitLabJobInterface.get_env "CI_SLURM_NNODES" None in
  let* mem_ := GitLabJobInterface.get_env "CI_SLURM_MEM_PER_NODE" None in
  let* mem_bind_ := GitLabJobInterface.get_env "CI_SLURM_MEM_BIND" None in
  let* mem_per_cpu_ := GitLabJobInterface.get_env "CI_SLURM_MEM_PER_CPU" None in
  let* cpus_per_task_ := GitLabJobInterface.get_env "CI_SLURM_CPUS_PER_TASK" None in
  let* n_tasks_ := GitLabJobInterface.get_env "CI_SLURM_NTASKS" None in
  let* time_limit_ := GitLabJobInterface.get_env "CI_SLURM_TIMELIMIT" (Some "00-02:00:00") in
  let* time_min_ := GitLabJobInterface.get_env "CI_SLURM_TIME_MIN" None in
  let* exclusive_ := get_bool_env "CI_SLURM_EXCLUSIVE" in
  let* network_ := GitLabJobInterface.get_env "CI_SLURM_NETWORK" None in
  let* contiguous_ := get_bool_env "CI_SLURM_CONTIGUOUS" in
  let* partition_ := GitLabJobInterface.get_env "CI_SLURM_PARTITION" None in
  let* power_ := GitLabJobInterface.get_env "CI_SLURM_POWER" None in
  let* priority_ := GitLabJobInterface.get_env "CI_SLURM_PRIORITY" None in
  let* nice_ := GitLabJobInterface.get_env "CI_SLURM_NICE" None in
  let* comment_ := GitLabJobInterface.get_env "CI_SLURM_COMMENT"
                     (Some "Automatic job created from GitLab CI") in
  let* chdir_ := get_build_dir_path in
  let* account_ := GitLabJobInterface.get_env "CI_SLURM_ACCOUNT" None in
  let* qos_ := GitLabJobInterface.get_env "CI_SLURM_QOS" None in
  lift (check_keywords init_parameters
          ["job_name"; "nodes"; "mem"; "mem_bind"; "mem_per_cpu";
           "cpus_per_task"; "n_tasks"; "time_limit"; "time_min"; "exclusive";
           "network"; "contiguous"; "partition"; "power"; "priority"; "nice";
           "comment"; "chdir"; "account"; "qos"; "export"; "stdout_file";
           "stderr_file"]);;
  ret {| job_name := job_name_; nodes := nodes_; mem := mem_;
         mem_bind := mem_bind_; mem_per_cpu := mem_per_cpu_;
         cpus_per_task := cpus_per_task_; n_tasks := n_tasks_;
         time_limit := time_limit_; time_min := time_min_;
         exclusive := exclusive_; network := network_;
         contiguous := contiguous_; partition := partition_; power := power_;
         priority := priority_; nice := nice_; comment := comment_;
         chdir := chdir_; export := Some "ALL";
         stdout_file := Some "stdout.log"; stderr_file := Some "stderr.log" |}.

(** What a one-command condition answers when its command is the [k]-th
    that the process issues; [None] when it raises. *)
Definition answers (condition : M bool) (w : World) (k : nat) : option bool :=
  match condition (at_call k w) with
  | Some (Ok b, _) => Some b
  | _ => None
  end.

(** A computation that runs exactly one command and, besides, only logs. *)
Definition runs_one {A} (command : string) (m : M A) : Prop :=
  forall w, exists r logs,
    forallb is_log logs = true
    /\ m w = Some (r, after_command command logs w).

(** What [_system] returns for an answer of the scheduler. *)
Definition system_result (answer : sys_answer) : result (Z * string * string) :=
  match answer with
  | SysExit retcode out err => Ok (retcode, Py.strip out, Py.strip err)
  | SysRaise e => Raise e
  end.

(** What [SLURMInterface.sacct] makes of an answer of the scheduler (see
    [sacct_of_answer]). *)
Definition sacct_result (answer : sys_answer)
  : result (option SLURMRegisteredJobData.t) :=
  match answer with
  | SysRaise e => Raise e
  | SysExit retcode out _ =>
      if negb (retcode =? 0) || (String.length (Py.strip out) =? 0)%nat
      then Ok None
      else match Py.split1 Py.LF (Py.strip out) with
           | [] => Ok None
           | line :: _ =>
               rbind (SLURMRegisteredJobData.__init__
                        (combine SLURMRegisteredJobData.variables
                           (Py.split SLURMInterface.bar (Py.strip line))))
                     (fun d => Ok (Some d))
           end
  end.

(** The accounting answers nothing about job 42. *)
Definition unknown_job_world : World :=
  {| files := ∅; denied := ∅; failing := ∅; environ := ∅; cwd := "/"; log_level := INFO;
     scheduler := fun _ _ => SysExit 0 ("  " ++ Py.nl) ""; sys_count := 0;
     trace := [] |}.

(** The idle script is installed, but the scheduler rejects every
    submission and knows no job. *)
Definition rejecting_world : World :=
  {| files := {[ "/opt/driver/idle_script.sh"
                 := {| content := "while true; do sleep 1; done"; mode := 493 |} ]};
     denied := ∅; failing := ∅; environ := ∅; cwd := "/"; log_level := INFO;
     scheduler := fun _ command =>
       if String.prefix "sbatch " command
       then SysExit 1 "" "sbatch: error: invalid partition specified"
       else SysExit 0 "" "";
     sys_count := 0; trace := [] |}.

(** The value that [GitLabJobInterface.get_env(key)] finds in a world. *)
Definition env_value (w : World) (key : string) : option string :=
  match GitLabJobInterface.get_env key None w with
  | Some (Ok v, _) => v
  | _ => None
  end.

(** The variables of job 9 of pipeline 8 in project 7, as the runner passes
    them; the time limit is overridden for this job only. *)
Definition ci_world : World :=
  {| files := ∅; denied := ∅; failing := ∅;
     environ := {[ "CUSTOM_ENV_CI_PROJECT_ID" := "7";
                   "CUSTOM_ENV_CI_PIPELINE_ID" := "8";
                   "CUSTOM_ENV_CI_JOB_ID" := "9";
                   "CUSTOM_ENV_CI_BUILDS_DIR" := "/builds";
                   "CUSTOM_ENV_CI_SLURM_EXCLUSIVE" := " Yes ";
                   "CUSTOM_ENV_CI_SLURM_TIMELIMIT" := "00-01:00:00";
                   "CUSTOM_ENV_LOCAL_CI_SLURM_TIMELIMIT" := "00-00:10:00" ]};
     cwd := "/"; log_level := INFO;
     scheduler := fun _ _ => SysExit 0 "" ""; sys_count := 0; trace := [] |}.

(** The same flag written without the blanks. *)
Definition exclusive_world : World :=
  {| files := ∅; denied := ∅; failing := ∅;
     environ := {[ "CUSTOM_ENV_CI_SLURM_EXCLUSIVE" := "Yes" ]};
     cwd := "/"; log_level := INFO;
     scheduler := fun _ _ => SysExit 0 "" ""; sys_count := 0; trace := [] |}.

(** The stop sentinel of [job42] cannot be written while the accounting
    shows the job running. *)
Definition locked_running_world : World :=
  {| files := ∅;
     denied := {[ "/builds/batch.gitlab_ci_exit" := PermissionError ]}; failing := ∅;
     environ := ∅; cwd := "/"; log_level := INFO;
     scheduler := scheduler running_world; sys_count := 0; trace := [] |}.

(** ** What the statements are about *)

(** The events of a list that are no log entries. *)
Definition effects (l : list event) : list event :=
  List.filter (fun e => negb (is_log e)) l.

(** [k] rounds of polling: the command is run, then the process sleeps for
    one second. *)
Fixpoint polling (command : string) (k : nat) : list event :=
  match k with
  | O => []
  | S k' => EvSystem command :: EvSleep 1 :: polling command k'
  end.

(** The value configured for [key]: that of the job-local variable, else
    that of the global one. *)
Definition configured (w : World) (key : string) : option string :=
  match environ w !! ("CUSTOM_ENV_LOCAL_" ++ key) with
  | Some v => Some v
  | None => environ w !! ("CUSTOM_ENV_" ++ key)
  end.

(** The accounting command answers with a record: it exits with code 0 and
    the first line of its output has at least twelve columns, the third of
    which is [code]. *)
Definition shows_state (answer : sys_answer) (code : string) : Prop :=
  exists out err line rest,
    answer = SysExit 0 out err
    /\ Py.strip out <> ""
    /\ Py.split1 Py.LF (Py.strip out) = line :: rest
    /\ (12 <= length (Py.split SLURMInterface.bar (Py.strip line)))%nat
    /\ Py.split SLURMInterface.bar (Py.strip line) !! 2%nat = Some code.

(** The accounting command has no record to show: it exits with an error
    or prints only blanks. *)
Definition shows_nothing (answer : sys_answer) : Prop :=
  exists retcode out err,
    answer = SysExit retcode out err /\ (retcode <> 0 \/ Py.strip out = "").

(** The codes of the state RUNNING. *)
Definition running_code (code : string) : bool :=
  bool_decide (code = "RUNNING" \/ code = "R").

(** The sentinel of [job42] can be opened, but the disk is full: nothing
    of what is written reaches the file.  The accounting shows job 42
    running. *)
Definition full_disk_world : World :=
  {| files := ∅; denied := ∅;
     failing := {[ "/builds/batch.gitlab_ci_exit" := (0%nat, OSError) ]};
     environ := ∅; cwd := "/"; log_level := INFO;
     scheduler := scheduler running_world; sys_count := 0; trace := [] |}.

(** [k] evaluations of a condition that answers false, each followed by a
    sleep of one second. *)
Fixpoint probing (k : nat) : list event :=
  match k with
  | O => []
  | S k' => EvProbe false :: EvSleep 1 :: probing k'
  end.

(** [h] is the text [s] up to the first of the characters [seps], or all
    of it when it has none of them. *)
Definition up_to (seps : list ascii) (s h : string) : Prop :=
  Forall (fun sep => lacks sep h = true) seps
  /\ exists rest,
       s = h ++ rest
       /\ (rest = "" \/ exists c r, rest = String c r /\ In c seps).

(** Writing [text] to [path] fails with the error [e], after the events
    [written]: either the file cannot be opened and nothing happens, or it
    is opened and the write fails, leaving what got through. *)
Definition write_fails (w : World) (path text : string) (e : exn)
  (written : list event) : Prop :=
  (denied w !! path = Some e /\ written = [])
  \/ (denied w !! path = None
      /\ exists n, failing w !! path = Some (n, e)
                   /\ written = [EvWrite path (String.substring 0 n text)]).

(** The accounting row of job 42 in the worlds above, in state [code]. *)
Definition row42 (code : string) : string :=
  "42|7__8_9|" ++ code
  ++ "|0:0|00:01:00|1|2023-01-02T09:30:00|2023-01-02T09:30:01|Unknown|acc|ci|02:00:00".

(** Proves that an answer shows the one row [row42 code]. *)
Ltac shows_row code :=
  exists (row42 code), ""%string, (row42 code), (@nil string);
  split; [reflexivity|];
  split; [vm_compute; discriminate|];
  split; [vm_compute; reflexivity|];
  split; [apply Nat.leb_le|]; vm_compute; reflexivity.

(** The source of a step was written on another system: its lines end in
    CR LF. *)
Definition dos_source_world : World :=
  {| files := {[ "/tmp/step.sh"
                 := {| content := "echo hi" ++ String Py.CR (String Py.LF "");
                       mode := 420 |} ]};
     denied := ∅; failing := ∅; environ := ∅; cwd := "/"; log_level := INFO;
     scheduler := fun _ _ => SysExit 0 "" ""; sys_count := 0; trace := [] |}.

(** The source of a step is no UTF-8 text: it holds the byte FF. *)
Definition binary_source_world : World :=
  {| files := {[ "/tmp/step.sh"
                 := {| content := String (ascii_of_nat 255) "echo hi";
                       mode := 420 |} ]};
     denied := ∅; failing := ∅; environ := ∅; cwd := "/"; log_level := INFO;
     scheduler := fun _ _ => SysExit 0 "" ""; sys_count := 0; trace := [] |}.

(** * Properties *)

(** ** The code table of job states *)

Lemma dict_get_Some {V} (d : list (string * V)) k v :
  Py.dict_get d k = Some v -> In (k, v) d.
Proof.
  induction d as [|[k' v'] d IH]; simpl; [discriminate|].
  destruct (String.eqb_spec k' k) as [->|_].
  - intros [= ->]. now left.
  - intros H. right. now apply IH.
Qed.

Lemma dict_get_None {V} (d : list (string * V)) k :
  Py.dict_get d k = None <->
  existsb (fun kv => String.eqb (fst kv) k) d = false.
Proof.
  induction d as [|[k' v'] d IH]; simpl; [tauto|].
  destruct (String.eqb k' k); simpl; [split; discriminate|exact IH].
Qed.

(** C9. Every member of the enumeration has a scheduler code
    ([to_string] returns, it does not raise), and parsing that code gives
    the member back. *)
Theorem from_string_to_string (s : SLURMJobState) :
  exists code, to_string s = Ok code /\ from_string code = Some s.
Proof. destruct s; eexists; split; reflexivity. Qed.

(** C4, as stated, fails: the enumeration has no member to which the
    unrecognized codes are mapped. *)
Lemma from_string_has_no_unknown_member :
  ~ exists unknown : SLURMJobState,
      forall code, recognized code = false -> from_string code = Some unknown.
Proof.
  intros [unknown H].
  specialize (H "UNKNOWN" eq_refl). discriminate H.
Qed.

(** C4, amended. Deriving a state from a status code never fails: each of
    the thirty short and long codes maps to its member of the enumeration,
    and every other string maps to the absent value [None]. *)
Theorem from_string_total (code : string) :
  Forall (fun kv => from_string (fst kv) = Some (snd kv)) _get_equivalent_states
  /\ (if recognized code
      then exists s, from_string code = Some s /\ In (code, s) _get_equivalent_states
      else from_string code = None).
Proof.
  split.
  - unfold _get_equivalent_states. repeat constructor.
  - unfold recognized, from_string.
    destruct (existsb _ _) eqn:E.
    + destruct (Py.dict_get _get_equivalent_states code) as [s|] eqn:G.
      * exists s. split; [reflexivity|]. now apply dict_get_Some.
      * apply dict_get_None in G. congruence.
    + now apply dict_get_None.
Qed.

(** ** The submission artifact *)

Lemma not_none_cons {A} (o : option A) l :
  not_none (o :: l) = (option_list o ++ not_none l)%list.
Proof. now destruct o. Qed.

Lemma omap_cons_app {A B} (g : A -> option B) x l :
  omap g (x :: l) = (option_list (g x) ++ omap g l)%list.
Proof. simpl. now destruct (g x). Qed.

Lemma rendered_directive_eq r f :
  rendered_directive r f
  = if is_boolean f
    then (if present r f then Some ("#SBATCH " ++ flag_of f) else None)
    else match field_value r f with
         | Some v =>
             Some ("#SBATCH " ++ flag_of f ++ "="
                   ++ (match f with Fcomment => dquote ++ v ++ dquote | _ => v end))
         | None => None
         end.
Proof.
  destruct f; try reflexivity;
    unfold rendered_directive, directive_for; cbn;
    match goal with |- context [match ?x with _ => _ end] => now destruct x end.
Qed.

Lemma directive_valued r f flag :
  is_boolean f = false -> f <> Fcomment -> flag_of f = flag ->
  map sbatch_line (option_list (valued flag (field_value r f)))
  = option_list (rendered_directive r f).
Proof.
  intros Hb Hc <-. rewrite rendered_directive_eq. rewrite Hb.
  destruct (field_value r f); [|reflexivity].
  now destruct f.
Qed.

(** The parameters of a request, field by field. *)
Lemma get_cli_parameters_by_field r :
  map sbatch_line (get_cli_parameters r)
  = sbatch_line ("--job-name=" ++ job_name r) :: omap (rendered_directive r) all_fields.
Proof.
  unfold get_cli_parameters, all_fields.
  rewrite !not_none_cons, !omap_cons_app, !map_app. simpl not_none. simpl omap.
  change (map sbatch_line (option_list (Some ?x))) with [sbatch_line x].
  change ([?x] ++ ?l)%list with (x :: l).
  f_equal.
  repeat (apply (f_equal2 (@app string));
          [ match goal with
            | |- _ = option_list (rendered_directive r ?f) =>
                first [ now apply (directive_valued r f)
                      | rewrite rendered_directive_eq; unfold bare, quoted; simpl;
                        match goal with
                        | |- context [exclusive r] => now destruct (exclusive r)
                        | |- context [contiguous r] => now destruct (contiguous r)
                        | |- context [comment r] => now destruct (comment r)
                        end ]
            end | ]).
  reflexivity.
Qed.

Lemma directive_for_present r f :
  present r f = match rendered_directive r f with Some _ => true | None => false end.
Proof.
  rewrite rendered_directive_eq; unfold present.
  destruct f; simpl; try reflexivity;
    match goal with
    | |- context [match ?x with _ => _ end] => now destruct x
    | |- context [if ?x then _ else _] => now destruct x
    end.
Qed.

Lemma is_directive_of_directive_for r f g d :
  rendered_directive r g = Some d ->
  is_directive_of f d = bool_decide (f = g).
Proof.
  rewrite rendered_directive_eq.
  destruct (is_boolean g) eqn:Hb.
  - destruct (present r g); [|discriminate]. intros [= <-].
    destruct g; try discriminate Hb; destruct f; reflexivity.
  - destruct (field_value r g) as [v|]; [|discriminate]. intros [= <-].
    destruct g; try discriminate Hb; destruct f;
      first [reflexivity | destruct v; reflexivity].
Qed.

Lemma filter_directives r f (l : list field) :
  NoDup l ->
  List.filter (is_directive_of f) (omap (rendered_directive r) l)
  = if bool_decide (f ∈ l) then option_list (rendered_directive r f) else [].
Proof.
  induction 1 as [|g l Hg Hl IH].
  - reflexivity.
  - rewrite omap_cons_app, List.filter_app, IH.
    destruct (decide (f = g)) as [->|Hne].
    + rewrite (bool_decide_eq_true_2 (g ∈ g :: l)) by left.
      rewrite (bool_decide_eq_false_2 (g ∈ l)) by assumption.
      rewrite app_nil_r.
      destruct (rendered_directive r g) as [d|] eqn:E; [|reflexivity].
      simpl. rewrite (is_directive_of_directive_for r g g d E).
      now rewrite bool_decide_eq_true_2.
    + assert (List.filter (is_directive_of f) (option_list (rendered_directive r g)) = []) as ->.
      { destruct (rendered_directive r g) as [d|] eqn:E; [|reflexivity].
        simpl. rewrite (is_directive_of_directive_for r f g d E).
        now rewrite bool_decide_eq_false_2. }
      simpl. apply (f_equal (fun b : bool => if b then _ else _)).
      apply bool_decide_ext. rewrite elem_of_cons. tauto.
Qed.

Lemma all_fields_complete (f : field) : f ∈ all_fields.
Proof. unfold all_fields. destruct f; set_solver. Qed.

Lemma all_fields_NoDup : NoDup all_fields.
Proof. unfold all_fields. apply NoDup_ListNoDup. repeat constructor; simpl; intuition discriminate. Qed.

Lemma prefix_empty s : String.prefix "" s = true.
Proof. now destruct s. Qed.

Lemma job_name_line_not_field r f :
  is_directive_of f (sbatch_line ("--job-name=" ++ job_name r)) = false.
Proof. destruct f; reflexivity. Qed.

Lemma field_line_not_job_name r g d :
  rendered_directive r g = Some d -> is_job_name_directive d = false.
Proof.
  rewrite rendered_directive_eq.
  destruct (is_boolean g) eqn:Hb.
  - destruct (present r g); [|discriminate]. intros [= <-].
    destruct g; try discriminate Hb; reflexivity.
  - destruct (field_value r g) as [v|]; [|discriminate]. intros [= <-].
    destruct g; try discriminate Hb; reflexivity.
Qed.

Lemma no_job_name_among_fields r (l : list field) :
  List.filter is_job_name_directive (omap (rendered_directive r) l) = [].
Proof.
  induction l as [|g l IH]; [reflexivity|].
  rewrite omap_cons_app, List.filter_app, IH, app_nil_r.
  destruct (rendered_directive r g) as [d|] eqn:E; [|reflexivity].
  simpl. now rewrite (field_line_not_job_name r g d E).
Qed.

Lemma length_directives r (l : list field) :
  length (omap (rendered_directive r) l) = length (List.filter (present r) l).
Proof.
  induction l as [|g l IH]; [reflexivity|].
  rewrite omap_cons_app, length_app, IH. simpl.
  rewrite directive_for_present.
  now destruct (rendered_directive r g).
Qed.

Lemma job_name_line_is_job_name r :
  is_job_name_directive (sbatch_line ("--job-name=" ++ job_name r)) = true.
Proof. unfold is_job_name_directive, sbatch_line. simpl. apply prefix_empty. Qed.

Lemma filter_cons_if {A} (p : A -> bool) x l :
  List.filter p (x :: l) = if p x then x :: List.filter p l else List.filter p l.
Proof. reflexivity. Qed.

Lemma to_sbatch_file_string_lines r payload :
  to_sbatch_file_string r [payload]
  = Ok (Py.join Py.nl (["#!/bin/bash"; ""] ++ map sbatch_line (get_cli_parameters r)
                       ++ [""; payload])%list).
Proof.
  unfold to_sbatch_file_string, sbatch_lines.
  generalize (map sbatch_line (get_cli_parameters r)). intros directives.
  change (0 <? length [payload])%nat with true. cbv iota.
  do 2 f_equal. rewrite <- !app_assoc. reflexivity.
Qed.

Lemma prefix_sbatch x : String.prefix "#SBATCH " ("#SBATCH " ++ x) = true.
Proof. simpl. apply prefix_empty. Qed.

Lemma length_cons_S {A} (x : A) (l : list A) n :
  length l = n -> length (x :: l) = S n.
Proof. intros <-. reflexivity. Qed.

Lemma directives_by_field r (directives : list string) :
  directives
  = sbatch_line ("--job-name=" ++ job_name r) :: omap (rendered_directive r) all_fields ->
  Forall (fun d => String.prefix "#SBATCH " d = true) directives
  /\ List.filter is_job_name_directive directives
     = ["#SBATCH --job-name=" ++ job_name r]
  /\ (forall f : field,
        List.filter (is_directive_of f) directives
        = if present r f then option_list (rendered_directive r f) else [])
  /\ length directives = S (length (List.filter (present r) all_fields)).
Proof.
  intros ->. split; [|split; [|split]].
  - constructor; [apply prefix_sbatch|].
    apply Forall_forall. intros d Hd.
    apply list_elem_of_omap in Hd as (g & _ & Hg).
    rewrite rendered_directive_eq in Hg.
    destruct (is_boolean g), (present r g), (field_value r g);
      inversion Hg; subst; apply prefix_sbatch.
  - rewrite filter_cons_if, job_name_line_is_job_name, no_job_name_among_fields.
    reflexivity.
  - intros f. rewrite filter_cons_if, job_name_line_not_field.
    rewrite (filter_directives r f all_fields all_fields_NoDup).
    rewrite (bool_decide_eq_true_2 _ (all_fields_complete f)).
    rewrite directive_for_present. now destruct (rendered_directive r f).
  - apply length_cons_S, length_directives.
Qed.

Lemma split_first_line (s t : string) :
  no_newline s = true ->
  Py.split Py.LF (s ++ Py.nl ++ t) = s :: Py.split Py.LF t.
Proof.
  induction s as [|c s IH]; intros H.
  - reflexivity.
  - cbn in H. apply andb_true_iff in H as [Hc Hs].
    change (String c s ++ Py.nl ++ t) with (String c (s ++ Py.nl ++ t)).
    cbn [Py.split]. apply negb_true_iff in Hc. rewrite Hc.
    now rewrite (IH Hs).
Qed.

Lemma split_single_line (s : string) :
  no_newline s = true -> Py.split Py.LF s = [s].
Proof.
  induction s as [|c s IH]; intros H; [reflexivity|].
  cbn in H. apply andb_true_iff in H as [Hc Hs].
  cbn [Py.split]. apply negb_true_iff in Hc. rewrite Hc. now rewrite (IH Hs).
Qed.

Lemma split_join (lines : list string) :
  lines <> [] -> forallb no_newline lines = true ->
  Py.split Py.LF (Py.join Py.nl lines) = lines.
Proof.
  induction lines as [|x lines IH]; [congruence|]. intros _ H.
  cbn [forallb] in H. apply andb_true_iff in H as [Hx Hl].
  destruct lines as [|y lines].
  - now apply split_single_line.
  - unfold Py.join in *.
    change (String.concat Py.nl (x :: y :: lines))
      with (x ++ Py.nl ++ String.concat Py.nl (y :: lines)).
    rewrite (split_first_line x _ Hx). f_equal. now apply IH.
Qed.

Lemma sbatch_lines_parts r payload :
  sbatch_lines r [payload]
  = (["#!/bin/bash"; ""] ++ map sbatch_line (get_cli_parameters r)
       ++ [""; payload])%list.
Proof.
  unfold sbatch_lines.
  generalize (map sbatch_line (get_cli_parameters r)). intros directives.
  rewrite <- !app_assoc. reflexivity.
Qed.

Lemma rendered_if_present r f :
  (if present r f then option_list (rendered_directive r f) else [])
  = option_list
      (match f with
       | Fcomment =>
           (fun v => "#SBATCH --comment=" ++ dquote ++ v ++ dquote) <$> comment r
       | _ => directive_for r f
       end).
Proof.
  rewrite directive_for_present.
  destruct f; unfold rendered_directive;
    try (now destruct (directive_for r _)).
  now destruct (comment r).
Qed.

(** C5, as stated, fails: a value that holds a line feed brings lines of
    its own into the artifact.  Here the node count is followed by a line
    that reads as a memory directive, though the request has no memory
    field. *)
Lemma line_feed_in_a_value_adds_a_directive :
  ~ (forall (r : SLURMJobRequestData) (payload : string),
        exists text,
          to_sbatch_file_string r [payload] = Ok text
          /\ forall f : field,
               List.filter (is_directive_of f) (Py.split Py.LF text)
               = option_list (directive_for r f)).
Proof.
  intros H.
  destruct (H injected_request ". /opt/driver/idle_script.sh")
    as (text & Htext & Hf).
  specialize (Hf Fmem). revert Htext Hf.
  vm_compute. intros [= <-]. discriminate.
Qed.

(** The comment is no [<flag>=<value>] directive either: its value is put
    between double quotes. *)
Example comment_is_rendered_between_quotes :
  exists text,
    to_sbatch_file_string demo_request [". /opt/driver/idle_script.sh"] = Ok text
    /\ List.filter (is_directive_of Fcomment) (Py.split Py.LF text)
       = ["#SBATCH --comment=" ++ dquote
          ++ "Automatic job created from GitLab CI" ++ dquote]
    /\ directive_for demo_request Fcomment
       = Some "#SBATCH --comment=Automatic job created from GitLab CI".
Proof. eexists. split; [reflexivity|]. split; vm_compute; reflexivity. Qed.

(** C5, amended. When no value of the request holds a line feed, the
    rendered submission artifact, cut at its line feeds, is the line
    [#!/bin/bash], a blank line, the [#SBATCH] directives, a blank line and
    the payload inclusion line; among the directives there is exactly one
    for the job name, and for each optional field exactly one when the
    field is present ([<flag>=<value>], the value of the comment between
    double quotes, or the bare flag of a boolean field that is set) and
    none when it is absent. *)
Theorem sbatch_file_one_directive_per_present_field
  (r : SLURMJobRequestData) (payload : string) :
  forallb no_newline (sbatch_lines r [payload]) = true ->
  exists (text : string) (directives : list string),
    to_sbatch_file_string r [payload] = Ok text
    /\ Py.split Py.LF text
       = (["#!/bin/bash"; ""] ++ directives ++ [""; payload])%list
    /\ Forall (fun d => String.prefix "#SBATCH " d = true) directives
    /\ List.filter is_job_name_directive directives
       = ["#SBATCH --job-name=" ++ job_name r]
    /\ (forall f : field,
          List.filter (is_directive_of f) directives
          = option_list
              (match f with
               | Fcomment =>
                   (fun v => "#SBATCH --comment=" ++ dquote ++ v ++ dquote)
                     <$> comment r
               | _ => directive_for r f
               end))
    /\ (forall f : field,
          present r f = false -> List.filter (is_directive_of f) directives = [])
    /\ length directives = S (length (List.filter (present r) all_fields)).
Proof.
  intros Hlines.
  exists (Py.join Py.nl (sbatch_lines r [payload])),
    (map sbatch_line (get_cli_parameters r)).
  split; [reflexivity|].
  split.
  { rewrite <- sbatch_lines_parts. apply split_join; [|exact Hlines].
    unfold sbatch_lines. discriminate. }
  destruct (directives_by_field r _ (get_cli_parameters_by_field r))
    as (Hall & Hname & Hfield & Hlen).
  split; [exact Hall|]. split; [exact Hname|].
  split; [intros f; rewrite Hfield; apply rendered_if_present|].
  split; [intros f Hf; now rewrite Hfield, Hf|exact Hlen].
Qed.

Lemma sbatch_file_one_directive_per_present_field_witness :
  exists (text : string) (directives : list string),
    to_sbatch_file_string demo_request [". /opt/driver/idle_script.sh"] = Ok text
    /\ Py.split Py.LF text
       = (["#!/bin/bash"; ""] ++ directives
            ++ [""; ". /opt/driver/idle_script.sh"])%list
    /\ Forall (fun d => String.prefix "#SBATCH " d = true) directives
    /\ List.filter is_job_name_directive directives
       = ["#SBATCH --job-name=" ++ job_name demo_request]
    /\ (forall f : field,
          List.filter (is_directive_of f) directives
          = option_list
              (match f with
               | Fcomment =>
                   (fun v => "#SBATCH --comment=" ++ dquote ++ v ++ dquote)
                     <$> comment demo_request
               | _ => directive_for demo_request f
               end))
    /\ (forall f : field,
          present demo_request f = false ->
          List.filter (is_directive_of f) directives = [])
    /\ length directives
       = S (length (List.filter (present demo_request) all_fields)).
Proof.
  apply (sbatch_file_one_directive_per_present_field demo_request
           ". /opt/driver/idle_script.sh").
  vm_compute. reflexivity.
Defined.

(** X16. When no value of the request holds a line feed, splitting the rendered
    text at line feeds gives back exactly the lines of the artifact. *)
Lemma sbatch_file_lines (r : SLURMJobRequestData) (payload : string) :
  forallb no_newline (sbatch_lines r [payload]) = true ->
  exists text,
    to_sbatch_file_string r [payload] = Ok text
    /\ Py.split Py.LF text = sbatch_lines r [payload].
Proof.
  intros H. eexists. split; [reflexivity|].
  apply split_join; [|exact H].
  unfold sbatch_lines. discriminate.
Qed.

(** Concrete runs: each conjunct is settled by evaluating the model. *)
Ltac run_conjuncts :=
  repeat (lazymatch goal with |- _ /\ _ => split end; [vm_compute; reflexivity|]);
  vm_compute; reflexivity.

(** ** Bounded waiting *)

(** C2, as stated, fails: with a zero budget the predicate is not evaluated
    once, and the call does not return the predicate's value. *)
Lemma wait_until_zero_is_not_single_shot :
  ~ exists w',
      wait_until 1 (probed (fun _ => true)) 0 quiet_world = Some (Ok true, w')
      /\ evaluations w' = S (evaluations quiet_world)
      /\ sleeps w' = sleeps quiet_world.
Proof. intros (w' & H & _). discriminate H. Qed.

(** C2, amended. With a zero budget [wait_until] returns false at once: the
    predicate is not evaluated and nothing sleeps (the world is untouched).
    With any other budget, when the first evaluation of the predicate is
    true the call returns true in the world that this one evaluation left,
    so without sleeping. *)
Theorem wait_until_first_evaluation
  (fuel : nat) (condition : M bool) (timeout_seconds : Z) (w : World) :
  wait_until fuel condition 0 w = Some (Ok false, w)
  /\ (forall w', timeout_seconds <> 0 ->
                 condition w = Some (Ok true, w') ->
                 wait_until (S fuel) condition timeout_seconds w = Some (Ok true, w'))
  /\ (forall p, timeout_seconds <> 0 -> p w = true ->
                exists w', wait_until (S fuel) (probed p) timeout_seconds w
                           = Some (Ok true, w')
                           /\ evaluations w' = S (evaluations w)
                           /\ sleeps w' = sleeps w).
Proof.
  split; [now destruct fuel|].
  assert (forall w', timeout_seconds <> 0 ->
                     condition w = Some (Ok true, w') ->
                     wait_until (S fuel) condition timeout_seconds w
                     = Some (Ok true, w')) as First.
  { intros w' Hne Hc. cbn [wait_until].
    destruct (Z.eqb_spec timeout_seconds 0) as [->|_]; [congruence|].
    unfold bind. now rewrite Hc. }
  split; [exact First|].
  intros p Hne Hp. exists (record (EvProbe true) w). split.
  - cbn [wait_until].
    destruct (Z.eqb_spec timeout_seconds 0) as [->|_]; [congruence|].
    unfold bind, probed. now rewrite Hp.
  - unfold evaluations, sleeps. cbn [record trace].
    rewrite !List.filter_app, !length_app. cbn. lia.
Qed.

Lemma wait_until_first_evaluation_witness :
  wait_until 1 (probed (fun _ => true)) 5 quiet_world
  = Some (Ok true, record (EvProbe true) quiet_world).
Proof.
  apply (proj1 (proj2 (wait_until_first_evaluation 0 (probed (fun _ => true)) 5 quiet_world))).
  - lia.
  - reflexivity.
Defined.

(** X6. A predicate that stays false uses up the budget: with a budget of
    [n] seconds the trace grows by exactly [n] rounds, each of them one
    evaluation of the predicate followed by a sleep of one second, and the
    call returns false. *)
Lemma wait_until_exhausts_budget (p : World -> bool) :
  (forall w, p w = false) ->
  forall (n fuel : nat) (w : World),
    (n <= fuel)%nat ->
    exists w',
      wait_until fuel (probed p) (Z.of_nat n) w = Some (Ok false, w')
      /\ trace w' = (trace w ++ probing n)%list.
Proof.
  intros Hp. induction n as [|n IH]; intros fuel w Hfuel.
  - exists w. split; [now destruct fuel|]. cbn. now rewrite app_nil_r.
  - destruct fuel as [|fuel]; [lia|]. cbn [wait_until].
    replace (Z.of_nat (S n) =? 0) with false by (symmetry; apply Z.eqb_neq; lia).
    replace (Z.of_nat (S n) - 1) with (Z.of_nat n) by lia.
    unfold bind at 1, probed at 1. rewrite Hp.
    unfold bind at 1, time_sleep, emit.
    destruct (IH fuel (record (EvSleep 1) (record (EvProbe false) w)))
      as (w' & Hw & Ht); [lia|].
    exists w'. split; [exact Hw|]. rewrite Ht.
    cbn [record trace probing]. now rewrite <- !app_assoc.
Qed.

(** ** The stop sentinel *)

(** C8, as stated, fails: when the sentinel cannot be written, the error of
    the write reaches the caller of [mark_stop]. *)
Lemma mark_stop_propagates_write_error :
  SLURMIdleJob.mark_stop job42 locked_world
  = Some (Raise PermissionError, locked_world).
Proof. reflexivity. Qed.

(** C8, amended. When the sentinel path can be written, [mark_stop] writes
    the sentinel file and touches no other file, and a second call leaves
    the files as the first call left them.  An error of the write is not
    ignored: it is raised to the caller.  When the file cannot be opened,
    nothing is written; when the write fails after the file was opened,
    the sentinel file exists all the same, holding what got through of
    the message. *)
Theorem mark_stop_writes_sentinel (self : SLURMIdleJob.t) (w : World) :
  let path := SLURMIdleJob.exit_script_path self in
  match denied w !! path, failing w !! path with
  | Some e, _ => SLURMIdleJob.mark_stop self w = Some (Raise e, w)
  | None, Some (n, e) =>
      exists w1,
        SLURMIdleJob.mark_stop self w = Some (Raise e, w1)
        /\ content <$> files w1 !! path
           = Some (String.substring 0 n SLURMIdleJob.stop_message)
        /\ delete path (files w1) = delete path (files w)
        /\ trace w1
           = (trace w
                ++ [EvWrite path (String.substring 0 n SLURMIdleJob.stop_message)])%list
  | None, None =>
      exists w1 w2 message,
        SLURMIdleJob.mark_stop self w = Some (Ok tt, w1)
        /\ content <$> files w1 !! path = Some SLURMIdleJob.stop_message
        /\ delete path (files w1) = delete path (files w)
        /\ trace w1
           = (trace w ++ [EvWrite path SLURMIdleJob.stop_message;
                          EvLog DEBUG message])%list
        /\ SLURMIdleJob.mark_stop self w1 = Some (Ok tt, w2)
        /\ files w2 = files w1
  end.
Proof.
  unfold SLURMIdleJob.mark_stop.
  generalize (SLURMIdleJob.exit_script_path self) SLURMIdleJob.stop_message.
  intros path message. cbv zeta.
  destruct (denied w !! path) as [e|] eqn:D.
  - unfold bind, write_file. now rewrite D.
  - destruct (failing w !! path) as [[n e]|] eqn:F.
    + unfold bind, write_file. rewrite D, F.
      eexists. split; [reflexivity|]. cbn [files with_files record trace].
      split; [now rewrite lookup_insert_eq|].
      split; [now rewrite delete_insert_eq|reflexivity].
    + unfold write_file, os_path_abspath, get, logging, emit, bind.
      rewrite D, F.
      eexists. eexists. eexists. split; [reflexivity|].
      cbn [files with_files record trace denied failing cwd].
      rewrite D, F.
      split; [now rewrite lookup_insert_eq|].
      split; [now rewrite delete_insert_eq|].
      split; [now rewrite <- app_assoc|].
      split; [reflexivity|].
      cbn [files with_files record trace].
      rewrite lookup_insert_eq. cbn [mode]. now rewrite insert_insert_eq.
Qed.

(** ** Dispatching a script *)

Lemma string_length_append (s t : string) :
  String.length (s ++ t) = (String.length s + String.length t)%nat.
Proof. induction s as [|c s IH]; simpl; [reflexivity|now rewrite IH]. Qed.

Lemma append_assoc (a b c : string) : (a ++ b) ++ c = a ++ b ++ c.
Proof.
  induction a as [|x a IH]; [reflexivity|].
  change (String x ((a ++ b) ++ c) = String x (a ++ b ++ c)). now rewrite IH.
Qed.

Lemma app_cons c (r b : string) : String c r ++ b = String c (r ++ b).
Proof. reflexivity. Qed.


Lemma append_suffix_ne (s t : string) : t <> "" -> s ++ t <> s.
Proof.
  intros Ht H. apply Ht.
  assert (String.length (s ++ t) = String.length s) as L by now rewrite H.
  rewrite string_length_append in L.
  destruct t; [reflexivity|simpl in L; lia].
Qed.

(** C10. When reading the source fails, [execute_script] has already set
    [current_execution] to the script name, and before the exception
    reaches the caller it writes an empty temporary file and renames it
    onto the canonical script path (the workspace being writable): the
    remote side can see an empty script. *)
Theorem execute_script_source_read_failure
  (self : SLURMIdleJob.t) (script_name path : string) (e : exn) (w : World) :
  let self' := SLURMIdleJob.set_current_execution self script_name in
  let script := os_path_join (SLURMIdleJob.work_dir self) script_name
                ++ ".gitlab_ci_step_script" in
  read_file path w = Some (Raise e, w) ->
  writable w (script ++ ".tmp") ->
  denied w !! script = None ->
  exists w' logs,
    SLURMIdleJob.execute_script self script_name (Some path) w
    = Some (self', Raise e, w')
    /\ SLURMIdleJob.current_execution self' = Some script_name
    /\ SLURMIdleJob.get_execution_script_path self' = Ok script
    /\ content <$> files w' !! script = Some ""
    /\ files w' !! (script ++ ".tmp") = None
    /\ trace w' = (trace w ++ EvWrite (script ++ ".tmp") ""
                     :: EvRename (script ++ ".tmp") script :: logs)%list.
Proof.
  intros self' script Hread [Htmp Hfull] Hscript.
  assert (script ++ ".tmp" <> script) as Hne by now apply append_suffix_ne.
  unfold SLURMIdleJob.execute_script. fold self'.
  unfold SLURMIdleJob.get_execution_logfile_path,
    SLURMIdleJob.get_execution_executed_path,
    SLURMIdleJob.get_execution_script_path.
  cbn [self' SLURMIdleJob.set_current_execution SLURMIdleJob.current_execution
         SLURMIdleJob.work_dir rbind].
  fold script.
  generalize dependent script. intros script Htmp Hfull Hscript Hne.
  unfold lift. unfold bind at 1 2 3 4, try_finally. rewrite Hread.
  unfold bind at 1, write_file. rewrite Htmp, Hfull.
  unfold bind at 1, os_rename. cbn. rewrite lookup_insert_eq, Hscript. cbn.
  eexists. eexists. split; [reflexivity|]. cbn.
  repeat split.
  - now rewrite lookup_insert_eq.
  - rewrite lookup_insert_ne by congruence. now rewrite lookup_delete_eq.
  - rewrite <- !app_assoc. reflexivity.
Qed.

Lemma execute_script_source_read_failure_witness :
  exists w' logs,
    SLURMIdleJob.execute_script job42 "step_script" (Some "/tmp/missing.sh")
      quiet_world
    = Some (SLURMIdleJob.set_current_execution job42 "step_script",
            Raise FileNotFoundError, w')
    /\ SLURMIdleJob.current_execution
         (SLURMIdleJob.set_current_execution job42 "step_script")
       = Some "step_script"
    /\ SLURMIdleJob.get_execution_script_path
         (SLURMIdleJob.set_current_execution job42 "step_script")
       = Ok "/builds/step_script.gitlab_ci_step_script"
    /\ content <$> files w' !! "/builds/step_script.gitlab_ci_step_script" = Some ""
    /\ files w' !! "/builds/step_script.gitlab_ci_step_script.tmp" = None
    /\ trace w' = EvWrite "/builds/step_script.gitlab_ci_step_script.tmp" ""
                   :: EvRename "/builds/step_script.gitlab_ci_step_script.tmp"
                        "/builds/step_script.gitlab_ci_step_script" :: logs.
Proof.
  apply (execute_script_source_read_failure job42 "step_script" "/tmp/missing.sh"
           FileNotFoundError quiet_world).
  - reflexivity.
  - split; reflexivity.
  - reflexivity.
Defined.

(** ** Creating the allocation *)

(** C7. When the idle-loop payload is not a file, is not executable or is
    not readable, [create] logs one critical message and returns [None];
    nothing else happens: no file is written and no command is issued. *)
Theorem create_refuses_unusable_payload
  (idle : string) (configuration : SLURMJobRequestData)
  (work_dir batch_filename : string) (w : World) :
  os_path_isfile idle w = Some (Ok false, w)
  \/ os_access idle X_OK w = Some (Ok false, w)
  \/ os_access idle R_OK w = Some (Ok false, w) ->
  exists message w',
    SLURMIdleJob.create idle configuration work_dir batch_filename w
    = Some (Ok None, w')
    /\ w' = record (EvLog CRITICAL message) w
    /\ files w' = files w
    /\ sys_count w' = sys_count w
    /\ List.filter is_write (trace w') = List.filter is_write (trace w)
    /\ List.filter is_system (trace w') = List.filter is_system (trace w).
Proof.
  intros H.
  assert (forall message, let w' := record (EvLog CRITICAL message) w in
            files w' = files w /\ sys_count w' = sys_count w
            /\ List.filter is_write (trace w') = List.filter is_write (trace w)
            /\ List.filter is_system (trace w') = List.filter is_system (trace w)) as Frame.
  { intros message. cbn. rewrite !List.filter_app. cbn. now rewrite !app_nil_r. }
  unfold SLURMIdleJob.create.
  unfold bind at 1. unfold os_path_isfile at 1, get at 1.
  unfold os_path_isfile, os_access, get in H.
  destruct (files w !! idle) as [f|] eqn:F.
  - cbv iota beta. unfold negb at 1. cbv iota.
    unfold bind at 1. unfold os_access at 1, get at 1. rewrite F.
    destruct (permits f X_OK) eqn:X.
    + cbv iota beta. unfold negb at 1. cbv iota.
      unfold bind at 1. unfold os_access at 1, get at 1. rewrite F.
      destruct (permits f R_OK) eqn:R.
      * exfalso. destruct H as [H|[H|H]]; congruence.
      * cbv iota beta. unfold negb at 1. cbv iota.
        eexists. eexists. split; [reflexivity|]. split; [reflexivity|apply Frame].
    + cbv iota beta. unfold negb at 1. cbv iota.
      eexists. eexists. split; [reflexivity|]. split; [reflexivity|apply Frame].
  - cbv iota beta. unfold negb at 1. cbv iota.
    eexists. eexists. split; [reflexivity|]. split; [reflexivity|apply Frame].
Qed.

Lemma create_refuses_unusable_payload_witness :
  exists message w',
    SLURMIdleJob.create "/opt/driver/idle_script.sh" demo_request
      "/builds" "config.sbatch" quiet_world
    = Some (Ok None, w')
    /\ w' = record (EvLog CRITICAL message) quiet_world
    /\ files w' = files quiet_world
    /\ sys_count w' = sys_count quiet_world
    /\ List.filter is_write (trace w') = List.filter is_write (trace quiet_world)
    /\ List.filter is_system (trace w') = List.filter is_system (trace quiet_world).
Proof.
  apply create_refuses_unusable_payload. left. reflexivity.
Defined.

(** With a usable payload [create] does write the submission script, makes
    it executable and submits it, then polls until the job is known. *)
Example create_submits_usable_payload :
  exists w',
    SLURMIdleJob.create "/opt/driver/idle_script.sh" demo_request
      "/builds" "config.sbatch" ready_world
    = Some (Ok (Some (SLURMIdleJob.__init__ (Some "1234") "/builds")), w')
    /\ (fun f => Ok (content f)) <$> files w' !! "/builds/config.sbatch"
       = Some (to_sbatch_file_string demo_request [". /opt/driver/idle_script.sh"])
    /\ (mode <$> files w' !! "/builds/config.sbatch") = Some 511
    /\ count (is_command "sbatch --parsable /builds/config.sbatch") (trace w') = 1%nat
    /\ sleeps w' = 1%nat.
Proof. eexists. run_conjuncts. Qed.

(** ** Forwarding the log *)

Section LogForwarding.
Import GitLabPhases.












End LogForwarding.


(** A log that ends in the middle of a character makes the pass over it
    raise: nothing of it is forwarded. *)
Example log_cut_in_a_character_raises :
  GitLabPhases.forward_log [echo_done] (Ok cut_log)
  = Some (Raise UnicodeDecodeError, GitLabPhases.start).
Proof. vm_compute. reflexivity. Qed.



(** The same run, computed: three pieces are printed in the loop, the
    fourth by the pass after it. *)
Example echo_is_forwarded_in_four_pieces :
  GitLabPhases.forward_log (map GitLabPhases.cycle echo_cycles ++ [echo_done])
    (Ok "echo hi; echo bye")
  = Some (Ok tt,
          {| GitLabPhases.read_bytes := 7;
             GitLabPhases.last_read_timestamp := 102;
             GitLabPhases.printed := ["ec"; "ho "; "hi"; "; echo bye"] |}).
Proof. vm_compute. reflexivity. Qed.

(** ** Stopping an allocation *)

Lemma evolves_refl w : evolves w w 0 [].
Proof. split; [reflexivity|reflexivity|lia|now rewrite app_nil_r]. Qed.

Lemma evolves_trans w1 w2 w3 c1 c2 a1 a2 :
  evolves w1 w2 c1 a1 -> evolves w2 w3 c2 a2 ->
  evolves w1 w3 (c1 + c2) (a1 ++ a2).
Proof.
  intros [S1 E1 C1 T1] [S2 E2 C2 T2]. split.
  - congruence.
  - congruence.
  - lia.
  - now rewrite T2, T1, app_assoc.
Qed.

Lemma evolves_record e w : evolves w (record e w) 0 [e].
Proof. split; cbn; [reflexivity|reflexivity|lia|reflexivity]. Qed.

Lemma effect_free_ret {A} (a : A) : effect_free (ret a).
Proof. now exists (Ok a). Qed.

Lemma effect_free_raise {A} e : effect_free (@raise A e).
Proof. now exists (Raise e). Qed.

Lemma effect_free_lift {A} (r : result A) : effect_free (lift r).
Proof. now exists r. Qed.

Lemma effect_free_bind {A B} (m : M A) (k : A -> M B) :
  effect_free m -> (forall a, effect_free (k a)) -> effect_free (bind m k).
Proof.
  intros [r Hm] Hk. destruct r as [a|e].
  - destruct (Hk a) as [r' Hr']. exists r'. intros w.
    unfold bind. now rewrite Hm, Hr'.
  - exists (Raise e). intros w. unfold bind. now rewrite Hm.
Qed.

Ltac effect_free :=
  repeat first
    [ apply effect_free_ret
    | apply effect_free_raise
    | apply effect_free_lift
    | apply effect_free_bind; [|intros ?]
    | match goal with
      | |- effect_free (if ?c then _ else _) => destruct c
      | |- effect_free (match ?x with _ => _ end) => destruct x
      | |- effect_free (let _ := _ in _) => cbv zeta
      end ].

Lemma one_query_system command : one_query command (_system command).
Proof.
  intros w1 w2 H. unfold _system. rewrite H.
  destruct (scheduler w2 (sys_count w2) command) as [retcode out err|e].
  - cbv zeta.
    set (logs := [EvLog DEBUG ("Command: " ++ command);
                  EvLog DEBUG (" - Return code: " ++ pretty retcode);
                  EvLog DEBUG (" - Stdout: " ++ Py.strip out)]).
    destruct (0 <? String.length (Py.strip err))%nat eqn:E.
    + exists (Ok (retcode, Py.strip out, Py.strip err)),
        (logs ++ [EvLog DEBUG (" - Stderr: " ++ Py.strip err)])%list.
      eexists. eexists.
      split; [reflexivity|]. unfold bind, logging, emit, ret.
      repeat split; cbn; rewrite <- ?app_assoc; try reflexivity; lia.
    + exists (Ok (retcode, Py.strip out, Py.strip err)), logs.
      eexists. eexists.
      split; [reflexivity|]. unfold bind, logging, emit, ret.
      repeat split; cbn; rewrite <- ?app_assoc; try reflexivity; lia.
  - exists (Raise e), []. eexists. eexists.
    split; [reflexivity|].
    repeat split; cbn; try reflexivity; lia.
Qed.

Lemma one_query_bind {A B} command (m : M A) (k : A -> M B) :
  one_query command m -> (forall a, effect_free (k a)) ->
  one_query command (bind m k).
Proof.
  intros Hm Hk w1 w2 H.
  destruct (Hm w1 w2 H) as (r & logs & w1' & w2' & Hlogs & R1 & E1 & R2 & E2).
  destruct r as [a|e].
  - destruct (Hk a) as [r' Hr'].
    exists r', logs, w1', w2'. unfold bind. rewrite R1, R2, !Hr'. auto.
  - exists (Raise e), logs, w1', w2'. unfold bind. rewrite R1, R2. auto.
Qed.

Lemma one_query_sacct job_id :
  one_query ("sacct --jobs " ++ fmt job_id ++ " --noheader -P --format="
             ++ Py.join "," SLURMRegisteredJobData.variables)
    (SLURMInterface.sacct job_id).
Proof.
  unfold SLURMInterface.sacct. cbv zeta.
  apply one_query_bind; [apply one_query_system|].
  intros [[retcode stdout] stderr]. effect_free.
Qed.

Lemma one_query_is_running self :
  one_query (state_query self) (SLURMIdleJob.is_running self).
Proof.
  unfold SLURMIdleJob.is_running, SLURMIdleJob.get_state, state_query.
  apply one_query_bind; [apply one_query_bind; [apply one_query_sacct|]|].
  - intros [d|]; effect_free.
  - intros st. effect_free.
Qed.

Lemma bind_Ok {A B} (m : M A) (k : A -> M B) w a w' :
  m w = Some (Ok a, w') -> bind m k w = k a w'.
Proof. intros H. unfold bind. now rewrite H. Qed.

Lemma bind_Raise {A B} (m : M A) (k : A -> M B) w e w' :
  m w = Some (Raise e, w') -> bind m k w = Some (Raise e, w').
Proof. intros H. unfold bind. now rewrite H. Qed.

Lemma first_stop_le running n : (first_stop running n <= n)%nat.
Proof.
  revert running. induction n as [|n IH]; intros running; cbn; [lia|].
  destruct (running 0%nat); [|lia]. specialize (IH (fun i => running (S i))). lia.
Qed.

Lemma first_stop_stopped running n :
  (first_stop running n < n)%nat -> running (first_stop running n) = false.
Proof.
  revert running. induction n as [|n IH]; intros running; cbn; [lia|].
  destruct (running 0%nat) eqn:E; [|now intros _].
  intros H. apply (IH (fun i => running (S i))). lia.
Qed.

Lemma first_stop_running running n i :
  (i < first_stop running n)%nat -> running i = true.
Proof.
  revert running i. induction n as [|n IH]; intros running i; cbn; [lia|].
  destruct (running 0%nat) eqn:E; [|lia].
  destruct i as [|i]; [now intros _|].
  intros H. apply (IH (fun i => running (S i))). lia.
Qed.

Lemma stops_within_spec running n :
  stops_within running n = true <->
  exists i, (i <= n)%nat /\ running i = false.
Proof.
  unfold stops_within. rewrite existsb_exists. split.
  - intros (i & Hi & Hr). exists i. apply in_seq in Hi.
    split; [lia|]. now destruct (running i).
  - intros (i & Hi & Hr). exists i. split; [apply in_seq; lia|]. now rewrite Hr.
Qed.

(** Under a stop that is permanent, the query made after the wait tells
    whether the allocation stopped within the budget. *)
Lemma final_query_decides running n :
  (forall i j, (i <= j)%nat -> running i = false -> running j = false) ->
  running (if (first_stop running n <? n)%nat then S (first_stop running n) else n)
  = negb (stops_within running n).
Proof.
  intros Hmono.
  destruct (first_stop running n <? n)%nat eqn:E.
  - apply Nat.ltb_lt in E.
    assert (running (first_stop running n) = false) as Hk
        by now apply first_stop_stopped.
    rewrite (Hmono (first_stop running n) (S (first_stop running n))
               ltac:(lia) Hk).
    symmetry. apply negb_false_iff, stops_within_spec.
    exists (first_stop running n). split; [lia|exact Hk].
  - apply Nat.ltb_ge in E.
    pose proof (first_stop_le running n) as Hle.
    destruct (running n) eqn:Rn; symmetry.
    + apply negb_true_iff. destruct (stops_within running n) eqn:S; [|reflexivity].
      apply stops_within_spec in S as (i & Hi & Hr).
      destruct (decide (i = n)) as [->|Hne]; [congruence|].
      rewrite (first_stop_running running n i) in Hr by lia. discriminate.
    + apply negb_false_iff, stops_within_spec. now exists n.
Qed.

(** ** Attaching by name *)

Lemma ltb_not_le (a b : string) : String.ltb a b = false <-> (b ≤ a)%string.
Proof.
  unfold String.ltb, String.le, String.leb.
  rewrite (String.compare_antisym b a).
  destruct (String.compare a b); simpl; intuition (try discriminate; auto).
Qed.

(** [max] keeps an item that no other item exceeds, and among those the
    first one. *)
Lemma max_from_greatest (l : list (string * string)) (best : string * string) :
  let m := Py.max_from best l in
  (m = best \/ In m l)
  /\ (fst best ≤ fst m)%string
  /\ Forall (fun x => (fst x ≤ fst m)%string) l.
Proof.
  revert best. induction l as [|x l IH]; intros best; cbn [Py.max_from].
  - repeat split; [now left|reflexivity|constructor].
  - destruct (IH (if String.ltb (fst best) (fst x) then x else best))
      as (Hin & Hbest & Hall).
    destruct (String.ltb (fst best) (fst x)) eqn:E.
    + assert (fst best ≤ fst x)%string as Hle.
      { destruct (total String.le (fst best) (fst x)) as [H|H]; [exact H|].
        apply ltb_not_le in H. congruence. }
      repeat split.
      * destruct Hin as [->|Hin]; right; [now left|now right].
      * now transitivity (fst x).
      * now constructor.
    + apply ltb_not_le in E.
      repeat split.
      * destruct Hin as [->|Hin]; [now left|right; now right].
      * exact Hbest.
      * constructor; [now transitivity (fst best)|exact Hall].
Qed.

Lemma submit_keys_spec lines keyed :
  SLURMInterface.submit_keys lines = Ok keyed ->
  map snd keyed = lines
  /\ Forall (fun kx => SLURMInterface.submit_field (snd kx) = Ok (fst kx)) keyed.
Proof.
  revert keyed. induction lines as [|x lines IH]; intros keyed; cbn.
  - intros [= <-]. split; [reflexivity|constructor].
  - destruct (SLURMInterface.submit_field x) as [k|] eqn:K; [|discriminate].
    cbn. destruct (SLURMInterface.submit_keys lines) as [keyed'|]; [|discriminate].
    cbn. intros [= <-]. destruct (IH keyed' eq_refl) as [Hm Hf].
    split; [cbn; now rewrite Hm|now constructor].
Qed.

(** The line chosen by [max] is one of the lines, and no line carries a
    later submission time. *)
Lemma newest_is_latest lines x :
  SLURMInterface.newest lines = Ok x ->
  In x lines
  /\ exists kx, SLURMInterface.submit_field x = Ok kx
       /\ Forall (fun y => exists ky, SLURMInterface.submit_field y = Ok ky
                                      /\ (ky ≤ kx)%string) lines.
Proof.
  unfold SLURMInterface.newest.
  destruct (SLURMInterface.submit_keys lines) as [keyed|] eqn:K; [|discriminate].
  cbn. destruct keyed as [|first rest]; [discriminate|]. intros [= <-].
  destruct (submit_keys_spec lines _ K) as [Hmap Hkeys].
  destruct (max_from_greatest rest first) as (Hin & Hfirst & Hrest).
  set (m := Py.max_from first rest) in *.
  assert (In m (first :: rest)) as Hm by (destruct Hin as [->|Hin]; [now left|now right]).
  split.
  - rewrite <- Hmap. now apply in_map.
  - exists (fst m). split.
    + rewrite Forall_forall in Hkeys. apply Hkeys. now apply list_elem_of_In.
    + rewrite <- Hmap. apply Forall_map.
      assert (Forall (fun kx => (fst kx ≤ fst m)%string) (first :: rest)) as Hall
          by now constructor.
      rewrite Forall_forall in Hkeys, Hall. apply Forall_forall.
      intros [k y] Hy. exists k. split; [now apply (Hkeys (k, y))|].
      now apply (Hall (k, y)).
Qed.

Lemma lines_matching_spec job_name lines kept :
  SLURMInterface.lines_matching job_name lines = Ok kept ->
  forall x, In x kept <->
            In x lines
            /\ exists field, SLURMInterface.name_field x = Ok field
                             /\ Py.contains job_name field = true.
Proof.
  revert kept. induction lines as [|y lines IH]; intros kept; cbn.
  - intros [= <-] x. cbn. split; [tauto|intros [[] _]].
  - destruct (SLURMInterface.name_field y) as [field|] eqn:F; [|discriminate].
    cbn. destruct (SLURMInterface.lines_matching job_name lines) as [kept'|];
      [|discriminate].
    cbn. intros [= <-] x. specialize (IH kept' eq_refl x).
    destruct (Py.contains job_name field) eqn:C; cbn; rewrite IH.
    + split.
      * intros [<-|[Hin Hf]]; [split; [now left|now exists field]|].
        split; [now right|exact Hf].
      * intros [[<-|Hin] Hf]; [now left|right; now split].
    + split.
      * intros [Hin Hf]. split; [now right|exact Hf].
      * intros [[<-|Hin] (field' & Hf & Hc)]; [congruence|].
        split; [exact Hin|now exists field'].
Qed.

(** X15. Whenever [get_id_from_name] resolves a name, the id is the first field
    of an accounting line whose name field contains the name, and no such
    line carries a later submission time (compared as strings). *)
Lemma get_id_from_name_latest job_name w job_id w' :
  SLURMInterface.get_id_from_name job_name w = Some (Ok (Some job_id), w') ->
  exists out err line submitted,
    scheduler w (sys_count w)
      ("sacct --name " ++ dquote ++ job_name ++ dquote
       ++ " --noheader -P --format=JobID,JobName,Submit")
    = SysExit 0 out err
    /\ In line (Py.split Py.LF (Py.strip out))
    /\ Py.index (Py.split1 SLURMInterface.bar (Py.strip line)) 0 = Ok job_id
    /\ (exists field, SLURMInterface.name_field line = Ok field
                       /\ Py.contains job_name field = true)
    /\ SLURMInterface.submit_field line = Ok submitted
    /\ forall other field,
         In other (Py.split Py.LF (Py.strip out)) ->
         SLURMInterface.name_field other = Ok field ->
         Py.contains job_name field = true ->
         exists submitted', SLURMInterface.submit_field other = Ok submitted'
                            /\ (submitted' ≤ submitted)%string.
Proof.
  unfold SLURMInterface.get_id_from_name.
  set (command := "sacct --name " ++ dquote ++ job_name ++ dquote
                  ++ " --noheader -P --format=JobID,JobName,Submit").
  destruct (one_query_system command w w eq_refl)
    as (r & logs & w1 & _ & _ & Hsys & _ & _ & _).
  unfold bind at 1. rewrite Hsys.
  unfold _system in Hsys.
  destruct (scheduler w (sys_count w) command) as [retcode out err|e] eqn:Hans.
  - assert (r = Ok (retcode, Py.strip out, Py.strip err)) as ->.
    { revert Hsys. cbv zeta. unfold bind, logging, emit, ret.
      destruct (0 <? String.length (Py.strip err))%nat; now intros [= <- _]. }
    destruct (Z.eqb_spec retcode 0) as [->|_]; [|discriminate].
    cbn [negb]. destruct (length (Py.split Py.LF (Py.strip out)) =? 0)%nat;
      [discriminate|].
    unfold bind at 1, lift.
    destruct (SLURMInterface.lines_matching job_name _) as [kept|] eqn:Hkept;
      [|discriminate].
    destruct (length kept =? 0)%nat; [discriminate|].
    unfold bind at 1, lift.
    destruct (SLURMInterface.newest kept) as [line|] eqn:Hnew; [|discriminate].
    unfold bind at 1, lift.
    destruct (Py.index _ 0) as [job_id'|] eqn:Hid; [|discriminate].
    intros [= <- _].
    destruct (newest_is_latest kept line Hnew) as (Hin & submitted & Hsub & Hall).
    pose proof (lines_matching_spec job_name _ kept Hkept) as Hspec.
    apply Hspec in Hin as [Hin Hfield].
    exists out, err, line, submitted. repeat split; try assumption.
    intros other field Hother Hf Hc.
    rewrite Forall_forall in Hall. apply Hall, list_elem_of_In, Hspec.
    split; [exact Hother|now exists field].
  - revert Hsys. intros [= <- _]. discriminate.
Qed.

(** Two allocations submitted under one name: [attach] resolves to the one
    submitted last. *)
Example attach_resolves_to_latest_submission :
  exists w',
    SLURMIdleJob.attach "7__8_9" "/builds" two_jobs_world
    = Some (Ok (Some (SLURMIdleJob.__init__ (Some "1234") "/builds")), w').
Proof. eexists. vm_compute. reflexivity. Qed.

(** C3 at the failing input. The scheduler knows no job of the given name:
    [sacct] exits with code 0 and prints nothing.  The docstring of
    [get_id_from_name] promises [None]; the call raises [IndexError],
    because splitting the empty output gives one empty line, which has no
    second field. *)
Theorem attach_without_match_raises :
  exists w',
    SLURMInterface.get_id_from_name "7__8_9" quiet_world
    = Some (Raise IndexError, w')
    /\ SLURMIdleJob.attach "7__8_9" "/builds" quiet_world
       = Some (Raise IndexError, w').
Proof. eexists. run_conjuncts. Qed.

(** * Further properties *)

(** ** Cutting text at a separator *)

Lemma prefix_cons c s t :
  String.prefix (String c s) (String c t) = String.prefix s t.
Proof. simpl. now destruct (ascii_dec c c). Qed.

(** The first piece of a cut has no separator and begins the text. *)
Lemma split_head sep s :
  exists h t, Py.split sep s = h :: t
              /\ lacks sep h = true /\ String.prefix h s = true.
Proof.
  induction s as [|c s (h & t & Hs & Hl & Hp)]; cbn [Py.split].
  - now exists "", [].
  - destruct (Ascii.eqb c sep) eqn:E.
    + exists "", (Py.split sep s). repeat split.
    + rewrite Hs. exists (String c h), t. repeat split.
      * cbn. now rewrite E, Hl.
      * now rewrite prefix_cons.
Qed.

Lemma split1_head sep s :
  exists h t, Py.split1 sep s = h :: t
              /\ lacks sep h = true /\ String.prefix h s = true.
Proof.
  induction s as [|c s (h & t & Hs & Hl & Hp)]; cbn [Py.split1].
  - now exists "", [].
  - destruct (Ascii.eqb c sep) eqn:E.
    + exists "", [s]. repeat split.
    + rewrite Hs. exists (String c h), t. repeat split.
      * cbn. now rewrite E, Hl.
      * now rewrite prefix_cons.
Qed.

Lemma split_up_to sep s :
  exists h t, Py.split sep s = h :: t /\ up_to [sep] s h.
Proof.
  induction s as [|c s (h & t & Hs & Hl & rest & Hr & Hrest)]; cbn [Py.split].
  - exists "", []. split; [reflexivity|]. split; [now repeat constructor|].
    exists "". split; [reflexivity|now left].
  - destruct (Ascii.eqb c sep) eqn:E.
    + apply Ascii.eqb_eq in E as ->.
      exists "", (Py.split sep s). split; [reflexivity|].
      split; [now repeat constructor|].
      exists (String sep s). split; [reflexivity|].
      right. exists sep, s. split; [reflexivity|now left].
    + rewrite Hs. exists (String c h), t. split; [reflexivity|].
      apply Forall_cons in Hl as [Hl _].
      split; [repeat constructor; cbn; now rewrite E, Hl|].
      exists rest. split; [now rewrite app_cons, <- Hr|exact Hrest].
Qed.

Lemma split1_up_to sep s :
  exists h t, Py.split1 sep s = h :: t /\ up_to [sep] s h.
Proof.
  induction s as [|c s (h & t & Hs & Hl & rest & Hr & Hrest)]; cbn [Py.split1].
  - exists "", []. split; [reflexivity|]. split; [now repeat constructor|].
    exists "". split; [reflexivity|now left].
  - destruct (Ascii.eqb c sep) eqn:E.
    + apply Ascii.eqb_eq in E as ->.
      exists "", [s]. split; [reflexivity|].
      split; [now repeat constructor|].
      exists (String sep s). split; [reflexivity|].
      right. exists sep, s. split; [reflexivity|now left].
    + rewrite Hs. exists (String c h), t. split; [reflexivity|].
      apply Forall_cons in Hl as [Hl _].
      split; [repeat constructor; cbn; now rewrite E, Hl|].
      exists rest. split; [now rewrite app_cons, <- Hr|exact Hrest].
Qed.

Lemma lacks_app c (a b : string) : lacks c (a ++ b) = lacks c a && lacks c b.
Proof.
  induction a as [|x a IH]; [reflexivity|].
  rewrite app_cons. cbn [lacks]. now rewrite IH, andb_assoc.
Qed.

(** The text up to the first of some characters is determined. *)
Lemma up_to_unique seps s h h' : up_to seps s h -> up_to seps s h' -> h = h'.
Proof.
  intros (Hl & rest & -> & Hrest) (Hl' & rest' & Heq & Hrest').
  revert h' Hl' Heq.
  induction h as [|c h IH]; intros h' Hl' Heq.
  - destruct h' as [|c' h']; [reflexivity|]. exfalso.
    cbn in Heq. destruct Hrest as [->|(c0 & r & -> & Hin)]; [discriminate Heq|].
    injection Heq as -> _.
    rewrite Forall_forall in Hl'. specialize (Hl' c' ltac:(now apply list_elem_of_In)).
    cbn in Hl'. now rewrite Ascii.eqb_refl in Hl'.
  - destruct h' as [|c' h'].
    + exfalso. cbn in Heq.
      destruct Hrest' as [->|(c0 & r & -> & Hin)]; [discriminate Heq|].
      injection Heq as -> _.
      rewrite Forall_forall in Hl. specialize (Hl c0 ltac:(now apply list_elem_of_In)).
      cbn in Hl. now rewrite Ascii.eqb_refl in Hl.
    + rewrite !app_cons in Heq. injection Heq as -> Heq. f_equal.
      apply IH; [| |exact Heq].
      * eapply Forall_impl; [exact Hl|]. cbn. intros sep H.
        now apply andb_true_iff in H as [_ H].
      * eapply Forall_impl; [exact Hl'|]. cbn. intros sep H.
        now apply andb_true_iff in H as [_ H].
Qed.

(** ** Blanks around a text *)

Lemma string_length_ind (P : string -> Prop) :
  (forall s, (forall t, (String.length t < String.length s)%nat -> P t) -> P s) ->
  forall s, P s.
Proof.
  intros H s. remember (String.length s) as n eqn:E.
  revert s E. induction n as [n IH] using lt_wf_ind.
  intros s ->. apply H. intros t Ht. now apply (IH (String.length t)).
Qed.

Lemma lstrip_cons c r :
  Py.lstrip (String c r)
  = if Py.isspace c then Py.lstrip r
    else match r with
         | String d r1 =>
             if Py.isspace2 c d then Py.lstrip r1
             else match r1 with
                  | String e r2 =>
                      if Py.isspace3 c d e then Py.lstrip r2 else String c r
                  | EmptyString => String c r
                  end
         | EmptyString => String c r
         end.
Proof. reflexivity. Qed.

Lemma rstrip_cons c r :
  Py.rstrip (String c r)
  = match Py.lstrip (String c r) with
    | EmptyString => EmptyString
    | _ => String c (Py.rstrip r)
    end.
Proof. reflexivity. Qed.

Lemma lstrip_length s : (String.length (Py.lstrip s) <= String.length s)%nat.
Proof.
  induction s as [s IH] using string_length_ind.
  destruct s as [|c r]; [reflexivity|]. rewrite lstrip_cons.
  destruct (Py.isspace c).
  { specialize (IH r ltac:(cbn; lia)). cbn. lia. }
  destruct r as [|d r1]; [reflexivity|].
  destruct (Py.isspace2 c d).
  { specialize (IH r1 ltac:(cbn; lia)). cbn. lia. }
  destruct r1 as [|e r2]; [reflexivity|].
  destruct (Py.isspace3 c d e); [|reflexivity].
  specialize (IH r2 ltac:(cbn; lia)). cbn. lia.
Qed.

(** What [lstrip] leaves does not begin with a blank. *)
Lemma lstrip_lstrip s : Py.lstrip (Py.lstrip s) = Py.lstrip s.
Proof.
  induction s as [s IH] using string_length_ind.
  destruct s as [|c r]; [reflexivity|]. rewrite lstrip_cons.
  destruct (Py.isspace c) eqn:E1; [apply IH; cbn; lia|].
  destruct r as [|d r1]; [rewrite lstrip_cons, E1; reflexivity|].
  destruct (Py.isspace2 c d) eqn:E2; [apply IH; cbn; lia|].
  destruct r1 as [|e r2]; [rewrite lstrip_cons, E1, E2; reflexivity|].
  destruct (Py.isspace3 c d e) eqn:E3; [apply IH; cbn; lia|].
  rewrite lstrip_cons, E1, E2, E3. reflexivity.
Qed.

(** Blanks in front of a text are dropped whatever follows them. *)
Lemma lstrip_app_blank a b : Py.lstrip a = "" -> Py.lstrip (a ++ b) = Py.lstrip b.
Proof.
  induction a as [a IH] using string_length_ind. intros H.
  destruct a as [|c r]; [reflexivity|].
  rewrite lstrip_cons in H. rewrite app_cons, lstrip_cons.
  destruct (Py.isspace c); [apply IH; [cbn; lia|exact H]|].
  destruct r as [|d r1]; [discriminate H|]. rewrite app_cons.
  destruct (Py.isspace2 c d); [apply IH; [cbn; lia|exact H]|].
  destruct r1 as [|e r2]; [discriminate H|]. rewrite app_cons.
  destruct (Py.isspace3 c d e); [apply IH; [cbn; lia|exact H]|].
  discriminate H.
Qed.

(** [rstrip] cuts off a run of blanks. *)
Lemma rstrip_split s :
  exists blanks, s = Py.rstrip s ++ blanks /\ Py.lstrip blanks = "".
Proof.
  induction s as [|c r (blanks & Hr & Hb)]; [now exists ""|].
  rewrite rstrip_cons.
  destruct (Py.lstrip (String c r)) as [|x t] eqn:E.
  - exists (String c r). now split.
  - exists blanks. split; [|exact Hb]. rewrite app_cons. now rewrite <- Hr.
Qed.

Lemma rstrip_rstrip s : Py.rstrip (Py.rstrip s) = Py.rstrip s.
Proof.
  induction s as [|c r IH]; [reflexivity|]. rewrite rstrip_cons.
  destruct (Py.lstrip (String c r)) as [|x t] eqn:E; [reflexivity|].
  rewrite rstrip_cons, IH.
  destruct (Py.lstrip (String c (Py.rstrip r))) as [|y u] eqn:E'; [|reflexivity].
  destruct (rstrip_split r) as (blanks & Hr & Hb).
  rewrite Hr, <- app_cons, (lstrip_app_blank _ _ E'), Hb in E. discriminate E.
Qed.

(** A text that does not begin with a blank still does not after
    [rstrip]. *)
Lemma lstrip_rstrip t : Py.lstrip t = t -> Py.lstrip (Py.rstrip t) = Py.rstrip t.
Proof.
  intros H. destruct t as [|c r]; [reflexivity|].
  rewrite rstrip_cons, H.
  destruct (rstrip_split r) as (blanks & Hr & _).
  assert (forall u, (String.length u < String.length (String c r))%nat ->
                    Py.lstrip u <> String c r) as Hshort.
  { intros u Hu Heq. pose proof (lstrip_length u) as L. rewrite Heq in L. lia. }
  rewrite lstrip_cons in H. rewrite lstrip_cons.
  destruct (Py.isspace c); [exfalso; apply (Hshort r); [cbn; lia|exact H]|].
  destruct (Py.rstrip r) as [|d r1']; [reflexivity|].
  rewrite Hr, app_cons in H. rewrite Hr, app_cons in Hshort.
  destruct (Py.isspace2 c d);
    [exfalso; apply (Hshort (r1' ++ blanks)); [cbn; lia|exact H]|].
  destruct r1' as [|e r2']; [reflexivity|].
  rewrite app_cons in H, Hshort.
  destruct (Py.isspace3 c d e); [|reflexivity].
  exfalso. apply (Hshort (r2' ++ blanks)); [cbn; lia|exact H].
Qed.

(** Stripping twice is stripping once. *)
Lemma strip_strip s : Py.strip (Py.strip s) = Py.strip s.
Proof.
  unfold Py.strip.
  rewrite (lstrip_rstrip (Py.lstrip s) (lstrip_lstrip s)).
  apply rstrip_rstrip.
Qed.

(** ** One command per call *)

Lemma record_after_command e command logs w :
  record e (after_command command logs w)
  = after_command command (logs ++ [e]) w.
Proof.
  unfold record, after_command. cbn. f_equal.
  now rewrite <- app_assoc.
Qed.

Lemma system_spec command w :
  exists logs,
    forallb is_log logs = true
    /\ _system command w
       = Some (system_result (scheduler w (sys_count w) command),
               after_command command logs w).
Proof.
  unfold _system.
  change (count_call (record (EvSystem command) w))
    with (after_command command [] w).
  destruct (scheduler w (sys_count w) command) as [retcode out err|e].
  - cbv zeta. unfold bind, logging, emit, ret.
    rewrite !record_after_command.
    destruct (0 <? String.length (Py.strip err))%nat.
    + rewrite record_after_command. eexists. split; [|reflexivity]. reflexivity.
    + eexists. split; [|reflexivity]. reflexivity.
  - exists []. split; reflexivity.
Qed.

Lemma runs_one_system command : runs_one command (_system command).
Proof.
  intros w. destruct (system_spec command w) as (logs & Hl & Hs).
  now exists (system_result (scheduler w (sys_count w) command)), logs.
Qed.

Lemma runs_one_bind {A B} command (m : M A) (k : A -> M B) :
  runs_one command m -> (forall a, effect_free (k a)) ->
  runs_one command (bind m k).
Proof.
  intros Hm Hk w. destruct (Hm w) as (r & logs & Hl & Hr).
  destruct r as [a|e].
  - destruct (Hk a) as [r' Hr'].
    exists r', logs. split; [exact Hl|]. unfold bind. now rewrite Hr, Hr'.
  - exists (Raise e), logs. split; [exact Hl|]. unfold bind. now rewrite Hr.
Qed.

Ltac runs_one :=
  repeat first
    [ apply runs_one_system
    | apply runs_one_bind; [|intros ?; repeat (match goal with
                                               | p : (_ * _)%type |- _ => destruct p
                                               end); effect_free] ].

(** X1. Every operation on the scheduler runs exactly one command per call
    and, besides, only logs: it neither sleeps nor touches a file or the
    environment, and the state of a job is queried afresh at every call. *)
Theorem scheduler_operations_run_one_command
  (job_id : option string) (job_name sbatch_filepath : string) (signal_no : Z)
  (self : SLURMIdleJob.t) :
  runs_one ("sacct --jobs " ++ fmt job_id ++ " --noheader -P --format="
            ++ Py.join "," SLURMRegisteredJobData.variables)
    (SLURMInterface.sacct job_id)
  /\ runs_one ("sacct --jobs " ++ fmt job_id ++ " --noheader -P --format="
               ++ Py.join "," SLURMRegisteredJobData.variables)
       (SLURMInterface.exists_ job_id)
  /\ runs_one ("scancel " ++ fmt job_id) (SLURMInterface.scancel job_id)
  /\ runs_one ("skill " ++ fmt job_id ++ " -s " ++ pretty signal_no)
       (skill job_id signal_no)
  /\ runs_one ("sbatch --parsable " ++ sbatch_filepath)
       (SLURMInterface.sbatch sbatch_filepath)
  /\ runs_one ("sacct --name " ++ dquote ++ job_name ++ dquote
               ++ " --noheader -P --format=JobID,JobName,Submit")
       (SLURMInterface.get_id_from_name job_name)
  /\ runs_one (state_query self) (SLURMIdleJob.get_state self)
  /\ runs_one (state_query self) (SLURMIdleJob.is_running self)
  /\ runs_one (state_query self) (SLURMIdleJob.is_pending self).
Proof.
  assert (runs_one ("sacct --jobs " ++ fmt job_id ++ " --noheader -P --format="
                    ++ Py.join "," SLURMRegisteredJobData.variables)
            (SLURMInterface.sacct job_id)) as Hsacct.
  { unfold SLURMInterface.sacct. cbv zeta. runs_one. }
  assert (runs_one (state_query self) (SLURMIdleJob.get_state self)) as Hstate.
  { unfold SLURMIdleJob.get_state, state_query, SLURMInterface.sacct. cbv zeta.
    runs_one. }
  repeat split.
  - exact Hsacct.
  - unfold SLURMInterface.exists_. apply runs_one_bind; [exact Hsacct|].
    intros a. effect_free.
  - unfold SLURMInterface.scancel. runs_one.
  - unfold skill. runs_one.
  - unfold SLURMInterface.sbatch. runs_one.
  - unfold SLURMInterface.get_id_from_name. runs_one.
  - exact Hstate.
  - unfold SLURMIdleJob.is_running. apply runs_one_bind; [exact Hstate|].
    intros a. effect_free.
  - unfold SLURMIdleJob.is_pending. apply runs_one_bind; [exact Hstate|].
    intros a. effect_free.
Qed.

(** ** Reading an accounting record *)

Lemma init_of_twelve f0 f1 f2 f3 f4 f5 f6 f7 f8 f9 f10 f11 extra h t :
  Py.split (ascii_of_nat 46) f0 = h :: t ->
  SLURMRegisteredJobData.__init__
    (combine SLURMRegisteredJobData.variables
       (f0 :: f1 :: f2 :: f3 :: f4 :: f5 :: f6 :: f7 :: f8 :: f9 :: f10 :: f11
        :: extra))
  = Ok {| SLURMRegisteredJobData.id := h;
          SLURMRegisteredJobData.name := f1;
          SLURMRegisteredJobData.state := from_string f2;
          SLURMRegisteredJobData.exit_code := f3;
          SLURMRegisteredJobData.elapsed := f4;
          SLURMRegisteredJobData.n_tasks := f5;
          SLURMRegisteredJobData.submit := f6;
          SLURMRegisteredJobData.start := f7;
          SLURMRegisteredJobData.end_ := f8;
          SLURMRegisteredJobData.account := f9;
          SLURMRegisteredJobData.user := f10;
          SLURMRegisteredJobData.time_limit := f11 |}.
Proof.
  intros Hid. unfold SLURMRegisteredJobData.__init__.
  cbn [combine SLURMRegisteredJobData.variables].
  unfold SLURMRegisteredJobData.item. cbn [Py.dict_get String.eqb Ascii.eqb Bool.eqb rbind].
  rewrite Hid. reflexivity.
Qed.

Lemma init_of_fewer (fields : list string) :
  (length fields < 12)%nat ->
  SLURMRegisteredJobData.__init__
    (combine SLURMRegisteredJobData.variables fields)
  = Raise KeyError.
Proof.
  intros H. unfold SLURMRegisteredJobData.__init__.
  destruct fields as [|f0 fields]; [reflexivity|].
  destruct (split_head (ascii_of_nat 46) f0) as (h & t & Hid & _).
  do 11 (destruct fields as [|? fields];
         [ cbn [combine SLURMRegisteredJobData.variables];
           unfold SLURMRegisteredJobData.item;
           cbn [Py.dict_get String.eqb Ascii.eqb Bool.eqb rbind];
           rewrite Hid; reflexivity | ]).
  cbn [length] in H. lia.
Qed.

(** X2. An accounting line with fewer than twelve columns makes the
    constructor of [SLURMRegisteredJobData] raise [KeyError]; with twelve
    or more, the record takes the first twelve in order (further columns
    are ignored), the state through the code table, and as job id the
    first column up to its first dot, so without a step suffix. *)
Theorem registered_job_of_columns (fields : list string) :
  if (length fields <? 12)%nat
  then SLURMRegisteredJobData.__init__
         (combine SLURMRegisteredJobData.variables fields) = Raise KeyError
  else exists d job_id,
      SLURMRegisteredJobData.__init__
        (combine SLURMRegisteredJobData.variables fields) = Ok d
      /\ fields !! 0%nat = Some job_id
      /\ up_to [ascii_of_nat 46] job_id (SLURMRegisteredJobData.id d)
      /\ fields !! 1%nat = Some (SLURMRegisteredJobData.name d)
      /\ from_string <$> fields !! 2%nat = Some (SLURMRegisteredJobData.state d)
      /\ fields !! 3%nat = Some (SLURMRegisteredJobData.exit_code d)
      /\ fields !! 4%nat = Some (SLURMRegisteredJobData.elapsed d)
      /\ fields !! 5%nat = Some (SLURMRegisteredJobData.n_tasks d)
      /\ fields !! 6%nat = Some (SLURMRegisteredJobData.submit d)
      /\ fields !! 7%nat = Some (SLURMRegisteredJobData.start d)
      /\ fields !! 8%nat = Some (SLURMRegisteredJobData.end_ d)
      /\ fields !! 9%nat = Some (SLURMRegisteredJobData.account d)
      /\ fields !! 10%nat = Some (SLURMRegisteredJobData.user d)
      /\ fields !! 11%nat = Some (SLURMRegisteredJobData.time_limit d).
Proof.
  destruct (length fields <? 12)%nat eqn:E.
  - apply init_of_fewer. now apply Nat.ltb_lt.
  - apply Nat.ltb_ge in E.
    do 12 (destruct fields as [|? fields]; [cbn [length] in E; lia|]).
    destruct (split_up_to (ascii_of_nat 46) s) as (h & t & Hid & Hup).
    eexists. exists s.
    split; [exact (init_of_twelve _ _ _ _ _ _ _ _ _ _ _ _ _ h t Hid)|].
    split; [reflexivity|]. split; [exact Hup|].
    cbn. now repeat split.
Qed.

Lemma sacct_of_answer job_id w :
  exists logs,
    forallb is_log logs = true
    /\ SLURMInterface.sacct job_id w
       = Some (sacct_result
                 (scheduler w (sys_count w)
                    ("sacct --jobs " ++ fmt job_id ++ " --noheader -P --format="
                     ++ Py.join "," SLURMRegisteredJobData.variables)),
               after_command
                 ("sacct --jobs " ++ fmt job_id ++ " --noheader -P --format="
                  ++ Py.join "," SLURMRegisteredJobData.variables) logs w).
Proof.
  unfold SLURMInterface.sacct. cbv zeta.
  set (command := "sacct --jobs " ++ fmt job_id ++ " --noheader -P --format="
                  ++ Py.join "," SLURMRegisteredJobData.variables).
  destruct (system_spec command w) as (logs & Hl & Hs).
  exists logs. split; [exact Hl|].
  unfold bind at 1. rewrite Hs.
  destruct (scheduler w (sys_count w) command) as [retcode out err|e];
    [|reflexivity].
  cbn [system_result sacct_result].
  destruct (negb (retcode =? 0) || (String.length (Py.strip out) =? 0)%nat);
    [reflexivity|].
  destruct (split1_head Py.LF (Py.strip out)) as (line & rest & -> & _).
  cbn [length Nat.eqb]. unfold bind, lift, ret, Py.index. cbn [nth_error].
  now destruct (SLURMRegisteredJobData.__init__ _).
Qed.

(** X3. When the accounting command exits with an error or prints nothing
    but blanks, [sacct] returns [None] and [exists] answers false, but
    [get_state], [is_running] and [is_pending] raise [AttributeError]: they
    read the state of [None]. *)
Theorem state_of_unknown_job_raises
  (self : SLURMIdleJob.t) (w : World) (retcode : Z) (out err : string) :
  scheduler w (sys_count w) (state_query self) = SysExit retcode out err ->
  retcode <> 0 \/ Py.strip out = "" ->
  exists w',
    SLURMInterface.sacct (SLURMIdleJob.id self) w = Some (Ok None, w')
    /\ SLURMInterface.exists_ (SLURMIdleJob.id self) w = Some (Ok false, w')
    /\ SLURMIdleJob.get_state self w = Some (Raise AttributeError, w')
    /\ SLURMIdleJob.is_running self w = Some (Raise AttributeError, w')
    /\ SLURMIdleJob.is_pending self w = Some (Raise AttributeError, w').
Proof.
  intros Hans Hnone.
  destruct (sacct_of_answer (SLURMIdleJob.id self) w) as (logs & _ & Hs).
  fold (state_query self) in Hs. rewrite Hans in Hs.
  assert (sacct_result (SysExit retcode out err) = Ok None) as Hr.
  { cbn. destruct Hnone as [Hrc | ->].
    - apply Z.eqb_neq in Hrc. now rewrite Hrc.
    - now rewrite orb_true_r. }
  rewrite Hr in Hs. eexists. split; [exact Hs|].
  unfold SLURMInterface.exists_, SLURMIdleJob.is_running,
    SLURMIdleJob.is_pending, SLURMIdleJob.get_state.
  unfold bind. rewrite Hs. repeat split.
Qed.

Lemma state_of_unknown_job_raises_witness :
  exists w',
    SLURMInterface.sacct (SLURMIdleJob.id job42) unknown_job_world
    = Some (Ok None, w')
    /\ SLURMInterface.exists_ (SLURMIdleJob.id job42) unknown_job_world
       = Some (Ok false, w')
    /\ SLURMIdleJob.get_state job42 unknown_job_world
       = Some (Raise AttributeError, w')
    /\ SLURMIdleJob.is_running job42 unknown_job_world
       = Some (Raise AttributeError, w')
    /\ SLURMIdleJob.is_pending job42 unknown_job_world
       = Some (Raise AttributeError, w').
Proof.
  apply (state_of_unknown_job_raises job42 unknown_job_world 0 ("  " ++ Py.nl) "").
  - reflexivity.
  - right. reflexivity.
Defined.

Lemma from_string_codes (code : string) (s : SLURMJobState) :
  from_string code = Some s <-> In (code, s) _get_equivalent_states.
Proof.
  split; [apply dict_get_Some|].
  unfold _get_equivalent_states. cbn [In].
  intros H.
  repeat (destruct H as [H|H]; [injection H as <- <-; reflexivity|]).
  destruct H.
Qed.

Lemma running_codes (code : string) :
  match from_string code with Some RUNNING => true | _ => false end
  = bool_decide (code = "RUNNING" \/ code = "R").
Proof.
  destruct (from_string code) as [s|] eqn:E.
  - apply from_string_codes in E. unfold _get_equivalent_states in E.
    cbn [In] in E.
    repeat (destruct E as [E|E];
            [injection E as <- <-; vm_compute; reflexivity|]).
    destruct E.
  - symmetry. apply bool_decide_eq_false. intros [-> | ->]; discriminate E.
Qed.

Lemma pending_codes (code : string) :
  match from_string code with Some PENDING => true | _ => false end
  = bool_decide (code = "PENDING" \/ code = "PD").
Proof.
  destruct (from_string code) as [s|] eqn:E.
  - apply from_string_codes in E. unfold _get_equivalent_states in E.
    cbn [In] in E.
    repeat (destruct E as [E|E];
            [injection E as <- <-; vm_compute; reflexivity|]).
    destruct E.
  - symmetry. apply bool_decide_eq_false. intros [-> | ->]; discriminate E.
Qed.

(** X4. When the accounting command succeeds and the first line of its
    output has at least twelve columns, the state is the third column read
    through the code table (later lines, such as job steps, are not
    looked at): [is_running] answers true exactly for the codes
    [RUNNING] and [R], [is_pending] exactly for [PENDING] and [PD], and a
    code outside the table gives false for both, not an exception. *)
Theorem running_iff_state_code
  (self : SLURMIdleJob.t) (w : World) (out err line code : string)
  (rest : list string) :
  scheduler w (sys_count w) (state_query self) = SysExit 0 out err ->
  Py.strip out <> "" ->
  Py.split1 Py.LF (Py.strip out) = line :: rest ->
  (12 <= length (Py.split SLURMInterface.bar (Py.strip line)))%nat ->
  Py.split SLURMInterface.bar (Py.strip line) !! 2%nat = Some code ->
  exists w',
    SLURMIdleJob.get_state self w = Some (Ok (from_string code), w')
    /\ SLURMIdleJob.is_running self w
       = Some (Ok (bool_decide (code = "RUNNING" \/ code = "R")), w')
    /\ SLURMIdleJob.is_pending self w
       = Some (Ok (bool_decide (code = "PENDING" \/ code = "PD")), w').
Proof.
  intros Hans Hout Hline Hlen Hcode.
  destruct (sacct_of_answer (SLURMIdleJob.id self) w) as (logs & _ & Hs).
  fold (state_query self) in Hs. rewrite Hans in Hs.
  assert (exists d,
             SLURMRegisteredJobData.__init__
               (combine SLURMRegisteredJobData.variables
                  (Py.split SLURMInterface.bar (Py.strip line))) = Ok d
             /\ from_string code = SLURMRegisteredJobData.state d)
    as (d & Hd & Hstate).
  { revert Hlen Hcode.
    generalize (Py.split SLURMInterface.bar (Py.strip line)). intros fields Hlen.
    do 12 (destruct fields as [|? fields]; [cbn [length] in Hlen; lia|]).
    intros [= ->].
    destruct (split_head (ascii_of_nat 46) s) as (h & t & Hid & _).
    eexists. split; [exact (init_of_twelve _ _ _ _ _ _ _ _ _ _ _ _ _ h t Hid)|].
    reflexivity. }
  assert (sacct_result (SysExit 0 out err) = Ok (Some d)) as Hr.
  { cbn [sacct_result]. change (negb (0 =? 0)) with false. cbn [orb].
    destruct (Py.strip out) as [|c s] eqn:E; [congruence|].
    cbn [String.length Nat.eqb]. rewrite Hline, Hd. reflexivity. }
  rewrite Hr in Hs. eexists.
  unfold SLURMIdleJob.is_running, SLURMIdleJob.is_pending, SLURMIdleJob.get_state.
  unfold bind. rewrite Hs. cbn [ret]. rewrite <- Hstate.
  rewrite <- running_codes, <- pending_codes. repeat split.
Qed.

Lemma running_iff_state_code_witness :
  exists w',
    SLURMIdleJob.get_state job42 stopping_world
    = Some (Ok (from_string "RUNNING"), w')
    /\ SLURMIdleJob.is_running job42 stopping_world
       = Some (Ok (bool_decide ("RUNNING" = "RUNNING" \/ "RUNNING" = "R")), w')
    /\ SLURMIdleJob.is_pending job42 stopping_world
       = Some (Ok (bool_decide ("RUNNING" = "PENDING" \/ "RUNNING" = "PD")), w').
Proof.
  apply (running_iff_state_code job42 stopping_world
           "42|7__8_9|RUNNING|0:0|00:01:00|1|2023-01-02T09:30:00|2023-01-02T09:30:01|Unknown|acc|ci|02:00:00"
           ""
           "42|7__8_9|RUNNING|0:0|00:01:00|1|2023-01-02T09:30:00|2023-01-02T09:30:01|Unknown|acc|ci|02:00:00"
           "RUNNING" []).
  - reflexivity.
  - intros H. vm_compute in H. discriminate H.
  - vm_compute. reflexivity.
  - vm_compute. lia.
  - vm_compute. reflexivity.
Defined.

(** ** Submitting *)

Lemma sbatch_of_answer (sbatch_filepath : string) (w : World) :
  exists logs,
    forallb is_log logs = true
    /\ match scheduler w (sys_count w) ("sbatch --parsable " ++ sbatch_filepath) with
       | SysRaise e =>
           SLURMInterface.sbatch sbatch_filepath w
           = Some (Raise e,
                   after_command ("sbatch --parsable " ++ sbatch_filepath) logs w)
       | SysExit retcode out _ =>
           if retcode =? 0
           then exists job_id,
               SLURMInterface.sbatch sbatch_filepath w
               = Some (Ok (Some job_id),
                       after_command ("sbatch --parsable " ++ sbatch_filepath)
                         logs w)
               /\ up_to [SLURMInterface.semicolon; Py.LF] (Py.strip out) job_id
           else SLURMInterface.sbatch sbatch_filepath w
                = Some (Ok None,
                        after_command ("sbatch --parsable " ++ sbatch_filepath)
                          logs w)
       end.
Proof.
  unfold SLURMInterface.sbatch.
  set (command := "sbatch --parsable " ++ sbatch_filepath).
  destruct (system_spec command w) as (logs & Hlogs & Hs).
  exists logs. split; [exact Hlogs|].
  destruct (scheduler w (sys_count w) command) as [retcode out err|e];
    cbn [system_result] in Hs;
    [|unfold bind; rewrite Hs; reflexivity].
  destruct (retcode =? 0) eqn:Hrc;
    [|unfold bind at 1; rewrite Hs, Hrc; reflexivity].
  destruct (split1_up_to Py.LF (Py.strip (Py.strip out)))
    as (line & rest & Hline & Hl1 & rest1 & Hr1 & Hrest1).
  destruct (split1_up_to SLURMInterface.semicolon line)
    as (job_id & rest' & Hid & Hl2 & rest2 & Hr2 & Hrest2).
  rewrite strip_strip in Hr1.
  apply Forall_cons in Hl1 as [Hl1 _]. apply Forall_cons in Hl2 as [Hl2 _].
  exists job_id. split.
  - unfold bind at 1. rewrite Hs, Hrc. cbn [negb].
    unfold bind, lift, ret, Py.index. rewrite Hline. cbn [nth_error].
    rewrite Hid. reflexivity.
  - split.
    + repeat constructor; [exact Hl2|].
      rewrite Hr2, lacks_app in Hl1. now apply andb_true_iff in Hl1 as [Hl1 _].
    + exists (rest2 ++ rest1). rewrite Hr1, Hr2 at 1.
      split; [apply append_assoc|].
      destruct Hrest2 as [->|(c & r & -> & Hc)].
      * destruct Hrest1 as [->|(c & r & -> & Hc)]; [now left|].
        right. exists c, r. split; [reflexivity|].
        destruct Hc as [<-|[]]. right. now left.
      * right. exists c, (r ++ rest1). split; [reflexivity|].
        destruct Hc as [<-|[]]. now left.
Qed.

(** X5. [sbatch] raises what the command raises, returns [None] when the
    command exits with an error, and otherwise returns the stripped output
    of the command up to its first semicolon or line feed. *)
Theorem sbatch_job_id (sbatch_filepath : string) (w : World) :
  match scheduler w (sys_count w) ("sbatch --parsable " ++ sbatch_filepath) with
  | SysRaise e =>
      exists w', SLURMInterface.sbatch sbatch_filepath w = Some (Raise e, w')
  | SysExit retcode out _ =>
      if retcode =? 0
      then exists job_id w',
          SLURMInterface.sbatch sbatch_filepath w = Some (Ok (Some job_id), w')
          /\ up_to [SLURMInterface.semicolon; Py.LF] (Py.strip out) job_id
      else exists w',
          SLURMInterface.sbatch sbatch_filepath w = Some (Ok None, w')
  end.
Proof.
  destruct (sbatch_of_answer sbatch_filepath w) as (logs & _ & H).
  destruct (scheduler w (sys_count w) ("sbatch --parsable " ++ sbatch_filepath))
    as [retcode out err|e]; [|eexists; exact H].
  destruct (retcode =? 0); [|eexists; exact H].
  destruct H as (job_id & Hrun & Hup). exists job_id. eexists.
  split; [exact Hrun|exact Hup].
Qed.

(** ** Waiting with other budgets *)

(** X7. With a negative budget [wait_until] never gives up: while the
    predicate stays false the call does not return, whatever number of
    iterations is followed. *)
Theorem wait_until_negative_budget_never_returns
  (p : World -> bool) (timeout_seconds : Z) :
  timeout_seconds < 0 ->
  (forall w, p w = false) ->
  forall (fuel : nat) (w : World),
    wait_until fuel (probed p) timeout_seconds w = None.
Proof.
  intros Hneg Hp fuel. revert timeout_seconds Hneg.
  induction fuel as [|fuel IH]; intros timeout_seconds Hneg w; cbn [wait_until].
  - replace (timeout_seconds =? 0) with false by (symmetry; apply Z.eqb_neq; lia).
    reflexivity.
  - replace (timeout_seconds =? 0) with false by (symmetry; apply Z.eqb_neq; lia).
    unfold bind at 1, probed at 1. rewrite Hp.
    unfold bind at 1, time_sleep, emit. apply IH. lia.
Qed.

Lemma wait_until_negative_budget_never_returns_witness :
  wait_until 1000 (probed (fun _ => false)) (-1) quiet_world = None.
Proof.
  apply (wait_until_negative_budget_never_returns (fun _ => false) (-1)).
  - lia.
  - reflexivity.
Defined.

Lemma wait_until_exhausts_budget_witness :
  exists w',
    wait_until 5 (probed (fun _ => false)) (Z.of_nat 3) quiet_world
    = Some (Ok false, w')
    /\ trace w' = (trace quiet_world ++ probing 3)%list.
Proof.
  apply (wait_until_exhausts_budget (fun _ => false)); [reflexivity|lia].
Defined.

Lemma answers_at condition command w0 w b :
  one_query command condition ->
  scheduler w = scheduler w0 ->
  answers condition w0 (sys_count w) = Some b ->
  exists logs w',
    forallb is_log logs = true
    /\ condition w = Some (Ok b, w')
    /\ evolves w w' 1 (EvSystem command :: logs).
Proof.
  intros Hq Hs Hb.
  destruct (Hq (at_call (sys_count w) w0) w)
    as (r & logs & w1' & w2' & Hlogs & R1 & _ & R2 & E2).
  { cbn. now rewrite Hs. }
  unfold answers in Hb. rewrite R1 in Hb.
  destruct r as [b'|e]; [|discriminate]. injection Hb as ->.
  now exists logs, w2'.
Qed.

Lemma effects_app (l1 l2 : list event) :
  effects (l1 ++ l2) = (effects l1 ++ effects l2)%list.
Proof. apply List.filter_app. Qed.

Lemma effects_logs (logs : list event) :
  forallb is_log logs = true -> effects logs = [].
Proof.
  induction logs as [|e logs IH]; [reflexivity|].
  cbn [forallb]. intros [He Hl]%andb_true_iff.
  unfold effects. cbn [List.filter]. rewrite He. cbn [negb]. now apply IH.
Qed.

Lemma effects_query command (logs : list event) :
  forallb is_log logs = true ->
  effects (EvSystem command :: logs) = [EvSystem command].
Proof.
  intros H. change (effects (EvSystem command :: logs))
    with (EvSystem command :: effects logs).
  now rewrite effects_logs.
Qed.

(** A wait on a condition that runs one command per evaluation: it ends at
    the first evaluation that answers true, after a sleep of one second
    following each earlier evaluation. *)
Lemma wait_until_queries condition command w0 :
  one_query command condition ->
  forall n (ans : nat -> bool) fuel w,
    scheduler w = scheduler w0 ->
    (forall i, (i < n)%nat ->
               answers condition w0 (sys_count w + i) = Some (ans i)) ->
    (n <= fuel)%nat ->
    exists added w',
      wait_until fuel condition (Z.of_nat n) w
      = Some (Ok (first_stop (fun i => negb (ans i)) n <? n)%nat, w')
      /\ evolves w w'
           (if (first_stop (fun i => negb (ans i)) n <? n)%nat
            then S (first_stop (fun i => negb (ans i)) n) else n)
           added
      /\ effects added
         = (polling command (first_stop (fun i => negb (ans i)) n)
              ++ if (first_stop (fun i => negb (ans i)) n <? n)%nat
                 then [EvSystem command] else [])%list.
Proof.
  intros Hq.
  induction n as [|n IH]; intros ans fuel w Hs Hobs Hfuel.
  - exists [], w. split; [now destruct fuel|].
    split; [apply evolves_refl|reflexivity].
  - destruct fuel as [|fuel]; [lia|].
    cbn [wait_until first_stop].
    replace (Z.of_nat (S n) =? 0) with false by (symmetry; apply Z.eqb_neq; lia).
    destruct (answers_at condition command w0 w (ans 0%nat) Hq Hs)
      as (logs & w1 & Hlogs & Hrun & Hev).
    { rewrite <- (Hobs 0%nat) by lia. now rewrite Nat.add_0_r. }
    rewrite (bind_Ok _ _ w (ans 0%nat) w1 Hrun).
    destruct (ans 0%nat) eqn:R0; cbn [negb].
    + exists (EvSystem command :: logs), w1.
      split; [reflexivity|]. split; [exact Hev|].
      now rewrite effects_query.
    + replace (Z.of_nat (S n) - 1) with (Z.of_nat n) by lia.
      destruct (IH (fun i => ans (S i)) fuel (record (EvSleep 1) w1))
        as (added & w2 & Hwait & Hev2 & Heff2).
      { cbn. now rewrite (ev_scheduler _ _ _ _ Hev). }
      { intros i Hi. cbn [record sys_count]. rewrite (ev_count _ _ _ _ Hev).
        replace (sys_count w + 1 + i)%nat with (sys_count w + S i)%nat by lia.
        apply Hobs. lia. }
      { lia. }
      set (k := first_stop (fun i => negb (ans (S i))) n) in *.
      exists ((EvSystem command :: logs) ++ [EvSleep 1] ++ added)%list, w2.
      split.
      { unfold time_sleep, emit.
        rewrite (bind_Ok _ _ w1 tt (record (EvSleep 1) w1)) by reflexivity.
        exact Hwait. }
      change (S k <? S n)%nat with (k <? n)%nat.
      split.
      { replace (if (k <? n)%nat then S (S k) else S n)
          with (1 + (0 + (if (k <? n)%nat then S k else n)))%nat
          by (destruct (k <? n)%nat; lia).
        apply (evolves_trans _ w1); [exact Hev|].
        apply (evolves_trans _ (record (EvSleep 1) w1));
          [apply evolves_record|exact Hev2]. }
      rewrite !effects_app, (effects_query _ _ Hlogs), Heff2. reflexivity.
Qed.

(** ** A rejected submission *)

Lemma os_chmod_evolves path m w :
  is_Some (files w !! path) ->
  exists w',
    os_chmod path m w = Some (Ok tt, w')
    /\ evolves w w' 0 [EvChmod path m]
    /\ log_level w' = log_level w.
Proof.
  intros [f F]. unfold os_chmod. rewrite F. eexists. split; [reflexivity|].
  split; [|reflexivity].
  split; cbn; rewrite ?Nat.add_0_r; reflexivity.
Qed.

Lemma first_stop_none running n :
  (forall i, running i = true) -> first_stop running n = n.
Proof.
  revert running. induction n as [|n IH]; intros running H; [reflexivity|].
  cbn. rewrite H. f_equal. apply IH. intros i. apply H.
Qed.

Lemma one_query_exists job_id :
  one_query ("sacct --jobs " ++ fmt job_id ++ " --noheader -P --format="
             ++ Py.join "," SLURMRegisteredJobData.variables)
    (SLURMInterface.exists_ job_id).
Proof.
  unfold SLURMInterface.exists_.
  apply one_query_bind; [apply one_query_sacct|]. intros a. effect_free.
Qed.

(** ** The variables of the CI job *)

Lemma get_env_value key default w :
  GitLabJobInterface.get_env key default w
  = Some (Ok (match env_value w key with Some v => Some v | None => default end), w).
Proof.
  unfold env_value, GitLabJobInterface.get_env, get.
  destruct (environ w !! _); [reflexivity|]. now destruct (environ w !! _).
Qed.

(** X9. The name of the allocation is
    [<project id>__<pipeline id>_<job id>], read from the environment
    without any effect; when one of the three variables is not defined
    the call raises [TypeError]. *)
Theorem get_job_uid_format (w : World) :
  get_job_uid w
  = Some (match env_value w "CI_PROJECT_ID", env_value w "CI_PIPELINE_ID",
                env_value w "CI_JOB_ID" with
          | Some project, Some pipeline, Some job =>
              Ok (project ++ "__" ++ pipeline ++ "_" ++ job)
          | _, _, _ => Raise TypeError
          end, w).
Proof.
  unfold get_job_uid.
  rewrite (bind_Ok _ _ w _ w (get_env_value "CI_PROJECT_ID" None w)).
  destruct (env_value w "CI_PROJECT_ID") as [project|]; [|reflexivity].
  unfold bind at 1, lift at 1. cbn [iadd].
  rewrite (bind_Ok _ _ w _ w (get_env_value "CI_PIPELINE_ID" None w)).
  destruct (env_value w "CI_PIPELINE_ID") as [pipeline|]; [|reflexivity].
  unfold bind at 1, lift at 1. cbn [iadd].
  unfold bind at 1, lift at 1.
  rewrite (bind_Ok _ _ w _ w (get_env_value "CI_JOB_ID" None w)).
  destruct (env_value w "CI_JOB_ID") as [job|]; [|reflexivity].
  unfold bind at 1, lift at 1. cbn [iadd]. unfold ret.
  now rewrite !append_assoc.
Qed.

Lemma cut_unique (c : ascii) (a a' x y : string) :
  lacks c a = true -> lacks c a' = true ->
  a ++ String c x = a' ++ String c y -> a = a' /\ x = y.
Proof.
  revert a'. induction a as [|d a IH]; intros a' Ha Ha' H.
  - destruct a' as [|d' a'].
    + injection H as ->. now split.
    + cbn in H, Ha'. injection H as <- _.
      rewrite Ascii.eqb_refl in Ha'. discriminate Ha'.
  - destruct a' as [|d' a'].
    + cbn in H, Ha. injection H as -> _.
      rewrite Ascii.eqb_refl in Ha. discriminate Ha.
    + cbn in H, Ha, Ha'. injection H as -> H.
      apply andb_true_iff in Ha as [_ Ha]. apply andb_true_iff in Ha' as [_ Ha'].
      destruct (IH a' Ha Ha' H) as [-> ->]. now split.
Qed.

Lemma job_uid_of_values (w : World) (project pipeline job : string) :
  env_value w "CI_PROJECT_ID" = Some project ->
  env_value w "CI_PIPELINE_ID" = Some pipeline ->
  env_value w "CI_JOB_ID" = Some job ->
  get_job_uid w = Some (Ok (project ++ "__" ++ pipeline ++ "_" ++ job), w).
Proof.
  intros Ep El Ej. unfold get_job_uid.
  rewrite (bind_Ok _ _ w _ w (get_env_value "CI_PROJECT_ID" None w)), Ep.
  unfold bind at 1, lift at 1. cbn [iadd].
  rewrite (bind_Ok _ _ w _ w (get_env_value "CI_PIPELINE_ID" None w)), El.
  unfold bind at 1, lift at 1. cbn [iadd].
  unfold bind at 1, lift at 1.
  rewrite (bind_Ok _ _ w _ w (get_env_value "CI_JOB_ID" None w)), Ej.
  unfold bind at 1, lift at 1. cbn [iadd]. unfold ret.
  now rewrite !append_assoc.
Qed.

(** X10. Two jobs whose project and pipeline ids hold no underscore get
    the same allocation name only when their three ids are the same. *)
Theorem job_uid_injective (w1 w2 : World) (uid : string)
  (project pipeline job project' pipeline' job' : string) :
  env_value w1 "CI_PROJECT_ID" = Some project ->
  env_value w1 "CI_PIPELINE_ID" = Some pipeline ->
  env_value w1 "CI_JOB_ID" = Some job ->
  env_value w2 "CI_PROJECT_ID" = Some project' ->
  env_value w2 "CI_PIPELINE_ID" = Some pipeline' ->
  env_value w2 "CI_JOB_ID" = Some job' ->
  lacks "_" project = true -> lacks "_" pipeline = true ->
  lacks "_" project' = true -> lacks "_" pipeline' = true ->
  get_job_uid w1 = Some (Ok uid, w1) ->
  get_job_uid w2 = Some (Ok uid, w2) ->
  project = project' /\ pipeline = pipeline' /\ job = job'.
Proof.
  intros P L J P' L' J' Hp Hl Hp' Hl' H1 H2.
  rewrite (job_uid_of_values w1 project pipeline job P L J) in H1.
  rewrite (job_uid_of_values w2 project' pipeline' job' P' L' J') in H2.
  injection H1 as <-. injection H2 as H2.
  destruct (cut_unique "_" project' project _ _ Hp' Hp H2) as [-> H].
  injection H as H.
  destruct (cut_unique "_" pipeline' pipeline _ _ Hl' Hl H) as [-> ->].
  now repeat split.
Qed.

Lemma job_uid_injective_witness :
  get_job_uid ci_world = Some (Ok "7__8_9", ci_world)
  /\ ("7" = "7" /\ "8" = "8" /\ "9" = "9").
Proof.
  split; [vm_compute; reflexivity|].
  apply (job_uid_injective ci_world ci_world "7__8_9" "7" "8" "9" "7" "8" "9");
    vm_compute; reflexivity.
Defined.

Lemma get_bool_env_value key w :
  get_bool_env key w
  = Some (Ok (match env_value w key with Some v => truthy v | None => false end), w).
Proof.
  unfold get_bool_env.
  rewrite (bind_Ok _ _ w _ w (get_env_value key None w)).
  now destruct (env_value w key).
Qed.

Lemma isspace_lower c : Py.isspace (lower_char c) = Py.isspace c.
Proof. destruct c as [[] [] [] [] [] [] [] []]; reflexivity. Qed.

Lemma isspace2_lower c d :
  Py.isspace2 (lower_char c) (lower_char d) = Py.isspace2 c d.
Proof.
  destruct c as [[] [] [] [] [] [] [] []]; try reflexivity.
  destruct d as [[] [] [] [] [] [] [] []]; reflexivity.
Qed.

Lemma isspace3_lower c d e :
  Py.isspace3 (lower_char c) (lower_char d) (lower_char e) = Py.isspace3 c d e.
Proof.
  destruct c as [[] [] [] [] [] [] [] []]; try reflexivity;
    destruct d as [[] [] [] [] [] [] [] []]; try reflexivity;
    destruct e as [[] [] [] [] [] [] [] []]; reflexivity.
Qed.

Lemma lower_lower_char c : lower_char (lower_char c) = lower_char c.
Proof. destruct c as [[] [] [] [] [] [] [] []]; reflexivity. Qed.

Lemma lower_lower s : py_lower (py_lower s) = py_lower s.
Proof.
  induction s as [|c s IH]; [reflexivity|].
  cbn [py_lower]. now rewrite lower_lower_char, IH.
Qed.

Lemma lower_lstrip s : py_lower (Py.lstrip s) = Py.lstrip (py_lower s).
Proof.
  induction s as [s IH] using string_length_ind.
  destruct s as [|c r]; [reflexivity|].
  cbn [py_lower]. rewrite !lstrip_cons, isspace_lower.
  destruct (Py.isspace c); [apply IH; cbn; lia|].
  destruct r as [|d r1]; [reflexivity|].
  cbn [py_lower]. rewrite isspace2_lower.
  destruct (Py.isspace2 c d); [apply IH; cbn; lia|].
  destruct r1 as [|e r2]; [reflexivity|].
  cbn [py_lower]. rewrite isspace3_lower.
  destruct (Py.isspace3 c d e); [apply IH; cbn; lia|reflexivity].
Qed.

Lemma lower_rstrip s : py_lower (Py.rstrip s) = Py.rstrip (py_lower s).
Proof.
  induction s as [|c r IH]; [reflexivity|].
  cbn [py_lower]. rewrite !rstrip_cons.
  change (String (lower_char c) (py_lower r)) with (py_lower (String c r)) at 1.
  rewrite <- lower_lstrip.
  destruct (Py.lstrip (String c r)); [reflexivity|].
  cbn [py_lower]. now rewrite IH.
Qed.

Lemma lower_strip s : py_lower (Py.strip s) = Py.strip (py_lower s).
Proof. unfold Py.strip. now rewrite lower_rstrip, lower_lstrip. Qed.

Lemma truthy_lower v : truthy (py_lower v) = truthy v.
Proof. unfold truthy. now rewrite lower_lower. Qed.

Lemma truthy_strip v : truthy (Py.strip v) = truthy v.
Proof. unfold truthy. now rewrite lower_strip, strip_strip. Qed.

(** X11. A flag of the CI job does not depend on the case of the letters A
    to Z in its value nor on blanks around it, the blanks of Unicode
    included: [get_bool_env] answers the same for a value, for the value
    with these letters in lower case and for its stripped form.  It
    answers [False] when the variable is not defined, and it has no
    effect. *)
Theorem get_bool_env_ignores_case_and_blanks
  (key : string) (w w' : World) (v v' : string) :
  env_value w key = Some v ->
  env_value w' key = Some v' ->
  v' = py_lower v \/ v' = Py.strip v ->
  exists b,
    get_bool_env key w = Some (Ok b, w)
    /\ get_bool_env key w' = Some (Ok b, w')
    /\ forall w0, env_value w0 key = None ->
                  get_bool_env key w0 = Some (Ok false, w0).
Proof.
  intros Hv Hv' Hsame. exists (truthy v).
  rewrite !get_bool_env_value, Hv, Hv'.
  split; [reflexivity|]. split.
  - destruct Hsame as [-> | ->]; [now rewrite truthy_lower|now rewrite truthy_strip].
  - intros w0 H0. now rewrite get_bool_env_value, H0.
Qed.

Lemma get_bool_env_ignores_case_and_blanks_witness :
  exists b,
    get_bool_env "CI_SLURM_EXCLUSIVE" ci_world = Some (Ok b, ci_world)
    /\ get_bool_env "CI_SLURM_EXCLUSIVE" exclusive_world
       = Some (Ok b, exclusive_world)
    /\ forall w0, env_value w0 "CI_SLURM_EXCLUSIVE" = None ->
                  get_bool_env "CI_SLURM_EXCLUSIVE" w0 = Some (Ok false, w0).
Proof.
  apply (get_bool_env_ignores_case_and_blanks "CI_SLURM_EXCLUSIVE" ci_world
           exclusive_world " Yes " "Yes").
  - vm_compute. reflexivity.
  - vm_compute. reflexivity.
  - right. vm_compute. reflexivity.
Defined.

Lemma job_uid_outcome (w : World) :
  (exists uid, get_job_uid w = Some (Ok uid, w))
  \/ get_job_uid w = Some (Raise TypeError, w).
Proof.
  remember (get_job_uid w) as outcome eqn:E. unfold get_job_uid in E.
  rewrite (bind_Ok _ _ w _ w (get_env_value "CI_PROJECT_ID" None w)) in E.
  destruct (env_value w "CI_PROJECT_ID") as [project|]; [|now right].
  unfold bind at 1, lift at 1 in E. cbn [iadd] in E.
  rewrite (bind_Ok _ _ w _ w (get_env_value "CI_PIPELINE_ID" None w)) in E.
  destruct (env_value w "CI_PIPELINE_ID") as [pipeline|]; [|now right].
  unfold bind at 1, lift at 1 in E. cbn [iadd] in E.
  unfold bind at 1, lift at 1 in E.
  rewrite (bind_Ok _ _ w _ w (get_env_value "CI_JOB_ID" None w)) in E.
  destruct (env_value w "CI_JOB_ID") as [job|]; [|now right].
  left. eexists. exact E.
Qed.

(** X12. [GitLabPhases.prepare] never gets as far as creating the
    allocation: it logs its phase, reads the environment, and the call of
    [SLURMJobRequestData] raises [TypeError], since it is given the
    keywords [account] and [qos], which the constructor does not have.
    Nothing is written and no command is issued. *)
Theorem prepare_request_raises_type_error (w : World) :
  prepare_request w
  = Some (Raise TypeError, record (EvLog DEBUG "PHASE <prepare>") w).
Proof.
  unfold prepare_request. unfold bind at 1. unfold logging at 1, emit at 1.
  generalize (record (EvLog DEBUG "PHASE <prepare>") w). clear w. intros w.
  destruct (job_uid_outcome w) as [[uid Hu]|Hu];
    [|now rewrite (bind_Raise _ _ _ _ _ Hu)].
  rewrite (bind_Ok _ _ _ _ _ Hu). unfold get_build_dir_path.
  repeat first [ rewrite (bind_Ok _ _ w _ w (get_env_value _ _ w))
               | rewrite (bind_Ok _ _ w _ w (get_bool_env_value _ w)) ].
  reflexivity.
Qed.

(** ** Concrete instances of the lookups *)

Lemma get_id_from_name_latest_witness :
  exists w',
    SLURMInterface.get_id_from_name "7__8_9" two_jobs_world
    = Some (Ok (Some "1234"), w')
    /\ exists out err line submitted,
         scheduler two_jobs_world (sys_count two_jobs_world)
           ("sacct --name " ++ dquote ++ "7__8_9" ++ dquote
            ++ " --noheader -P --format=JobID,JobName,Submit")
         = SysExit 0 out err
         /\ In line (Py.split Py.LF (Py.strip out))
         /\ Py.index (Py.split1 SLURMInterface.bar (Py.strip line)) 0 = Ok "1234"
         /\ (exists field, SLURMInterface.name_field line = Ok field
                            /\ Py.contains "7__8_9" field = true)
         /\ SLURMInterface.submit_field line = Ok submitted
         /\ forall other field,
              In other (Py.split Py.LF (Py.strip out)) ->
              SLURMInterface.name_field other = Ok field ->
              Py.contains "7__8_9" field = true ->
              exists submitted', SLURMInterface.submit_field other = Ok submitted'
                                 /\ (submitted' ≤ submitted)%string.
Proof.
  assert (exists w', SLURMInterface.get_id_from_name "7__8_9" two_jobs_world
                     = Some (Ok (Some "1234"), w')) as [w' H]
      by (eexists; vm_compute; reflexivity).
  exists w'. split; [exact H|].
  exact (get_id_from_name_latest "7__8_9" two_jobs_world "1234" w' H).
Defined.

Lemma sbatch_file_lines_witness :
  exists text,
    to_sbatch_file_string demo_request [". /opt/driver/idle_script.sh"] = Ok text
    /\ Py.split Py.LF text
       = sbatch_lines demo_request [". /opt/driver/idle_script.sh"].
Proof.
  apply (sbatch_file_lines demo_request ". /opt/driver/idle_script.sh").
  vm_compute. reflexivity.
Defined.



(** ** Reading the answers of the scheduler *)

Lemma after_command_evolves command logs w :
  evolves w (after_command command logs w) 1 (EvSystem command :: logs).
Proof. split; cbn; try reflexivity. lia. Qed.

Lemma sacct_result_state answer code :
  shows_state answer code ->
  exists d, sacct_result answer = Ok (Some d)
            /\ SLURMRegisteredJobData.state d = from_string code.
Proof.
  intros (out & err & line & rest & -> & Hout & Hline & Hlen & Hcode).
  assert (exists d,
             SLURMRegisteredJobData.__init__
               (combine SLURMRegisteredJobData.variables
                  (Py.split SLURMInterface.bar (Py.strip line))) = Ok d
             /\ SLURMRegisteredJobData.state d = from_string code)
    as (d & Hd & Hstate).
  { revert Hlen Hcode.
    generalize (Py.split SLURMInterface.bar (Py.strip line)). intros fields Hlen.
    do 12 (destruct fields as [|? fields]; [cbn [length] in Hlen; lia|]).
    intros [= ->].
    destruct (split_up_to (ascii_of_nat 46) s) as (h & t & Hid & _).
    eexists. split; [exact (init_of_twelve _ _ _ _ _ _ _ _ _ _ _ _ _ h t Hid)|].
    reflexivity. }
  exists d. split; [|exact Hstate].
  cbn [sacct_result]. change (negb (0 =? 0)) with false. cbn [orb].
  destruct (Py.strip out) as [|c s] eqn:E; [congruence|].
  cbn [String.length Nat.eqb]. rewrite Hline, Hd. reflexivity.
Qed.

Lemma sacct_result_nothing answer :
  shows_nothing answer -> sacct_result answer = Ok None.
Proof.
  intros (retcode & out & err & -> & H). cbn [sacct_result].
  destruct H as [Hrc | ->].
  - apply Z.eqb_neq in Hrc. now rewrite Hrc.
  - now rewrite orb_true_r.
Qed.

Lemma is_running_shows self w code :
  shows_state (scheduler w (sys_count w) (state_query self)) code ->
  exists logs,
    forallb is_log logs = true
    /\ SLURMIdleJob.is_running self w
       = Some (Ok (running_code code), after_command (state_query self) logs w).
Proof.
  intros H.
  destruct (sacct_of_answer (SLURMIdleJob.id self) w) as (logs & Hlogs & Hs).
  fold (state_query self) in Hs.
  destruct (sacct_result_state _ _ H) as (d & Hd & Hstate). rewrite Hd in Hs.
  exists logs. split; [exact Hlogs|].
  unfold SLURMIdleJob.is_running, SLURMIdleJob.get_state.
  unfold bind. rewrite Hs. cbn [ret]. rewrite Hstate.
  unfold running_code. now rewrite <- running_codes.
Qed.

Lemma exists_shows job_id w (found : bool) :
  (if found
   then exists code,
       shows_state
         (scheduler w (sys_count w)
            ("sacct --jobs " ++ fmt job_id ++ " --noheader -P --format="
             ++ Py.join "," SLURMRegisteredJobData.variables)) code
   else shows_nothing
          (scheduler w (sys_count w)
             ("sacct --jobs " ++ fmt job_id ++ " --noheader -P --format="
              ++ Py.join "," SLURMRegisteredJobData.variables))) ->
  exists logs,
    forallb is_log logs = true
    /\ SLURMInterface.exists_ job_id w
       = Some (Ok found,
               after_command
                 ("sacct --jobs " ++ fmt job_id ++ " --noheader -P --format="
                  ++ Py.join "," SLURMRegisteredJobData.variables) logs w).
Proof.
  intros H.
  destruct (sacct_of_answer job_id w) as (logs & Hlogs & Hs).
  exists logs. split; [exact Hlogs|].
  unfold SLURMInterface.exists_, bind. rewrite Hs.
  destruct found.
  - destruct H as [code H].
    destruct (sacct_result_state _ _ H) as (d & -> & _). reflexivity.
  - now rewrite (sacct_result_nothing _ H).
Qed.

Lemma get_int_env_configured key default w :
  GitLabJobInterface.get_int_env key default w
  = Some (match configured w key with
          | Some text => py_int text
          | None => Ok default
          end, w).
Proof.
  unfold GitLabJobInterface.get_int_env, GitLabJobInterface.get_env, configured,
    bind, get, lift, ret.
  destruct (environ w !! _); [reflexivity|].
  now destruct (environ w !! _).
Qed.

Lemma first_stop_ext (f g : nat -> bool) n :
  (forall i, f i = g i) -> first_stop f n = first_stop g n.
Proof.
  revert f g. induction n as [|n IH]; intros f g H; [reflexivity|].
  cbn. rewrite (H 0%nat). destruct (g 0%nat); [|reflexivity].
  f_equal. apply IH. intros i. apply H.
Qed.

Lemma try_finally_run {A} (body : M A) (fin : result A -> M unit) w rb w1 rf w2 :
  body w = Some (rb, w1) -> fin rb w1 = Some (rf, w2) ->
  try_finally body fin w
  = Some (match rf with Ok _ => rb | Raise e => Raise e end, w2).
Proof.
  intros Hb Hf. unfold try_finally. rewrite Hb, Hf. now destruct rf.
Qed.

(** ** Stopping an allocation *)

Lemma mark_stop_writable self w :
  writable w (SLURMIdleJob.exit_script_path self) ->
  exists message w',
    SLURMIdleJob.mark_stop self w = Some (Ok tt, w')
    /\ evolves w w' 0
         [EvWrite (SLURMIdleJob.exit_script_path self) SLURMIdleJob.stop_message;
          EvLog DEBUG message].
Proof.
  intros [D F]. unfold SLURMIdleJob.mark_stop.
  generalize dependent (SLURMIdleJob.exit_script_path self).
  generalize SLURMIdleJob.stop_message. intros text path D F.
  unfold write_file, os_path_abspath, get, logging, emit, bind. rewrite D, F.
  eexists. eexists. split; [reflexivity|].
  split; cbn; rewrite <- ?app_assoc, ?Nat.add_0_r; reflexivity.
Qed.

Lemma mark_stop_fails self w e written :
  write_fails w (SLURMIdleJob.exit_script_path self) SLURMIdleJob.stop_message
    e written ->
  exists w',
    SLURMIdleJob.mark_stop self w = Some (Raise e, w') /\ evolves w w' 0 written.
Proof.
  unfold SLURMIdleJob.mark_stop.
  generalize (SLURMIdleJob.exit_script_path self) SLURMIdleJob.stop_message.
  intros path text [[D ->]|(D & n & F & ->)];
    unfold write_file, bind; rewrite D; [|rewrite F];
    eexists; (split; [reflexivity|]).
  - apply evolves_refl.
  - split; cbn; rewrite ?Nat.add_0_r; reflexivity.
Qed.

(** The [finally] block of [try_stop]: one state query, and [scancel] when
    it finds the allocation running. *)
Lemma stop_finally self w code :
  shows_state (scheduler w (sys_count w) (state_query self)) code ->
  exists r w' added,
    (let* r := SLURMIdleJob.is_running self in
     if r then SLURMInterface.scancel (SLURMIdleJob.id self);; ret tt
     else ret tt) w = Some (r, w')
    /\ evolves w w' (if running_code code then 2 else 1) added
    /\ effects added
       = EvSystem (state_query self)
         :: (if running_code code then [EvSystem (cancel_command self)] else [])
    /\ r = (if running_code code
            then match scheduler w (S (sys_count w)) (cancel_command self) with
                 | SysRaise e => Raise e
                 | SysExit _ _ _ => Ok tt
                 end
            else Ok tt).
Proof.
  intros H. destruct (is_running_shows self w code H) as (logs & Hlogs & Hrun).
  rewrite (bind_Ok _ _ _ _ _ Hrun).
  destruct (running_code code).
  - set (w1 := after_command (state_query self) logs w).
    destruct (system_spec (cancel_command self) w1) as (logs' & Hlogs' & Hs).
    change (scheduler w1 (sys_count w1) (cancel_command self))
      with (scheduler w (S (sys_count w)) (cancel_command self)) in Hs.
    unfold SLURMInterface.scancel. fold (cancel_command self).
    unfold bind. rewrite Hs.
    exists (match scheduler w (S (sys_count w)) (cancel_command self) with
            | SysRaise e => Raise e
            | SysExit _ _ _ => Ok tt
            end),
      (after_command (cancel_command self) logs' w1),
      ((EvSystem (state_query self) :: logs)
         ++ EvSystem (cancel_command self) :: logs')%list.
    split; [now destruct (scheduler w (S (sys_count w)) (cancel_command self))|].
    split.
    { apply (evolves_trans w w1 _ 1 1); apply after_command_evolves. }
    split; [|reflexivity].
    now rewrite effects_app, !effects_query.
  - exists (Ok tt), (after_command (state_query self) logs w),
      (EvSystem (state_query self) :: logs).
    split; [reflexivity|]. split; [apply after_command_evolves|].
    split; [now apply effects_query|reflexivity].
Qed.

(** C6, as stated, fails: nothing makes a stop last.  Here the first state
    query, well within the budget, finds the allocation suspended, and the
    query after the wait finds it running again: [scancel] is issued,
    though the state had left RUNNING within the budget. *)
Lemma try_stop_cancels_a_resumed_allocation :
  ~ (forall (self : SLURMIdleJob.t) (w : World) (timeout : Z)
            (code : nat -> string) (fuel : nat),
        writable w (SLURMIdleJob.exit_script_path self) ->
        match configured w "SLURM_JOB_STOP_TIMEOUT_SECONDS_BEFORE_CANCEL" with
        | Some text => py_int text
        | None => Ok SLURM_JOB_STOP_TIMEOUT_SECONDS_BEFORE_CANCEL
        end = Ok timeout ->
        0 <= timeout ->
        (forall i, (i <= Z.to_nat timeout)%nat ->
                   shows_state
                     (scheduler w (sys_count w + i) (state_query self)) (code i)) ->
        (Z.to_nat timeout <= fuel)%nat ->
        exists r w',
          SLURMIdleJob.try_stop fuel self w = Some (r, w')
          /\ cancels self w'
             = (cancels self w
                + if stops_within (fun i => running_code (code i))
                       (Z.to_nat timeout)
                  then 0 else 1)%nat).
Proof.
  intros H.
  destruct (H job42 resuming_world 30
              (fun i => if (i <? 1)%nat then "SUSPENDED" else "RUNNING") 30%nat)
    as (r & w' & Hrun & Hcancels).
  - split; reflexivity.
  - reflexivity.
  - lia.
  - intros i _. destruct i as [|i]; [shows_row "SUSPENDED"|shows_row "RUNNING"].
  - vm_compute. lia.
  - vm_compute in Hrun. injection Hrun as <- <-.
    vm_compute in Hcancels. discriminate Hcancels.
Qed.

(** C6, amended. Take an allocation whose stop sentinel can be written,
    whose budget as configured is not negative, whose state the accounting
    shows at every query, and whose stop, once seen, lasts.  Then
    [try_stop] first writes the stop sentinel, then polls the state once
    per second, a sleep of one second after each query that finds the
    allocation running, until a query finds it stopped or the budget is
    spent, and queries the state once more.  If one of these queries finds
    the allocation stopped, [scancel] is not issued; if none does,
    [scancel] is issued, once, after the last query.  Nothing else happens
    but log entries. *)
Theorem try_stop_cancels_iff_still_running
  (self : SLURMIdleJob.t) (w : World) (timeout : Z) (code : nat -> string)
  (fuel : nat) :
  let n := Z.to_nat timeout in
  let running := fun i => running_code (code i) in
  let polls := first_stop running n in
  let last := if (polls <? n)%nat then S polls else n in
  writable w (SLURMIdleJob.exit_script_path self) ->
  match configured w "SLURM_JOB_STOP_TIMEOUT_SECONDS_BEFORE_CANCEL" with
  | Some text => py_int text
  | None => Ok SLURM_JOB_STOP_TIMEOUT_SECONDS_BEFORE_CANCEL
  end = Ok timeout ->
  0 <= timeout ->
  (forall i, (i <= n)%nat ->
             shows_state (scheduler w (sys_count w + i) (state_query self))
               (code i)) ->
  (forall i j, (i <= j)%nat -> running i = false -> running j = false) ->
  (n <= fuel)%nat ->
  exists r w' added,
    SLURMIdleJob.try_stop fuel self w = Some (r, w')
    /\ trace w' = (trace w ++ added)%list
    /\ effects added
       = (EvWrite (SLURMIdleJob.exit_script_path self) SLURMIdleJob.stop_message
            :: polling (state_query self) polls
            ++ (if (polls <? n)%nat then [EvSystem (state_query self)] else [])
            ++ EvSystem (state_query self)
            :: (if stops_within running n then []
                else [EvSystem (cancel_command self)]))%list
    /\ r = (if stops_within running n then Ok tt
            else match scheduler w (sys_count w + last + 1) (cancel_command self) with
                 | SysRaise e => Raise e
                 | SysExit _ _ _ => Ok tt
                 end).
Proof.
  intros n running polls last Hw Hbudget Hpos Hobs Hmono Hfuel.
  destruct (mark_stop_writable self w Hw) as (message & w1 & Hmark & Ev1).
  set (condition := let* r := SLURMIdleJob.is_running self in ret (negb r)).
  assert (one_query (state_query self) condition) as Hq.
  { apply one_query_bind; [apply one_query_is_running|]. intros a. effect_free. }
  destruct (wait_until_queries condition (state_query self) w Hq n
              (fun i => negb (running i)) fuel w1 (ev_scheduler _ _ _ _ Ev1))
    as (added & w2 & Hwait & Ev2 & Heff2); [|exact Hfuel|].
  { intros i Hi. rewrite (ev_count _ _ _ _ Ev1), Nat.add_0_r.
    unfold answers, condition.
    destruct (is_running_shows self (at_call (sys_count w + i) w) (code i))
      as (logs & _ & Hrun); [apply Hobs; lia|].
    now rewrite (bind_Ok _ _ _ _ _ Hrun). }
  rewrite (first_stop_ext _ running) in Hwait, Ev2, Heff2
    by (intros i; apply negb_involutive).
  fold polls in Hwait, Ev2, Heff2. fold last in Ev2.
  replace (Z.of_nat n) with timeout in Hwait by (unfold n; lia).
  pose proof (evolves_trans _ _ _ _ _ _ _ Ev1 Ev2) as Ev12.
  assert (last <= n)%nat as Hlast.
  { unfold last. destruct (polls <? n)%nat eqn:E;
      [apply Nat.ltb_lt in E|]; lia. }
  destruct (stop_finally self w2 (code last))
    as (rf & w3 & added3 & Hfin & Ev3 & Heff3 & Hrf).
  { rewrite (ev_scheduler _ _ _ _ Ev12), (ev_count _ _ _ _ Ev12).
    cbn [Nat.add]. now apply Hobs. }
  assert (running last = negb (stops_within running n)) as Hfinal
      by (apply final_query_decides; exact Hmono).
  fold (running last) in Ev3, Heff3, Hrf. rewrite Hfinal in Ev3, Heff3, Hrf.
  pose proof (evolves_trans _ _ _ _ _ _ _ Ev12 Ev3) as Ev13.
  exists (match rf with Ok _ => Ok tt | Raise e => Raise e end), w3.
  eexists. split.
  { unfold SLURMIdleJob.try_stop. apply (try_finally_run _ _ w (Ok tt) w2).
    - rewrite (bind_Ok _ _ w tt w1 Hmark).
      rewrite (bind_Ok _ _ w1 timeout w1)
        by (rewrite get_int_env_configured; unfold configured;
            rewrite (ev_environ _ _ _ _ Ev1); fold (configured w
              "SLURM_JOB_STOP_TIMEOUT_SECONDS_BEFORE_CANCEL");
            now rewrite Hbudget).
      fold condition. now rewrite (bind_Ok _ _ w1 _ w2 Hwait).
    - exact Hfin. }
  split; [exact (ev_trace _ _ _ _ Ev13)|].
  split.
  { rewrite !effects_app, Heff2, Heff3.
    change (effects [EvWrite (SLURMIdleJob.exit_script_path self)
                       SLURMIdleJob.stop_message; EvLog DEBUG message])
      with [EvWrite (SLURMIdleJob.exit_script_path self) SLURMIdleJob.stop_message].
    cbn [app]. rewrite <- !app_assoc.
    now destruct (stops_within running n). }
  rewrite Hrf. rewrite (ev_scheduler _ _ _ _ Ev12), (ev_count _ _ _ _ Ev12).
  replace (S (sys_count w + (0 + last)))%nat with (sys_count w + last + 1)%nat by lia.
  destruct (stops_within running n); [reflexivity|]. cbn [negb].
  now destruct (scheduler w (sys_count w + last + 1) (cancel_command self)).
Qed.

Lemma try_stop_cancels_iff_still_running_witness :
  exists r w' added,
    SLURMIdleJob.try_stop 5 job42 stopping_world = Some (r, w')
    /\ trace w' = (trace stopping_world ++ added)%list
    /\ effects added
       = [EvWrite "/builds/batch.gitlab_ci_exit" SLURMIdleJob.stop_message;
          EvSystem (state_query job42); EvSleep 1;
          EvSystem (state_query job42); EvSleep 1;
          EvSystem (state_query job42);
          EvSystem (state_query job42)]
    /\ r = Ok tt.
Proof.
  apply (try_stop_cancels_iff_still_running job42 stopping_world 5
           (fun i => if (i <? 2)%nat then "RUNNING" else "COMPLETED") 5).
  - split; reflexivity.
  - reflexivity.
  - lia.
  - intros i _.
    destruct i as [|[|i]];
      [shows_row "RUNNING"|shows_row "RUNNING"|shows_row "COMPLETED"].
  - intros i j Hij.
    destruct i as [|[|i]]; [discriminate|discriminate|].
    destruct j as [|[|j]]; [lia|lia|reflexivity].
  - vm_compute. lia.
Defined.

(** An allocation that keeps running through a budget of two seconds is
    polled twice, with a sleep of one second after each query, and queried
    once more; then it is cancelled, once. *)
Example try_stop_cancels_running_allocation :
  exists w',
    SLURMIdleJob.try_stop 2 job42 running_world = Some (Ok tt, w')
    /\ effects (trace w')
       = [EvWrite "/builds/batch.gitlab_ci_exit" SLURMIdleJob.stop_message;
          EvSystem (state_query job42); EvSleep 1;
          EvSystem (state_query job42); EvSleep 1;
          EvSystem (state_query job42);
          EvSystem (cancel_command job42)].
Proof. eexists. split; vm_compute; reflexivity. Qed.

(** ** Stopping when the sentinel cannot be written *)

(** X14. When the write of the stop sentinel fails, be it that the file
    cannot be opened or that the write fails after the file was opened and
    leaves a part of the text, and the accounting shows the state of the
    allocation, [try_stop] does not wait: after the failed write it
    queries the state once and, when the query finds the allocation
    running, issues [scancel] once; nothing else happens but log entries,
    and there is no sleep.  It raises: the error of [scancel] when
    [scancel] is issued and fails, the error of the write otherwise. *)
Theorem try_stop_with_unwritable_sentinel
  (fuel : nat) (self : SLURMIdleJob.t) (w : World) (e : exn)
  (written : list event) (code : string) :
  write_fails w (SLURMIdleJob.exit_script_path self) SLURMIdleJob.stop_message
    e written ->
  shows_state (scheduler w (sys_count w) (state_query self)) code ->
  exists r w' added,
    SLURMIdleJob.try_stop fuel self w = Some (r, w')
    /\ trace w' = (trace w ++ added)%list
    /\ effects added
       = (written
            ++ EvSystem (state_query self)
            :: (if running_code code then [EvSystem (cancel_command self)]
                else []))%list
    /\ r = (if running_code code
            then match scheduler w (S (sys_count w)) (cancel_command self) with
                 | SysRaise e' => Raise e'
                 | SysExit _ _ _ => Raise e
                 end
            else Raise e).
Proof.
  intros Hfail Hshows.
  destruct (mark_stop_fails self w e written Hfail) as (w1 & Hmark & Ev1).
  destruct (stop_finally self w1 code)
    as (rf & w2 & added & Hfin & Ev2 & Heff & Hrf).
  { now rewrite (ev_scheduler _ _ _ _ Ev1), (ev_count _ _ _ _ Ev1), Nat.add_0_r. }
  pose proof (evolves_trans _ _ _ _ _ _ _ Ev1 Ev2) as Ev12.
  exists (match rf with Ok _ => Raise e | Raise e' => Raise e' end), w2,
    (written ++ added)%list.
  split.
  { unfold SLURMIdleJob.try_stop.
    apply (try_finally_run _ _ w (Raise e) w1); [|exact Hfin].
    now apply bind_Raise. }
  split; [exact (ev_trace _ _ _ _ Ev12)|].
  split.
  { rewrite effects_app, Heff. f_equal.
    now destruct Hfail as [[_ ->]|(_ & n & _ & ->)]. }
  rewrite Hrf, (ev_scheduler _ _ _ _ Ev1), (ev_count _ _ _ _ Ev1), Nat.add_0_r.
  destruct (running_code code); [|reflexivity].
  now destruct (scheduler w (S (sys_count w)) (cancel_command self)).
Qed.

Lemma try_stop_with_unwritable_sentinel_witness :
  exists r w' added,
    SLURMIdleJob.try_stop 0 job42 full_disk_world = Some (r, w')
    /\ trace w' = (trace full_disk_world ++ added)%list
    /\ effects added
       = [EvWrite "/builds/batch.gitlab_ci_exit" "";
          EvSystem (state_query job42); EvSystem (cancel_command job42)]
    /\ r = Raise OSError.
Proof.
  apply (try_stop_with_unwritable_sentinel 0 job42 full_disk_world OSError
           [EvWrite "/builds/batch.gitlab_ci_exit" ""] "RUNNING").
  - right. split; [reflexivity|]. exists 0%nat. split; reflexivity.
  - shows_row "RUNNING".
Defined.

(** The sentinel of a running allocation cannot be opened: the allocation
    is cancelled at once, and the error of [open] is raised. *)
Example try_stop_cancels_when_sentinel_is_locked :
  exists w',
    SLURMIdleJob.try_stop 0 job42 locked_running_world
    = Some (Raise PermissionError, w')
    /\ effects (trace w')
       = [EvSystem (state_query job42); EvSystem (cancel_command job42)].
Proof. eexists. split; vm_compute; reflexivity. Qed.

(** ** Creating the allocation *)

Lemma write_file_writable path text w :
  writable w path ->
  exists w',
    write_file path text w = Some (Ok tt, w')
    /\ evolves w w' 0 [EvWrite path text]
    /\ is_Some (files w' !! path)
    /\ log_level w' = log_level w.
Proof.
  intros [D F]. unfold write_file. rewrite D, F. eexists. split; [reflexivity|].
  split; [|split; [|reflexivity]].
  - split; cbn; rewrite ?Nat.add_0_r; reflexivity.
  - cbn. rewrite lookup_insert_eq. eauto.
Qed.

(** [create] with a usable payload, below the level DEBUG, when [sbatch]
    returns [job_id] and the accounting answers every query. *)
Lemma create_runs
  (idle : string) (configuration : SLURMJobRequestData)
  (work_dir batch_filename : string) (w : World) (f : file)
  (job_id : option string) (found : nat -> bool) :
  let path := os_path_join work_dir batch_filename in
  let query := "sacct --jobs " ++ fmt job_id ++ " --noheader -P --format="
               ++ Py.join "," SLURMRegisteredJobData.variables in
  let polls := first_stop (fun i => negb (found i)) 120 in
  let last := if (polls <? 120)%nat then S polls else 120%nat in
  files w !! idle = Some f ->
  permits f X_OK = true ->
  permits f R_OK = true ->
  writable w path ->
  log_level w <> DEBUG ->
  (forall w3, scheduler w3 = scheduler w -> sys_count w3 = sys_count w ->
              exists logs,
                forallb is_log logs = true
                /\ SLURMInterface.sbatch path w3
                   = Some (Ok job_id,
                           after_command ("sbatch --parsable " ++ path) logs w3)) ->
  (forall i, (i <= 120)%nat ->
             if found i
             then exists code,
                 shows_state (scheduler w (sys_count w + 1 + i) query) code
             else shows_nothing (scheduler w (sys_count w + 1 + i) query)) ->
  exists text w' added,
    to_sbatch_file_string configuration [". " ++ idle] = Ok text
    /\ SLURMIdleJob.create idle configuration work_dir batch_filename w
       = Some (Ok (if found last
                   then Some (SLURMIdleJob.__init__ job_id work_dir)
                   else None), w')
    /\ trace w' = (trace w ++ added)%list
    /\ effects added
       = ([EvWrite path text; EvChmod path 511;
           EvSystem ("sbatch --parsable " ++ path)]
            ++ polling query polls
            ++ (if (polls <? 120)%nat then [EvSystem query] else [])
            ++ [EvSystem query])%list.
Proof.
  intros path query polls last F X R D L Hsb Hobs.
  unfold SLURMIdleJob.create. fold path.
  generalize dependent path. intros path D Hsb.
  rewrite (bind_Ok _ _ w true w) by (unfold os_path_isfile, get; now rewrite F).
  cbn [negb].
  rewrite (bind_Ok _ _ w true w) by (unfold os_access, get; now rewrite F, X).
  cbn [negb].
  rewrite (bind_Ok _ _ w true w) by (unfold os_access, get; now rewrite F, R).
  cbn [negb].
  rewrite to_sbatch_file_string_lines.
  set (text := Py.join Py.nl _).
  exists text.
  destruct (write_file_writable path text w D) as (w1 & H1 & E1 & Hf1 & L1).
  rewrite (bind_Ok _ _ w tt w1 H1).
  destruct (os_chmod_evolves path 511 w1 Hf1) as (w2 & H2 & E2 & L2).
  rewrite (bind_Ok _ _ w1 tt w2 H2).
  rewrite (bind_Ok _ _ w2 (os_path_join (cwd w2) path) w2) by reflexivity.
  set (info := EvLog INFO ("Created the sbatch configuration file in "
                           ++ os_path_join (cwd w2) path)).
  rewrite (bind_Ok _ _ w2 tt (record info w2)) by reflexivity.
  pose proof (evolves_trans _ _ _ _ _ _ _ E1 E2) as E12.
  pose proof (evolves_trans _ _ _ _ _ _ _ E12 (evolves_record info w2)) as E3.
  set (w3 := record info w2) in *.
  assert (log_level w3 = log_level w) as L3 by (cbn; congruence).
  rewrite (bind_Ok _ _ w3 (log_level w3) w3) by reflexivity.
  assert (match log_level w3 with
          | DEBUG =>
              let* text0 := read_file path in
              logging DEBUG ("Content of " ++ path ++ ":" ++ Py.nl ++ text0)
          | _ => ret tt
          end = ret tt) as ->.
  { rewrite L3. destruct (log_level w); [congruence|reflexivity|reflexivity]. }
  rewrite (bind_Ok _ _ w3 tt w3) by reflexivity.
  destruct (Hsb w3) as (logs & Hlogs & H4).
  { exact (ev_scheduler _ _ _ _ E3). }
  { now rewrite (ev_count _ _ _ _ E3), Nat.add_0_r. }
  set (w4 := after_command ("sbatch --parsable " ++ path) logs w3) in *.
  pose proof (after_command_evolves ("sbatch --parsable " ++ path) logs w3) as E4.
  fold w4 in E4.
  rewrite (bind_Ok _ _ w3 job_id w4 H4).
  set (submitted := EvLog DEBUG ("Submitted SLURM job with ID " ++ fmt job_id)).
  rewrite (bind_Ok _ _ w4 tt (record submitted w4)) by reflexivity.
  pose proof (evolves_trans _ _ _ _ _ _ _ E3 E4) as E34.
  pose proof (evolves_trans _ _ _ _ _ _ _ E34 (evolves_record submitted w4)) as E5.
  set (w5 := record submitted w4) in *.
  assert (forall i, (i <= 120)%nat ->
                    answers (SLURMInterface.exists_ job_id) w (sys_count w + 1 + i)
                    = Some (found i)) as Hans.
  { intros i Hi. unfold answers.
    destruct (exists_shows job_id (at_call (sys_count w + 1 + i) w) (found i))
      as (logs0 & _ & ->); [exact (Hobs i Hi)|reflexivity]. }
  destruct (wait_until_queries (SLURMInterface.exists_ job_id) query w
              (one_query_exists job_id) 120 found 120 w5)
    as (added & w6 & H6 & E6 & Heff6).
  { exact (ev_scheduler _ _ _ _ E5). }
  { intros i Hi. rewrite (ev_count _ _ _ _ E5).
    replace (sys_count w + (0 + 0 + 0 + 1 + 0) + i)%nat
      with (sys_count w + 1 + i)%nat by lia.
    apply Hans. lia. }
  { lia. }
  fold polls in H6, E6, Heff6. fold last in E6.
  change (Z.of_nat 120) with 120 in H6.
  rewrite (bind_Ok _ _ w5 _ w6 H6).
  pose proof (evolves_trans _ _ _ _ _ _ _ E5 E6) as E56.
  assert (last <= 120)%nat as Hlast.
  { unfold last. destruct (polls <? 120)%nat eqn:E;
      [apply Nat.ltb_lt in E|]; lia. }
  destruct (exists_shows job_id w6 (found last)) as (logs' & Hlogs' & H7).
  { rewrite (ev_scheduler _ _ _ _ E56), (ev_count _ _ _ _ E56).
    replace (sys_count w + (0 + 0 + 0 + 1 + 0 + last))%nat
      with (sys_count w + 1 + last)%nat by lia.
    now apply Hobs. }
  fold query in H7.
  pose proof (after_command_evolves query logs' w6) as E7.
  rewrite (bind_Ok _ _ w6 _ _ H7).
  pose proof (evolves_trans _ _ _ _ _ _ _ E56 E7) as E57.
  eexists. eexists. split; [reflexivity|]. split; [reflexivity|].
  split; [exact (ev_trace _ _ _ _ E57)|].
  rewrite !effects_app, Heff6, !effects_query by assumption.
  cbn [effects List.filter is_log negb app info submitted].
  rewrite <- !app_assoc. reflexivity.
Qed.

(** X8. Take a usable payload, a batch file that can be written and a log
    level other than DEBUG.  When [sbatch] exits with an error, [create]
    does not notice: having written the batch file, made it accessible to
    all (mode 0o777) and run [sbatch], it goes on to query the accounting
    for the job named [None], 120 times with a sleep of one second after
    each query and once more afterwards, and only then returns [None], as
    long as the accounting has nothing to show for that name.  Nothing
    else happens but log entries. *)
Theorem create_polls_after_rejected_submission
  (idle : string) (configuration : SLURMJobRequestData)
  (work_dir batch_filename : string) (w : World) (f : file)
  (retcode : Z) (out err : string) :
  let path := os_path_join work_dir batch_filename in
  let query := "sacct --jobs None --noheader -P --format="
               ++ Py.join "," SLURMRegisteredJobData.variables in
  files w !! idle = Some f ->
  permits f X_OK = true ->
  permits f R_OK = true ->
  writable w path ->
  log_level w <> DEBUG ->
  scheduler w (sys_count w) ("sbatch --parsable " ++ path)
  = SysExit retcode out err ->
  retcode <> 0 ->
  (forall i, (i <= 120)%nat ->
             shows_nothing (scheduler w (sys_count w + 1 + i) query)) ->
  exists text w' added,
    to_sbatch_file_string configuration [". " ++ idle] = Ok text
    /\ SLURMIdleJob.create idle configuration work_dir batch_filename w
       = Some (Ok None, w')
    /\ trace w' = (trace w ++ added)%list
    /\ effects added
       = ([EvWrite path text; EvChmod path 511;
           EvSystem ("sbatch --parsable " ++ path)]
            ++ polling query 120 ++ [EvSystem query])%list.
Proof.
  intros path query F X R D L Hsb Hrc Hobs.
  destruct (create_runs idle configuration work_dir batch_filename w f None
              (fun _ => false) F X R D L)
    as (text & w' & added & Htext & Hrun & Htrace & Heff).
  - intros w3 Hs Hc.
    destruct (sbatch_of_answer path w3) as (logs & Hlogs & H).
    rewrite Hs, Hc in H. fold path in Hsb. rewrite Hsb in H.
    apply Z.eqb_neq in Hrc. rewrite Hrc in H. now exists logs.
  - exact Hobs.
  - rewrite (first_stop_none (fun _ => negb false) 120) in Heff by reflexivity.
    rewrite Nat.ltb_irrefl in Heff.
    exists text, w', added.
    split; [exact Htext|]. split; [exact Hrun|].
    split; [exact Htrace|exact Heff].
Qed.

Lemma create_polls_after_rejected_submission_witness :
  exists text w' added,
    to_sbatch_file_string demo_request [". " ++ "/opt/driver/idle_script.sh"]
    = Ok text
    /\ SLURMIdleJob.create "/opt/driver/idle_script.sh" demo_request
         "/builds" "config.sbatch" rejecting_world
       = Some (Ok None, w')
    /\ trace w' = (trace rejecting_world ++ added)%list
    /\ effects added
       = ([EvWrite "/builds/config.sbatch" text;
           EvChmod "/builds/config.sbatch" 511;
           EvSystem "sbatch --parsable /builds/config.sbatch"]
            ++ polling ("sacct --jobs None --noheader -P --format="
                        ++ Py.join "," SLURMRegisteredJobData.variables) 120
            ++ [EvSystem ("sacct --jobs None --noheader -P --format="
                          ++ Py.join "," SLURMRegisteredJobData.variables)])%list.
Proof.
  apply (create_polls_after_rejected_submission "/opt/driver/idle_script.sh"
           demo_request "/builds" "config.sbatch" rejecting_world
           {| content := "while true; do sleep 1; done"; mode := 493 |}
           1 "" "sbatch: error: invalid partition specified").
  - reflexivity.
  - reflexivity.
  - reflexivity.
  - split; reflexivity.
  - discriminate.
  - reflexivity.
  - lia.
  - intros i _. exists 0, ""%string, ""%string. split; [reflexivity|now right].
Defined.

(** X17. Take a usable payload, a batch file that can be written and a log
    level other than DEBUG.  When [sbatch] succeeds, [create] writes the
    batch file, makes it accessible to all (mode 0o777), runs [sbatch] on
    it, and queries the accounting for the id that [sbatch] printed, the
    text of its output up to the first semicolon or line end, with a sleep
    of one second after each query that does not show the job, until a
    query shows it or 120 queries have not.  It then queries once more,
    and this last answer alone decides the result: the job object with
    that id and the work directory, or [None].  Nothing else happens but
    log entries. *)
Theorem create_returns_job_found_by_last_query
  (idle : string) (configuration : SLURMJobRequestData)
  (work_dir batch_filename : string) (w : World) (f : file)
  (out err job_id : string) (found : nat -> bool) :
  let path := os_path_join work_dir batch_filename in
  let query := "sacct --jobs " ++ job_id ++ " --noheader -P --format="
               ++ Py.join "," SLURMRegisteredJobData.variables in
  let polls := first_stop (fun i => negb (found i)) 120 in
  let last := if (polls <? 120)%nat then S polls else 120%nat in
  files w !! idle = Some f ->
  permits f X_OK = true ->
  permits f R_OK = true ->
  writable w path ->
  log_level w <> DEBUG ->
  scheduler w (sys_count w) ("sbatch --parsable " ++ path) = SysExit 0 out err ->
  up_to [SLURMInterface.semicolon; Py.LF] (Py.strip out) job_id ->
  (forall i, (i <= 120)%nat ->
             if found i
             then exists code,
                 shows_state (scheduler w (sys_count w + 1 + i) query) code
             else shows_nothing (scheduler w (sys_count w + 1 + i) query)) ->
  exists text w' added,
    to_sbatch_file_string configuration [". " ++ idle] = Ok text
    /\ SLURMIdleJob.create idle configuration work_dir batch_filename w
       = Some (Ok (if found last
                   then Some (SLURMIdleJob.__init__ (Some job_id) work_dir)
                   else None), w')
    /\ trace w' = (trace w ++ added)%list
    /\ effects added
       = ([EvWrite path text; EvChmod path 511;
           EvSystem ("sbatch --parsable " ++ path)]
            ++ polling query polls
            ++ (if (polls <? 120)%nat then [EvSystem query] else [])
            ++ [EvSystem query])%list.
Proof.
  intros path query polls last F X R D L Hsb Hid Hobs.
  apply (create_runs idle configuration work_dir batch_filename w f
           (Some job_id) found F X R D L); [|exact Hobs].
  intros w3 Hs Hc.
  destruct (sbatch_of_answer path w3) as (logs & Hlogs & H).
  rewrite Hs, Hc in H. fold path in Hsb. rewrite Hsb in H.
  change (0 =? 0) with true in H. cbn iota in H.
  destruct H as (job_id' & H & Hid').
  rewrite (up_to_unique _ _ _ _ Hid Hid'). now exists logs.
Qed.

Lemma create_returns_job_found_by_last_query_witness :
  exists text w' added,
    to_sbatch_file_string demo_request [". " ++ "/opt/driver/idle_script.sh"]
    = Ok text
    /\ SLURMIdleJob.create "/opt/driver/idle_script.sh" demo_request
         "/builds" "config.sbatch" ready_world
       = Some (Ok (Some (SLURMIdleJob.__init__ (Some "1234") "/builds")), w')
    /\ trace w' = (trace ready_world ++ added)%list
    /\ effects added
       = [EvWrite "/builds/config.sbatch" text;
          EvChmod "/builds/config.sbatch" 511;
          EvSystem "sbatch --parsable /builds/config.sbatch";
          EvSystem ("sacct --jobs 1234 --noheader -P --format="
                    ++ Py.join "," SLURMRegisteredJobData.variables);
          EvSleep 1;
          EvSystem ("sacct --jobs 1234 --noheader -P --format="
                    ++ Py.join "," SLURMRegisteredJobData.variables);
          EvSystem ("sacct --jobs 1234 --noheader -P --format="
                    ++ Py.join "," SLURMRegisteredJobData.variables)].
Proof.
  apply (create_returns_job_found_by_last_query "/opt/driver/idle_script.sh"
           demo_request "/builds" "config.sbatch" ready_world
           {| content := "while true; do sleep 1; done"; mode := 493 |}
           ("1234;cluster" ++ Py.nl) "" "1234" (fun i => (1 <=? i)%nat)).
  - reflexivity.
  - reflexivity.
  - reflexivity.
  - split; reflexivity.
  - discriminate.
  - reflexivity.
  - split; [repeat constructor|].
    exists (";cluster")%string. split; [vm_compute; reflexivity|].
    right. exists SLURMInterface.semicolon, "cluster"%string.
    split; [reflexivity|now left].
  - intros i _. destruct i as [|i].
    + exists 0, ""%string, ""%string. split; [reflexivity|now right].
    + exists "PENDING"%string,
        "1234|7__8_9|PENDING|0:0|00:00:00||2023-01-02T09:30:00|Unknown|Unknown|acc|ci|02:00:00"%string,
        ""%string,
        "1234|7__8_9|PENDING|0:0|00:00:00||2023-01-02T09:30:00|Unknown|Unknown|acc|ci|02:00:00"%string,
        (@nil string).
      split; [reflexivity|].
      split; [vm_compute; discriminate|].
      split; [vm_compute; reflexivity|].
      split; [apply Nat.leb_le|]; vm_compute; reflexivity.
Defined.

(** ** Dispatching a script: the regular case *)

(** X13. Take a source that exists, may be read and holds well-formed
    UTF-8 (or no source, which stands for an empty script), and a
    workspace where the [.tmp] file can be written and the script path
    replaced.  Then [execute_script] returns the paths of the [.executed]
    marker and of the log, and leaves the text of the source, its line
    ends CR LF and CR turned into LF as reading in text mode does, under
    the script path of the phase: the text is first written to a [.tmp]
    file, which is then renamed onto the script path, so that no [.tmp]
    file is left.  No other file changes and no command is issued. *)
Theorem execute_script_publishes_source
  (self : SLURMIdleJob.t) (script_name : string) (source : option string)
  (text : string) (w : World) :
  let self' := SLURMIdleJob.set_current_execution self script_name in
  let script := os_path_join (SLURMIdleJob.work_dir self) script_name
                ++ ".gitlab_ci_step_script" in
  match source with
  | Some path =>
      exists f, files w !! path = Some f
                /\ permits f R_OK = true
                /\ Py.utf8 (content f) = true
                /\ text = Py.universal_newlines (content f)
  | None => text = ""
  end ->
  writable w (script ++ ".tmp") ->
  denied w !! script = None ->
  exists w' logs,
    SLURMIdleJob.execute_script self script_name source w
    = Some (self', Ok (script ++ ".executed", script ++ ".log"), w')
    /\ content <$> files w' !! script = Some text
    /\ files w' !! (script ++ ".tmp") = None
    /\ (forall other, other <> script -> other <> script ++ ".tmp" ->
                      files w' !! other = files w !! other)
    /\ sys_count w' = sys_count w
    /\ forallb is_log logs = true
    /\ trace w' = (trace w ++ EvWrite (script ++ ".tmp") text
                     :: EvRename (script ++ ".tmp") script :: logs)%list.
Proof.
  intros self' script Hread [Htmp Hfail] Hscript.
  assert (script ++ ".tmp" <> script) as Hne by now apply append_suffix_ne.
  unfold SLURMIdleJob.execute_script. fold self'.
  unfold SLURMIdleJob.get_execution_logfile_path,
    SLURMIdleJob.get_execution_executed_path,
    SLURMIdleJob.get_execution_script_path.
  cbn [self' SLURMIdleJob.set_current_execution SLURMIdleJob.current_execution
         SLURMIdleJob.work_dir rbind].
  fold script.
  generalize dependent script. intros script Htmp Hfail Hscript Hne.
  unfold lift. unfold bind at 1 2 3 4, try_finally.
  assert (match source with Some path => read_file path | None => ret "" end w
          = Some (Ok text, w)) as ->.
  { destruct source as [path|]; [|subst text; reflexivity].
    destruct Hread as (f & F & R & U & ->).
    unfold read_file, Py.decode. now rewrite F, R, U. }
  unfold bind at 1, write_file. rewrite Htmp, Hfail.
  unfold bind at 1, os_rename. cbn. rewrite lookup_insert_eq, Hscript. cbn.
  eexists. eexists. split; [reflexivity|]. cbn.
  split; [now rewrite lookup_insert_eq|].
  split; [rewrite lookup_insert_ne by congruence; now rewrite lookup_delete_eq|].
  split.
  { intros other H1 H2.
    rewrite lookup_insert_ne by congruence.
    rewrite lookup_delete_ne by congruence.
    now rewrite lookup_insert_ne by congruence. }
  split; [reflexivity|].
  split; [|rewrite <- !app_assoc; reflexivity].
  reflexivity.
Qed.

Lemma execute_script_publishes_source_witness :
  exists w' logs,
    SLURMIdleJob.execute_script job42 "step_script" (Some "/tmp/step.sh")
      dos_source_world
    = Some (SLURMIdleJob.set_current_execution job42 "step_script",
            Ok ("/builds/step_script.gitlab_ci_step_script.executed",
                "/builds/step_script.gitlab_ci_step_script.log"), w')
    /\ content <$> files w' !! "/builds/step_script.gitlab_ci_step_script"
       = Some ("echo hi" ++ Py.nl)
    /\ files w' !! "/builds/step_script.gitlab_ci_step_script.tmp" = None
    /\ (forall other,
          other <> "/builds/step_script.gitlab_ci_step_script" ->
          other <> "/builds/step_script.gitlab_ci_step_script.tmp" ->
          files w' !! other = files dos_source_world !! other)
    /\ sys_count w' = sys_count dos_source_world
    /\ forallb is_log logs = true
    /\ trace w' = EvWrite "/builds/step_script.gitlab_ci_step_script.tmp"
                    ("echo hi" ++ Py.nl)
                   :: EvRename "/builds/step_script.gitlab_ci_step_script.tmp"
                        "/builds/step_script.gitlab_ci_step_script" :: logs.
Proof.
  apply (execute_script_publishes_source job42 "step_script"
           (Some "/tmp/step.sh") ("echo hi" ++ Py.nl) dos_source_world).
  - exists {| content := "echo hi" ++ String Py.CR (String Py.LF "");
              mode := 420 |}.
    split; [reflexivity|]. split; [reflexivity|]. split; reflexivity.
  - split; reflexivity.
  - reflexivity.
Defined.

(** A source that is no UTF-8 text: [execute_script] raises the error of
    the decoder, after publishing an empty script. *)
Example execute_script_with_undecodable_source :
  exists w',
    SLURMIdleJob.execute_script job42 "step_script" (Some "/tmp/step.sh")
      binary_source_world
    = Some (SLURMIdleJob.set_current_execution job42 "step_script",
            Raise UnicodeDecodeError, w')
    /\ content <$> files w' !! "/builds/step_script.gitlab_ci_step_script"
       = Some "".
Proof. eexists. split; vm_compute; reflexivity. Qed.
